(** * OCR_Extraction: classification and confidence-scored extraction

    A shallow embedding of the document classifier, the field extractors
    ([services/extractor.py]) and the confidence calculator
    ([services/confidence_calculator.py]), with the schema table and
    [normalize_fields] of [services/models.py], the part of
    [process_document] that follows the OCR, and [run_light_api],
    [allowed_file] and [normalize_verified_fields] of
    [routes/ocr_routes.py].

    Modelling conventions.
    - Text is a list of characters over the ASCII range; on that range the
      tables below are those of Python's [str] methods and of the [re]
      module's [\d], [\s], [\w] and [re.I].
    - A Python [float] that is an input (the OCR average, the image-quality
      score) is an exact rational; arithmetic on it is exact.  The closed
      constant expressions of the source are evaluated in binary64 as well
      (module [Binary64]) and agree with the exact results.
    - [print] calls are dropped; the clock read by [process_with_confidence]
      is an explicit argument. *)

From Stdlib Require Import Bool Arith ZArith QArith Qround List String Ascii Lia Lqa.
From Stdlib Require Floats.PrimFloat Floats.FloatOps Floats.SpecFloat.
Import ListNotations.

Set Implicit Arguments.

(** ** Characters *)

Module Char.

Definition code (c : ascii) : nat := nat_of_ascii c.

Definition in_range (lo hi : nat) (c : ascii) : bool :=
  (lo <=? code c)%nat && (code c <=? hi)%nat.

Definition isdigit (c : ascii) : bool := in_range 48 57 c.
Definition isupper (c : ascii) : bool := in_range 65 90 c.
Definition islower (c : ascii) : bool := in_range 97 122 c.
Definition isalpha (c : ascii) : bool := isupper c || islower c.
Definition isalnum (c : ascii) : bool := isalpha c || isdigit c.

(** [str.isspace] on one character, which is also [\s]: TAB, LF, VT, FF, CR,
    the four separators FS, GS, RS, US, and the space. *)
Definition isspace (c : ascii) : bool :=
  in_range 9 13 c || in_range 28 32 c.

(** [\w] *)
Definition isword (c : ascii) : bool := isalnum c || (code c =? 95)%nat.

Definition upper (c : ascii) : ascii :=
  if islower c then ascii_of_nat (code c - 32) else c.
Definition lower (c : ascii) : ascii :=
  if isupper c then ascii_of_nat (code c + 32) else c.
Definition swapcase (c : ascii) : ascii :=
  if islower c then upper c else lower c.

(** The line boundaries of [str.splitlines]. *)
Definition islinebreak (c : ascii) : bool :=
  in_range 10 13 c || in_range 28 30 c.

Definition newline : ascii := ascii_of_nat 10.

End Char.

(** ** Strings *)

Definition text := list ascii.

Definition str (s : string) : text := list_ascii_of_string s.

Module Str.

Fixpoint eqb (a b : text) : bool :=
  match a, b with
  | [], [] => true
  | x :: a', y :: b' => Ascii.eqb x y && eqb a' b'
  | _, _ => false
  end.

Definition lstrip_by (f : ascii -> bool) (s : text) : text :=
  (fix go (s : text) : text :=
     match s with
     | c :: s' => if f c then go s' else s
     | [] => []
     end) s.

Definition rstrip_by (f : ascii -> bool) (s : text) : text :=
  rev (lstrip_by f (rev s)).

Definition strip_by (f : ascii -> bool) (s : text) : text :=
  rstrip_by f (lstrip_by f s).

(** [s.strip()] *)
Definition strip (s : text) : text := strip_by Char.isspace s.

Definition mem_char (cs : text) (c : ascii) : bool :=
  existsb (Ascii.eqb c) cs.

(** [s.strip(chars)] *)
Definition strip_chars (cs : text) (s : text) : text := strip_by (mem_char cs) s.

Definition upper (s : text) : text := map Char.upper s.
Definition lower (s : text) : text := map Char.lower s.

(** [s.title()]: a letter that follows a letter is lowered, any other letter
    is raised. *)
Fixpoint title_from (prev_cased : bool) (s : text) : text :=
  match s with
  | [] => []
  | c :: s' =>
      (if prev_cased then Char.lower c else Char.upper c)
        :: title_from (Char.isalpha c) s'
  end.
Definition title (s : text) : text := title_from false s.

(** [s.capitalize()] *)
Definition capitalize (s : text) : text :=
  match s with
  | [] => []
  | c :: s' => Char.upper c :: lower s'
  end.

(** [s.isalpha()] *)
Definition isalpha (s : text) : bool :=
  match s with [] => false | _ => forallb Char.isalpha s end.

(** [s.isupper()]: some cased character, and no lower-case one. *)
Definition isupper (s : text) : bool :=
  existsb Char.isupper s && negb (existsb Char.islower s).
Definition islower (s : text) : bool :=
  existsb Char.islower s && negb (existsb Char.isupper s).

Fixpoint starts_with (p s : text) : bool :=
  match p, s with
  | [], _ => true
  | x :: p', y :: s' => Ascii.eqb x y && starts_with p' s'
  | _ :: _, [] => false
  end.

(** [p in s] *)
Fixpoint contains (p s : text) : bool :=
  starts_with p s ||
  match s with
  | [] => false
  | _ :: s' => contains p s'
  end.

(** [s.replace(c, "")] for a one-character [c] *)
Definition remove_char (c : ascii) (s : text) : text :=
  filter (fun x => negb (Ascii.eqb x c)) s.

(** Splitting at every character of a class; empty pieces are kept, as
    [re.split] with a one-character pattern does. *)
Fixpoint split_on (f : ascii -> bool) (s : text) : list text :=
  match s with
  | [] => [[]]
  | c :: s' =>
      if f c then [] :: split_on f s'
      else match split_on f s' with
           | w :: ws => (c :: w) :: ws
           | [] => [[c]]
           end
  end.

Definition nonempty (s : text) : bool :=
  match s with [] => false | _ => true end.

(** [s.split()] *)
Definition split (s : text) : list text :=
  filter nonempty (split_on Char.isspace s).

(** [s.splitlines()].  A CR LF pair is one boundary and a final boundary opens
    no further line. *)
Fixpoint splitlines_from (cur : text) (s : text) : list text :=
  match s with
  | [] => match cur with [] => [] | _ => [rev cur] end
  | c :: s' =>
      if Char.islinebreak c then
        rev cur ::
          match s' with
          | d :: s'' =>
              if ((Char.code c =? 13)%nat && (Char.code d =? 10)%nat)%bool
              then splitlines_from [] s''
              else splitlines_from [] s'
          | [] => []
          end
      else splitlines_from (c :: cur) s'
  end.
Definition splitlines (s : text) : list text := splitlines_from [] s.

(** [sep.join(parts)] *)
Fixpoint join (sep : text) (parts : list text) : text :=
  match parts with
  | [] => []
  | [p] => p
  | p :: ps => p ++ sep ++ join sep ps
  end.

(** [[ln.strip() for ln in s.splitlines() if ln.strip()]] *)
Definition stripped_lines (s : text) : list text :=
  filter nonempty (map strip (splitlines s)).

End Str.

(** ** Regular expressions

    The fragment of Python's [re] that the sources use: character classes,
    greedy repetition of a class, optional and capturing groups, sequence,
    alternation, [^], [$] and [\b], with or without [re.I].  The matcher is a
    backtracking one in continuation-passing style, so that (as in [re]) the
    first alternative and the longest repetition are tried first and the
    leftmost match is returned. *)

Module Re.

(** A class [[...]] or [[^...]]. *)
Record cclass := { c_neg : bool; c_mem : ascii -> bool }.

Definition cls (f : ascii -> bool) : cclass := {| c_neg := false; c_mem := f |}.
Definition ncls (f : ascii -> bool) : cclass := {| c_neg := true; c_mem := f |}.

Definition rng (a b : ascii) : ascii -> bool :=
  Char.in_range (Char.code a) (Char.code b).
Definition oneof (s : string) : ascii -> bool := Str.mem_char (str s).
Definition anyof (fs : list (ascii -> bool)) : ascii -> bool :=
  fun c => existsb (fun f => f c) fs.

(** [.]: any character but the newline. *)
Definition dot : cclass := ncls (Ascii.eqb Char.newline).
Definition cd : cclass := cls Char.isdigit.
Definition cs : cclass := cls Char.isspace.
Definition cw : cclass := cls Char.isword.

(** Membership, under [re.I] up to the case of the character. *)
Definition cmatch (ci : bool) (k : cclass) (c : ascii) : bool :=
  xorb (c_neg k) (c_mem k c || (ci && c_mem k (Char.swapcase c))).

Inductive regex : Type :=
| Eps
| Cls (k : cclass)
| Rep (k : cclass) (lo : nat) (hi : option nat)
| Opt (r : regex)
| Seq (r1 r2 : regex)
| Alt (r1 r2 : regex)
| Grp (i : nat) (r : regex)
| Bol
| Eol
| Wordb.

(** Groups that took part in the match, the last binding first. *)
Definition captures := list (nat * text).

Fixpoint group (i : nat) (g : captures) : option text :=
  match g with
  | [] => None
  | (j, s) :: g' => if (i =? j)%nat then Some s else group i g'
  end.

Definition word_before (p : option ascii) : bool :=
  match p with Some c => Char.isword c | None => false end.
Definition word_after (s : text) : bool :=
  match s with c :: _ => Char.isword c | [] => false end.

Section Matcher.

Variable ci : bool.
Variable A : Type.

(** [k{lo,hi}], greedy: one more character first, the continuation after. *)
Fixpoint rep (k : cclass) (lo : nat) (hi : option nat)
    (p : option ascii) (s : text)
    (kont : option ascii -> text -> option A) {struct s} : option A :=
  let stop := match lo with O => kont p s | S _ => None end in
  match hi with
  | Some O => stop
  | _ =>
      match s with
      | [] => stop
      | c :: s' =>
          if cmatch ci k c then
            match rep k (pred lo) (option_map pred hi) (Some c) s' kont with
            | Some a => Some a
            | None => stop
            end
          else stop
      end
  end.

(** The character before the position, the remaining input and the groups
    are threaded through the continuation. *)
Fixpoint rmatch (r : regex) (p : option ascii) (s : text) (g : captures)
    (kont : option ascii -> text -> captures -> option A) : option A :=
  match r with
  | Eps => kont p s g
  | Cls k =>
      match s with
      | c :: s' => if cmatch ci k c then kont (Some c) s' g else None
      | [] => None
      end
  | Rep k lo hi => rep k lo hi p s (fun p' s' => kont p' s' g)
  | Opt r1 =>
      match rmatch r1 p s g kont with
      | Some a => Some a
      | None => kont p s g
      end
  | Seq r1 r2 => rmatch r1 p s g (fun p' s' g' => rmatch r2 p' s' g' kont)
  | Alt r1 r2 =>
      match rmatch r1 p s g kont with
      | Some a => Some a
      | None => rmatch r2 p s g kont
      end
  | Grp i r1 =>
      rmatch r1 p s g
        (fun p' s' g' =>
           kont p' s' ((i, firstn (List.length s - List.length s') s) :: g'))
  | Bol => match p with None => kont p s g | Some _ => None end
  | Eol =>
      match s with
      | [] => kont p s g
      | [c] => if Ascii.eqb c Char.newline then kont p s g else None
      | _ => None
      end
  | Wordb => if xorb (word_before p) (word_after s) then kont p s g else None
  end.

End Matcher.

(** A match object: where it starts, what it spans, what follows, its
    groups. *)
Record match_obj := {
  m_start : nat;
  m_text : text;
  m_after : text;
  m_groups : captures
}.

Definition grp (i : nat) (m : match_obj) : option text := group i (m_groups m).

Section Api.

Variable ci : bool.

Definition match_at (r : regex) (p : option ascii) (s : text) (pos : nat)
  : option match_obj :=
  rmatch ci r p s []
    (fun _ s' g =>
       Some {| m_start := pos; m_text := firstn (List.length s - List.length s') s;
               m_after := s'; m_groups := g |}).

Fixpoint search_from (r : regex) (p : option ascii) (s : text) (pos : nat)
  : option match_obj :=
  match match_at r p s pos with
  | Some m => Some m
  | None =>
      match s with
      | [] => None
      | c :: s' => search_from r (Some c) s' (S pos)
      end
  end.

(** [re.search(r, s)] *)
Definition search (r : regex) (s : text) : option match_obj :=
  search_from r None s 0.

(** [re.match(r, s)] *)
Definition match_ (r : regex) (s : text) : option match_obj :=
  match_at r None s 0.

(** [re.fullmatch(r, s)], as a test. *)
Definition fullmatch (r : regex) (s : text) : bool :=
  match rmatch ci r None s []
          (fun _ s' _ => match s' with [] => Some tt | _ => None end) with
  | Some _ => true
  | None => false
  end.

Definition found (r : regex) (s : text) : bool :=
  match search r s with Some _ => true | None => false end.

(** The successive non-overlapping matches, left to right.  A match is
    followed from its end; an empty one from one character further on. *)
Fixpoint matches_from (fuel : nat) (r : regex) (p : option ascii) (s : text)
    (pos : nat) : list match_obj :=
  match fuel with
  | O => []
  | S fuel' =>
      match search_from r p s pos with
      | None => []
      | Some m =>
          match rev (m_text m) with
          | [] =>
              match skipn (m_start m - pos) s with
              | [] => [m]
              | c :: s' => m :: matches_from fuel' r (Some c) s' (S (m_start m))
              end
          | c :: _ =>
              m :: matches_from fuel' r (Some c) (m_after m)
                     (m_start m + List.length (m_text m))
          end
      end
  end.

Definition finditer (r : regex) (s : text) : list match_obj :=
  matches_from (S (List.length s)) r None s 0.

(** [re.findall(r, s)] for a pattern whose only group is the whole match. *)
Definition findall (r : regex) (s : text) : list text :=
  map m_text (finditer r s).

(** [re.sub(r, repl, s)] for a constant replacement. *)
Fixpoint sub_from (ms : list match_obj) (repl : text) (s : text) (pos : nat)
  : text :=
  match ms with
  | [] => s
  | m :: ms' =>
      firstn (m_start m - pos) s ++ repl ++
      sub_from ms' repl (skipn (m_start m - pos + List.length (m_text m)) s)
        (m_start m + List.length (m_text m))
  end.

Definition sub (r : regex) (repl : text) (s : text) : text :=
  sub_from (finditer r s) repl s 0.

End Api.

(** Pattern syntax. *)
Definition lit (s : string) : regex :=
  fold_right (fun c r => Seq (Cls (cls (Ascii.eqb c))) r) Eps (str s).
Fixpoint seqs (rs : list regex) : regex :=
  match rs with
  | [] => Eps
  | [r] => r
  | r :: rs' => Seq r (seqs rs')
  end.
Fixpoint alts (rs : list regex) : regex :=
  match rs with
  | [] => Eps
  | [r] => r
  | r :: rs' => Alt r (alts rs')
  end.
Definition star (k : cclass) : regex := Rep k 0 None.
Definition plus (k : cclass) : regex := Rep k 1 None.
Definition exactly (n : nat) (k : cclass) : regex := Rep k n (Some n).
Definition between (lo hi : nat) (k : cclass) : regex := Rep k lo (Some hi).
Definition atleast (n : nat) (k : cclass) : regex := Rep k n None.
Definition chr (s : string) : regex := Cls (cls (oneof s)).

End Re.

(** ** Numbers: [round], [int] and [float] *)

Module Py.

Open Scope Z_scope.

(** [round(x)]: to the nearest integer, a tie to the even one. *)
Definition round (q : Q) : Z :=
  let f := Qfloor q in
  match Qcompare (q - inject_Z f) (1 # 2) with
  | Lt => f
  | Gt => f + 1
  | Eq => if Z.even f then f else f + 1
  end.

(** [round(x, 1)] *)
Definition round1 (q : Q) : Q := (inject_Z (round (q * 10)) / 10)%Q.

(** [int(x)] of a float: toward zero. *)
Definition trunc (q : Q) : Z :=
  if Qle_bool 0 q then Qfloor q else Qceiling q.

Definition digit_val (c : ascii) : Z := Z.of_nat (Char.code c - 48).

Definition underscore : ascii := ascii_of_nat 95.

(** The digits of a [digitpart]: digits, with single underscores between
    two of them. *)
Fixpoint digitpart_from (after_digit : bool) (s : text) : option text :=
  match s with
  | [] => if after_digit then Some [] else None
  | c :: s' =>
      if Char.isdigit c then option_map (cons c) (digitpart_from true s')
      else if (Ascii.eqb c underscore && after_digit)%bool then
        match s' with
        | d :: _ => if Char.isdigit d then digitpart_from false s' else None
        | [] => None
        end
      else None
  end.
Definition digitpart (s : text) : option text := digitpart_from false s.

Definition decimal (ds : text) : Z :=
  fold_left (fun acc c => 10 * acc + digit_val c) ds 0.

(** An optional sign, and the rest. *)
Definition signed (s : text) : bool * text :=
  match s with
  | c :: s' =>
      if Ascii.eqb c "-" then (true, s')
      else if Ascii.eqb c "+" then (false, s')
      else (false, s)
  | [] => (false, [])
  end.

Definition with_sign (neg : bool) (z : Z) : Z := if neg then - z else z.

(** [int(s)] of a string; [None] stands for the [ValueError]. *)
Definition int (s : text) : option Z :=
  let (neg, body) := signed (Str.strip s) in
  option_map (fun ds => with_sign neg (decimal ds)) (digitpart body).

(** The value of [float(s)]: not a number, an infinity, or the decimal read
    from the string. *)
Inductive pyfloat : Type :=
| FNan
| FInf (neg : bool)
| FFin (q : Q).

Definition is_e (c : ascii) : bool := Ascii.eqb c "e" || Ascii.eqb c "E".
Definition is_point (c : ascii) : bool := Ascii.eqb c ".".

Definition pow10 (e : Z) : Q :=
  match e with
  | Z0 => 1
  | Zpos p => inject_Z (10 ^ Zpos p)
  | Zneg p => (1 # Pos.pow 10 p)
  end.

(** [digitpart] or nothing *)
Definition digitpart_opt (s : text) : option text :=
  match s with [] => Some [] | _ => digitpart s end.

(** [number ::= [digitpart] "." digitpart | digitpart ["."]], as the digits
    before and after the point. *)
Definition number (s : text) : option (text * text) :=
  match Str.split_on is_point s with
  | [i] => option_map (fun ds => (ds, [])) (digitpart i)
  | [i; f] =>
      match digitpart_opt i, digitpart_opt f with
      | Some di, Some df =>
          match di, df with
          | [], [] => None
          | _, _ => Some (di, df)
          end
      | _, _ => None
      end
  | _ => None
  end.

Definition exponent (s : text) : option Z :=
  let (neg, body) := signed s in
  option_map (fun ds => with_sign neg (decimal ds)) (digitpart body).

Definition floatnumber (s : text) : option Q :=
  match Str.split_on is_e s with
  | [m] =>
      option_map
        (fun '(di, df) =>
           (inject_Z (decimal (di ++ df)) * pow10 (- Z.of_nat (List.length df)))%Q)
        (number m)
  | [m; e] =>
      match number m, exponent e with
      | Some (di, df), Some x =>
          Some (inject_Z (decimal (di ++ df))
                * pow10 (x - Z.of_nat (List.length df)))%Q
      | _, _ => None
      end
  | _ => None
  end.

(** [float(s)] of a string; [None] stands for the [ValueError]. *)
Definition float (s : text) : option pyfloat :=
  let (neg, body) := signed (Str.strip s) in
  let low := Str.lower body in
  if (Str.eqb low (str "inf") || Str.eqb low (str "infinity"))%bool
  then Some (FInf neg)
  else if Str.eqb low (str "nan") then Some FNan
  else option_map (fun q => FFin (if neg then - q else q)%Q) (floatnumber body).

(** Comparisons with the literals [0.0], [10.0] and [100.0].  The decimal is
    rounded to the nearest double first, so the bound moves by half the gap to
    the next double (a tie goes to the literal, whose significand is even). *)
Definition ge_0 (v : pyfloat) : bool :=
  match v with
  | FNan => false
  | FInf neg => negb neg
  | FFin q => Qle_bool (- (1 # Pos.pow 2 1075)) q
  end.
Definition le_bound (bound : Q) (half_gap : Q) (v : pyfloat) : bool :=
  match v with
  | FNan => false
  | FInf neg => neg
  | FFin q => Qle_bool q (bound + half_gap)
  end.
Definition le_10 : pyfloat -> bool := le_bound 10 (1 # Pos.pow 2 50).
Definition le_100 : pyfloat -> bool := le_bound 100 (1 # Pos.pow 2 47).

(** Truth value of [None] or a string. *)
Definition truthy (v : option text) : bool :=
  match v with
  | Some (_ :: _) => true
  | _ => false
  end.

End Py.

(** ** Dictionaries

    A [dict] keeps its keys in insertion order; assigning to a key that is
    present keeps its place. *)

Module Dict.

Definition dict (V : Type) := list (string * V).

Fixpoint get {V} (d : dict V) (k : string) : option V :=
  match d with
  | [] => None
  | (k', v) :: d' => if String.eqb k k' then Some v else get d' k
  end.

Fixpoint set {V} (d : dict V) (k : string) (v : V) : dict V :=
  match d with
  | [] => [(k, v)]
  | (k', v') :: d' =>
      if String.eqb k k' then (k, v) :: d' else (k', v') :: set d' k v
  end.

Definition keys {V} (d : dict V) : list string := map fst d.
Definition values {V} (d : dict V) : list V := map snd d.

Definition has {V} (d : dict V) (k : string) : bool :=
  match get d k with Some _ => true | None => false end.

Definition mem (k : string) (ks : list string) : bool :=
  existsb (String.eqb k) ks.

End Dict.

(** ** The confidence calculator ([services/confidence_calculator.py]) *)

Module Confidence.

Import Re.
Open Scope Z_scope.

Definition named (a b : string) : bool := String.eqb a b.
Definition len (s : text) : Z := Z.of_nat (List.length s).

(** A raw field value: [None] or a string. *)
Definition raw_value := option text.
Definition raw_fields := Dict.dict raw_value.

(** [FIELD_THRESHOLDS] *)
Definition FIELD_THRESHOLDS : Dict.dict Z :=
  [ ("aadhaar_number", 75); ("pan", 75); ("voter_id", 75); ("dl_number", 75);
    ("roll_no", 75);
    ("name", 75); ("student_name", 75); ("dob", 70); ("father_name", 75);
    ("mother_name", 75);
    ("mobile", 80); ("address", 75);
    ("issue_date", 70); ("valid_till", 70); ("year", 75);
    ("gender", 75); ("school_name", 75); ("cgpa", 70) ]%string.

Definition upper_AZ : ascii -> bool := rng "A" "Z".
Definition lower_az : ascii -> bool := rng "a" "z".
Definition digit_09 : ascii -> bool := rng "0" "9".

Module Rx.

(** [\d{12}] and [\d{10,14}] *)
Definition aadhaar_strict := exactly 12 cd.
Definition aadhaar_loose := between 10 14 cd.
(** [[A-Z]{5}[0-9]{4}[A-Z]] and [[A-Z0-9]{10}] *)
Definition pan_strict :=
  seqs [exactly 5 (cls upper_AZ); exactly 4 (cls digit_09); Cls (cls upper_AZ)].
Definition pan_loose := exactly 10 (cls (anyof [upper_AZ; digit_09])).
(** [[A-Z]{3,4}[0-9]{6,10}] and [[A-Z0-9]{9,15}] *)
Definition voter_strict :=
  seqs [between 3 4 (cls upper_AZ); between 6 10 (cls digit_09)].
Definition voter_loose := between 9 15 (cls (anyof [upper_AZ; digit_09])).
(** [[A-Z]{2}[0-9O]{6,20}], [[A-Z]{2}] and [\d{6,}] *)
Definition dl_strict :=
  seqs [exactly 2 (cls upper_AZ); between 6 20 (cls (anyof [digit_09; oneof "O"]))].
Definition two_capitals := exactly 2 (cls upper_AZ).
Definition six_digits := atleast 6 cd.
(** [[6-9]\d{9}] and [\d{10}] *)
Definition mobile_strict := seqs [Cls (cls (rng "6" "9")); exactly 9 cd].
Definition mobile_loose := exactly 10 cd.
(** [\d{7,12}] and [\d{5,15}] *)
Definition roll_strict := between 7 12 cd.
Definition roll_loose := between 5 15 cd.
(** [\d{1,2}[/-]\d{1,2}[/-]\d{4}] *)
Definition date :=
  seqs [between 1 2 cd; chr "/-"; between 1 2 cd; chr "/-"; exactly 4 cd].
(** [[|_\[\]{}]] *)
Definition ocr_noise := chr "|_[]{}".
(** [[A-Za-z]], [\d] *)
Definition letter := Cls (cls (anyof [upper_AZ; lower_az])).
Definition digit := Cls cd.
(** [\b(SCHOOL|COLLEGE|INSTITUTE|ACADEMY|UNIVERSITY)\b] *)
Definition institution :=
  seqs [Wordb;
        Grp 1 (alts [lit "SCHOOL"; lit "COLLEGE"; lit "INSTITUTE";
                     lit "ACADEMY"; lit "UNIVERSITY"]);
        Wordb].
(** [(19|20)\d{2}] and [\d{4}] *)
Definition year_strict :=
  seqs [Grp 1 (Alt (lit "19") (lit "20")); exactly 2 cd].
Definition year_loose := exactly 4 cd.
(** [[^A-Za-z0-9\s,.\-/()]] *)
Definition special :=
  ncls (anyof [upper_AZ; lower_az; digit_09; Char.isspace; oneof ",.-/()"]).

End Rx.

Definition name_fields : list string :=
  ["name"; "father_name"; "mother_name"; "student_name"]%string.
Definition date_fields : list string :=
  ["dob"; "issue_date"; "valid_till"]%string.

Definition one_of (v : text) (options : list string) : bool :=
  existsb (fun o => Str.eqb v (str o)) options.

Definition between_Z (lo x hi : Z) : bool := (lo <=? x) && (x <=? hi).

(** The three integers of a date that was split at its separators; [None]
    when one does not parse. *)
Definition date_parts (s : text) : option (Z * Z * Z) :=
  match Str.split_on (oneof "/-") s with
  | a :: b :: c :: _ =>
      match Py.int a, Py.int b, Py.int c with
      | Some day, Some month, Some year => Some (day, month, year)
      | _, _, _ => None
      end
  | _ => None
  end.

(** [sum(c.isalpha() or c.isspace() for c in s) / len(s)] *)
Definition alpha_ratio (s : text) : Q :=
  (inject_Z (len (filter (fun c => Char.isalpha c || Char.isspace c) s))
   / inject_Z (len s))%Q.

Definition word_count_of (s : text) : Z := Z.of_nat (List.length (Str.split s)).

Definition name_confidence (value_str : text) : Q :=
  if len value_str <? 3 then 0.30%Q
  else if 50 <? len value_str then 0.50%Q
  else
    let ratio := alpha_ratio value_str in
    let confidence :=
      if Qle_bool 0.90 ratio then
        let word_count := word_count_of value_str in
        if between_Z 2 word_count 5 then 0.88%Q
        else if word_count =? 1 then 0.75%Q
        else 0.70%Q
      else if Qle_bool 0.70 ratio then 0.60%Q
      else 0.35%Q in
    let confidence :=
      if found false Rx.ocr_noise value_str then (confidence * 0.75)%Q
      else confidence in
    if existsb (fun w => len w =? 1) (Str.split value_str)
    then (confidence * 0.85)%Q else confidence.

Definition address_confidence (value_str : text) : Q :=
  if len value_str <? 10 then 0.40%Q
  else if 200 <? len value_str then 0.55%Q
  else
    let has_letters := found false Rx.letter value_str in
    let has_numbers := found false Rx.digit value_str in
    let has_comma := Str.mem_char value_str "," in
    if has_letters && has_numbers && has_comma then 0.85%Q
    else if has_letters && (has_numbers || has_comma) then 0.75%Q
    else if has_letters then 0.60%Q
    else 0.40%Q.

Definition cgpa_confidence (value_str : text) : Q :=
  match Py.float value_str with
  | Some cgpa_val =>
      if Py.ge_0 cgpa_val && Py.le_10 cgpa_val then 0.92%Q
      else if Py.ge_0 cgpa_val && Py.le_100 cgpa_val then 0.65%Q
      else 0.40%Q
  | None => 0.30%Q
  end.

Definition date_confidence (value_str : text) : Q :=
  if fullmatch false Rx.date value_str then
    match date_parts value_str with
    | Some (day, month, year) =>
        if between_Z 1 day 31 && between_Z 1 month 12
           && between_Z 1900 year 2100
        then 0.95%Q else 0.60%Q
    | None => 0.50%Q
    end
  else 0.40%Q.

(** The branch of [calculate_pattern_confidence] for a non-blank value,
    before the conversion to a percentage. *)
Definition pattern_score (field_name : string) (value_str : text) : Q :=
  if named field_name "aadhaar_number" then
    if fullmatch false Rx.aadhaar_strict (Str.remove_char " " value_str)
    then 0.98%Q
    else if fullmatch false Rx.aadhaar_loose (Str.remove_char " " value_str)
    then 0.75%Q
    else 0.40%Q
  else if named field_name "pan" then
    if fullmatch false Rx.pan_strict value_str then 0.98%Q
    else if fullmatch false Rx.pan_loose value_str then 0.70%Q
    else 0.35%Q
  else if named field_name "voter_id" then
    if fullmatch false Rx.voter_strict value_str then 0.95%Q
    else if fullmatch false Rx.voter_loose value_str then 0.65%Q
    else 0.40%Q
  else if named field_name "dl_number" then
    if fullmatch false Rx.dl_strict value_str then 0.95%Q
    else if found false Rx.two_capitals value_str
            && found false Rx.six_digits value_str
    then 0.75%Q
    else 0.45%Q
  else if named field_name "mobile" then
    if fullmatch false Rx.mobile_strict value_str then 0.97%Q
    else if fullmatch false Rx.mobile_loose value_str then 0.65%Q
    else 0.35%Q
  else if named field_name "roll_no" then
    if fullmatch false Rx.roll_strict value_str then 0.92%Q
    else if fullmatch false Rx.roll_loose value_str then 0.75%Q
    else 0.50%Q
  else if Dict.mem field_name date_fields then date_confidence value_str
  else if named field_name "gender" then
    if one_of (Str.lower value_str)
         ["male"; "female"; "transgender"; "m"; "f"]%string
    then 0.99%Q else 0.50%Q
  else if Dict.mem field_name name_fields then name_confidence value_str
  else if named field_name "address" then address_confidence value_str
  else if named field_name "school_name" then
    if len value_str <? 5 then 0.40%Q
    else if 100 <? len value_str then 0.50%Q
    else if found true Rx.institution value_str then 0.90%Q
    else 0.65%Q
  else if named field_name "cgpa" then cgpa_confidence value_str
  else if named field_name "year" then
    if fullmatch false Rx.year_strict value_str then 0.95%Q
    else if fullmatch false Rx.year_loose value_str then 0.65%Q
    else 0.35%Q
  else
    if 0 <? len value_str then
      if len value_str <? 2 then 0.40%Q
      else if 100 <? len value_str then 0.55%Q
      else 0.65%Q
    else 0%Q.

(** [calculate_pattern_confidence] *)
Definition calculate_pattern_confidence
    (field_name : string) (field_value : raw_value) (document_type : string)
  : Z :=
  match field_value with
  | None => 0
  | Some v =>
      match Str.strip v with
      | [] => 0
      | value_str => Py.round (pattern_score field_name value_str * 100)
      end
  end.

(** *** Business rules *)

(** [len(re.findall(r'[^A-Za-z0-9\s,.\-/()]', value_str))] *)
Definition special_count (value_str : text) : Z :=
  Z.of_nat (List.length (findall false (Cls Rx.special) value_str)).

(** The number of characters at the head of [s] equal to [c]. *)
Fixpoint run_of (c : ascii) (s : text) : nat :=
  match s with
  | d :: s' => if Ascii.eqb c d then S (run_of c s') else O
  | [] => O
  end.

(** [re.search(r'(.)\1{4,}', s)]: some character other than the newline,
    then four or more copies of it. *)
Fixpoint has_repeat (s : text) : bool :=
  match s with
  | [] => false
  | c :: s' =>
      (negb (Ascii.eqb c Char.newline) && (4 <=? run_of c s')%nat)
      || has_repeat s'
  end.

Definition numeric_fields : list string :=
  ["aadhaar_number"; "pan"; "mobile"; "roll_no"]%string.

(** The deductions, one per [score -= ...] of the source. *)
Definition length_deduction (value_str : text) : Z :=
  if len value_str =? 1 then 40
  else if 200 <? len value_str then 30
  else 0.
Definition special_deduction (value_str : text) : Z :=
  if 0 <? special_count value_str
  then Z.min 30 (special_count value_str * 5) else 0.
Definition case_deduction (field_name : string) (value_str : text) : Z :=
  if Dict.mem field_name name_fields
     && (Str.isupper value_str || Str.islower value_str)
  then 10 else 0.
Definition repeat_deduction (value_str : text) : Z :=
  if has_repeat value_str then 30 else 0.
Definition digit_deduction (field_name : string) (value_str : text) : Z :=
  if Dict.mem field_name numeric_fields
     && negb (existsb Char.isdigit value_str)
  then 50 else 0.

(** [calculate_business_rules_confidence] *)
Definition calculate_business_rules_confidence
    (field_name : string) (field_value : raw_value) : Z :=
  match field_value with
  | None | Some [] => 0
  | Some v =>
      let value_str := Str.strip v in
      let score := 100 in
      if len value_str =? 0 then 0
      else
        let score := score - length_deduction value_str in
        let score := score - special_deduction value_str in
        let score := score - case_deduction field_name value_str in
        let score := score - repeat_deduction value_str in
        let score := score - digit_deduction field_name value_str in
        Z.max 0 score
  end.

(** *** Hybrid confidence *)

Record breakdown := {
  tesseract_ocr : Q;
  pattern_match : Z;
  image_quality_part : Q;
  business_rules : Z
}.

Record hybrid_result := {
  final_confidence : Z;
  hybrid_breakdown : breakdown
}.

(** What the calculator reads in [meta]: the value found at
    [meta['field_ocr_confidences']['overall_stats']['average']], and [None]
    when a step of that path is missing. *)
Record meta_info := { overall_average : option Q }.

(** [calculate_hybrid_confidence] *)
Definition calculate_hybrid_confidence
    (field_name : string) (field_value : raw_value) (document_type : string)
    (tesseract_conf : option Q) (image_quality : option Q) (meta : meta_info)
  : hybrid_result :=
  let pattern_conf :=
    calculate_pattern_confidence field_name field_value document_type in
  let business_conf :=
    calculate_business_rules_confidence field_name field_value in
  let tess_conf : Q :=
    match overall_average meta with
    | Some avg_conf => avg_conf
    | None =>
        match tesseract_conf with
        | Some t => t
        | None => inject_Z pattern_conf
        end
    end in
  let img_quality : Q :=
    match image_quality with Some q => q | None => 75.0%Q end in
  let final := (tess_conf * 0.40 + inject_Z pattern_conf * 0.30
                + img_quality * 0.20 + inject_Z business_conf * 0.10)%Q in
  {| final_confidence := Py.round final;
     hybrid_breakdown :=
       {| tesseract_ocr := Py.round1 tess_conf;
          pattern_match := pattern_conf;
          image_quality_part := Py.round1 img_quality;
          business_rules := business_conf |} |}.

(** *** Cross-field validation *)

(** The [reason] strings, by their format and arguments. *)
Inductive reason : Type :=
| Invalid_day (day : Z)
| Invalid_month (month : Z)
| Unrealistic_year (year : Z)
| Failed_to_parse_date
| Invalid_date_format
| Valid_date
| Valid_year
| Year_is_not_numeric
| Valid_CGPA
| CGPA_out_of_range (cgpa_val : Py.pyfloat)
| CGPA_is_not_numeric
| Father_name_same_as_student_name
| Invalid_gender_value (gender : text)
| No_reason.

Record finding := {
  valid : bool;
  confidence_adjustment : Z;
  finding_reason : reason
}.

Definition get_value (fields : raw_fields) (field_name : string) : raw_value :=
  match Dict.get fields field_name with
  | Some field_data => field_data
  | None => None
  end.

Definition text_of (v : raw_value) : text :=
  match v with Some s => s | None => [] end.

(** The body of the [dob] check: validity, penalty and reason. *)
Definition check_dob (dob : text) : bool * Z * reason :=
  match match_ false Rx.date dob with
  | Some _ =>
      match date_parts dob with
      | Some (day, month, year) =>
          if negb (between_Z 1 day 31) then (false, 40, Invalid_day day)
          else if negb (between_Z 1 month 12)
          then (false, 40, Invalid_month month)
          else if negb (between_Z 1900 year 2024)
          then (false, 30, Unrealistic_year year)
          else (true, 0, No_reason)
      | None => (false, 50, Failed_to_parse_date)
      end
  | None => (false, 50, Invalid_date_format)
  end.

Definition dob_finding (dob : text) : finding :=
  let '(is_valid_date, penalty, why) := check_dob dob in
  {| valid := is_valid_date;
     confidence_adjustment := if 0 <? penalty then - penalty else 0;
     finding_reason := if 0 <? penalty then why else Valid_date |}.

Definition year_finding (year : text) : finding :=
  match Py.int year with
  | Some year_int =>
      if between_Z 1990 year_int 2025
      then {| valid := true; confidence_adjustment := 0;
              finding_reason := Valid_year |}
      else {| valid := false; confidence_adjustment := -30;
              finding_reason := Unrealistic_year year_int |}
  | None => {| valid := false; confidence_adjustment := -40;
               finding_reason := Year_is_not_numeric |}
  end.

Definition cgpa_finding (cgpa : text) : finding :=
  match Py.float cgpa with
  | Some cgpa_val =>
      if Py.ge_0 cgpa_val && Py.le_10 cgpa_val
      then {| valid := true; confidence_adjustment := 0;
              finding_reason := Valid_CGPA |}
      else {| valid := false; confidence_adjustment := -35;
              finding_reason := CGPA_out_of_range cgpa_val |}
  | None => {| valid := false; confidence_adjustment := -30;
               finding_reason := CGPA_is_not_numeric |}
  end.

Definition valid_genders : list string :=
  ["male"; "female"; "transgender"; "m"; "f"; "other"]%string.

(** [validate_cross_fields] *)
Definition validate_cross_fields (fields : raw_fields) (document_type : string)
  : Dict.dict finding :=
  let validation_results : Dict.dict finding := [] in
  let dob := get_value fields "dob" in
  let validation_results :=
    if Py.truthy dob
    then Dict.set validation_results "dob" (dob_finding (text_of dob))
    else validation_results in
  let year := get_value fields "year" in
  let validation_results :=
    if Py.truthy year
    then Dict.set validation_results "year" (year_finding (text_of year))
    else validation_results in
  let cgpa := get_value fields "cgpa" in
  let validation_results :=
    if Py.truthy cgpa
    then Dict.set validation_results "cgpa" (cgpa_finding (text_of cgpa))
    else validation_results in
  let name :=
    if Py.truthy (get_value fields "name") then get_value fields "name"
    else get_value fields "student_name" in
  let father := get_value fields "father_name" in
  let validation_results :=
    if Py.truthy name && Py.truthy father
       && Str.eqb (Str.lower (Str.strip (text_of name)))
                  (Str.lower (Str.strip (text_of father)))
    then Dict.set validation_results "father_name"
           {| valid := false; confidence_adjustment := -50;
              finding_reason := Father_name_same_as_student_name |}
    else validation_results in
  let gender := get_value fields "gender" in
  let validation_results :=
    if Py.truthy gender
       && negb (one_of (Str.lower (Str.strip (text_of gender))) valid_genders)
    then Dict.set validation_results "gender"
           {| valid := false; confidence_adjustment := -40;
              finding_reason := Invalid_gender_value (text_of gender) |}
    else validation_results in
  validation_results.

(** *** Annotated fields *)

Inductive status : Type := PASS | REVIEW | FAIL.

Record annotated := {
  value : raw_value;
  confidence : Z;
  field_breakdown : breakdown;
  threshold : Z;
  field_status : status;
  cross_validation : option finding
}.

Definition annotated_fields := Dict.dict annotated.

(** One turn of the loop of [add_confidence_to_fields]. *)
Definition annotate
    (cross_validation : Dict.dict finding) (document_type : string)
    (ocr_confidences : option (Dict.dict Q)) (image_quality : option Q)
    (meta : meta_info) (field_name : string) (field_value : raw_value)
  : annotated :=
  let tess_conf :=
    match ocr_confidences with
    | Some ((_ :: _) as d) => Dict.get d field_name
    | _ => None
    end in
  let hybrid_result :=
    calculate_hybrid_confidence field_name field_value document_type
      tess_conf image_quality meta in
  let final_conf := final_confidence hybrid_result in
  let cross_val := Dict.get cross_validation field_name in
  let adjustment :=
    match cross_val with
    | Some f => confidence_adjustment f
    | None => 0
    end in
  let final_conf := Z.max 0 (final_conf + adjustment) in
  let threshold :=
    match Dict.get FIELD_THRESHOLDS field_name with
    | Some t => t
    | None => 80
    end in
  let status :=
    if threshold <=? final_conf then PASS
    else if threshold - 10 <=? final_conf then REVIEW
    else FAIL in
  {| value := field_value;
     confidence := final_conf;
     field_breakdown := hybrid_breakdown hybrid_result;
     threshold := threshold;
     field_status := status;
     cross_validation := cross_val |}.

(** [add_confidence_to_fields] *)
Definition add_confidence_to_fields
    (fields : raw_fields) (document_type : string)
    (ocr_confidences : option (Dict.dict Q)) (image_quality : option Q)
    (meta : meta_info) : annotated_fields :=
  let cross_validation := validate_cross_fields fields document_type in
  fold_left
    (fun annotated_fields '(field_name, field_value) =>
       Dict.set annotated_fields field_name
         (annotate cross_validation document_type ocr_confidences
            image_quality meta field_name field_value))
    fields [].

(** *** Overall confidence *)

Definition importance_weights : Dict.dict Q :=
  [ ("aadhaar_number", 1.5); ("pan", 1.5); ("voter_id", 1.5);
    ("dl_number", 1.5);
    ("name", 1.3); ("student_name", 1.3); ("dob", 1.2);
    ("father_name", 1.0); ("mother_name", 0.9);
    ("mobile", 1.0); ("address", 0.9);
    ("issue_date", 0.8); ("valid_till", 0.8); ("year", 0.8);
    ("gender", 0.7); ("school_name", 0.8); ("roll_no", 1.0);
    ("cgpa", 0.7) ]%Q%string.

Definition weight_of (field_name : string) : Q :=
  match Dict.get importance_weights field_name with
  | Some w => w
  | None => 1.0%Q
  end.

(** [value is not None and (not isinstance(value, str) or value.strip())] *)
Definition has_value (v : raw_value) : bool :=
  match v with
  | Some s => Str.nonempty (Str.strip s)
  | None => false
  end.

(** The two running sums of the loop of [calculate_overall_confidence]. *)
Definition weighted_sums (fs : annotated_fields) : Q * Q :=
  fold_left
    (fun '(total_weighted, total_weight) '(field_name, field_data) =>
       if has_value (value field_data) then
         let weight := weight_of field_name in
         ((total_weighted + inject_Z (confidence field_data) * weight)%Q,
          (total_weight + weight)%Q)
       else (total_weighted, total_weight))
    fs (0%Q, 0%Q).

(** [calculate_overall_confidence] *)
Definition calculate_overall_confidence (fs : annotated_fields) : Z :=
  match fs with
  | [] => 0
  | _ =>
      let '(total_weighted, total_weight) := weighted_sums fs in
      if Qeq_bool total_weight 0 then 0
      else Py.round (total_weighted / total_weight)
  end.

(** *** The whole pipeline *)

Record table_row := {
  subject : option text;
  grade : text;
  marks : text
}.

(** The [penalty_multiplier] strings. *)
Inductive multiplier : Type :=
| Sixty_no_subjects
| Seventy_five_only (table_count : Z)
| Ninety_only (table_count : Z).

Record table_penalty := {
  applied : bool;
  original_confidence : Z;
  penalized_confidence : Z;
  penalty_multiplier : multiplier;
  penalty_table_count : Z
}.

Record low_entry := {
  low_field : string;
  low_confidence : Z;
  low_threshold : Z;
  low_status : status
}.

Inductive meta_value : Type :=
| MPenalty (p : table_penalty)
| MLow (l : list low_entry)
| MInt (z : Z)
| MBool (b : bool)
| MText (s : text).

Definition metadata := Dict.dict meta_value.

(** The argument of [process_with_confidence], by the keys that it reads.
    A key that may be missing is an [option]; [table] is [None] when the
    value under that key is not a list. *)
Record raw_result := {
  document_type : option string;
  fields : option raw_fields;
  table : option (list table_row);
  meta : meta_info;
  input_metadata : option metadata
}.

(** The dictionary that it returns: the keys of the argument, [fields]
    replaced, and the three keys that it adds. *)
Record enhanced_result := {
  e_document_type : option string;
  e_fields : annotated_fields;
  e_table : option (list table_row);
  e_meta : meta_info;
  overall_confidence : Z;
  e_confidence : Z;
  e_metadata : option metadata
}.

(** The penalty branch: the penalised score and the [penalty] string, if
    any. *)
Definition table_penalty_of (table_count : Z) (overall_confidence : Z)
  : Z * option multiplier :=
  if table_count =? 0
  then (Py.trunc (inject_Z overall_confidence * 0.6), Some Sixty_no_subjects)
  else if table_count <? 3
  then (Py.trunc (inject_Z overall_confidence * 0.75),
        Some (Seventy_five_only table_count))
  else if table_count <? 5
  then (Py.trunc (inject_Z overall_confidence * 0.9),
        Some (Ninety_only table_count))
  else (overall_confidence, None).

Definition low_confidence_fields (fs : annotated_fields) : list low_entry :=
  map (fun '(fname, fdata) =>
         {| low_field := fname; low_confidence := confidence fdata;
            low_threshold := threshold fdata;
            low_status := field_status fdata |})
      (filter (fun '(_, fdata) =>
                 match field_status fdata with
                 | FAIL | REVIEW => true
                 | PASS => false
                 end) fs).

(** The state of [process_with_confidence] between its statements: the
    local [overall_confidence], the dictionary being built, and the caller's
    dictionary, whose [metadata] the copy shares. *)
Record state := {
  local_confidence : Z;
  enhanced : enhanced_result;
  caller : raw_result
}.

(** Lines 603-608: the copy, with [fields], [overall_confidence] and
    [confidence] set. *)
Definition copy_step (extraction_result : raw_result)
    (fs : annotated_fields) : state :=
  let overall := calculate_overall_confidence fs in
  {| local_confidence := overall;
     enhanced :=
       {| e_document_type := document_type extraction_result;
          e_fields := fs;
          e_table := table extraction_result;
          e_meta := meta extraction_result;
          overall_confidence := overall;
          e_confidence := overall;
          e_metadata := input_metadata extraction_result |};
     caller := extraction_result |}.

Definition with_metadata (e : enhanced_result) (m : option metadata)
  : enhanced_result :=
  {| e_document_type := e_document_type e; e_fields := e_fields e;
     e_table := e_table e; e_meta := e_meta e;
     overall_confidence := overall_confidence e;
     e_confidence := e_confidence e; e_metadata := m |}.

Definition with_input_metadata (r : raw_result) (m : option metadata)
  : raw_result :=
  {| document_type := document_type r; fields := fields r; table := table r;
     meta := meta r; input_metadata := m |}.

(** Lines 610-643: the Marksheet penalty.  It rebinds the local variable and
    writes [table_penalty] into the [metadata] dictionary, which is the
    caller's own when the caller had one. *)
Definition penalty_step (st : state) : state :=
  match e_document_type (enhanced st) with
  | Some doc =>
      if named doc "Marksheet" then
        let table_count :=
          match table (caller st) with
          | Some rows => Z.of_nat (List.length rows)
          | None => 0
          end in
        let original_conf := local_confidence st in
        let '(overall, penalty) := table_penalty_of table_count original_conf in
        match penalty with
        | Some p =>
            let info :=
              MPenalty {| applied := true; original_confidence := original_conf;
                          penalized_confidence := overall;
                          penalty_multiplier := p;
                          penalty_table_count := table_count |} in
            match e_metadata (enhanced st) with
            | Some m =>
                let m' := Dict.set m "table_penalty" info in
                {| local_confidence := overall;
                   enhanced := with_metadata (enhanced st) (Some m');
                   caller := with_input_metadata (caller st) (Some m') |}
            | None =>
                {| local_confidence := overall;
                   enhanced :=
                     with_metadata (enhanced st)
                       (Some (Dict.set [] "table_penalty" info));
                   caller := caller st |}
            end
        | None =>
            {| local_confidence := overall; enhanced := enhanced st;
               caller := caller st |}
        end
      else st
  | None => st
  end.

(** Lines 645-663: the low-confidence list and a new [metadata]
    dictionary.  [now] is [datetime.utcnow().isoformat()]. *)
Definition metadata_step (now : text) (st : state) : state :=
  let low_conf := low_confidence_fields (e_fields (enhanced st)) in
  let n := Z.of_nat (List.length low_conf) in
  let suggest_rescan := (local_confidence st <? 70) || (3 <=? n) in
  {| local_confidence := local_confidence st;
     enhanced :=
       with_metadata (enhanced st)
         (Some [ ("low_confidence_fields", MLow low_conf);
                 ("low_confidence_count", MInt n);
                 ("suggest_rescan", MBool suggest_rescan);
                 ("reviewed", MBool false);
                 ("processed_at", MText now) ]%string);
     caller := caller st |}.

(** What a call leaves behind: the returned dictionary, or the argument
    itself when it has no [fields], and the caller's dictionary after the
    call. *)
Inductive returned : Type :=
| Unchanged (r : raw_result)
| Enhanced (e : enhanced_result).

(** [process_with_confidence] *)
Definition process_with_confidence
    (extraction_result : raw_result)
    (ocr_confidences : option (Dict.dict Q)) (image_quality : option Q)
    (now : text) : returned * raw_result :=
  match fields extraction_result with
  | None => (Unchanged extraction_result, extraction_result)
  | Some fs =>
      let doc :=
        match document_type extraction_result with
        | Some d => d
        | None => "Unknown"%string
        end in
      let annotated_fields :=
        add_confidence_to_fields fs doc ocr_confidences image_quality
          (meta extraction_result) in
      let st :=
        metadata_step now
          (penalty_step (copy_step extraction_result annotated_fields)) in
      (Enhanced (enhanced st), caller st)
  end.

End Confidence.

(** ** The classifier ([services/extractor.py]) *)

Module Classifier.

Import Re.
Open Scope Z_scope.

Definition upper_AZ : ascii -> bool := rng "A" "Z".
Definition digit_09 : ascii -> bool := rng "0" "9".

(** The patterns of the two classifiers; all are searched in the upper-cased
    text, without flags. *)
Module Rx.

(** [\b[A-Z]{5}[0-9]{4}[A-Z]\b] *)
Definition pan_id :=
  seqs [Wordb; exactly 5 (cls upper_AZ); exactly 4 (cls digit_09);
        Cls (cls upper_AZ); Wordb].
(** [\bFATHER'?S? NAME\b] *)
Definition fathers_name :=
  seqs [Wordb; lit "FATHER"; Opt (lit "'"); Opt (lit "S"); lit " NAME"; Wordb].
(** [\b\d{2}[/-]\d{2}[/-]\d{4}\b] *)
Definition date :=
  seqs [Wordb; exactly 2 cd; chr "/-"; exactly 2 cd; chr "/-"; exactly 4 cd;
        Wordb].
(** [\b\d{4}\s*\d{4}\s*\d{4}\b] *)
Definition aadhaar_no :=
  seqs [Wordb; exactly 4 cd; star cs; exactly 4 cd; star cs; exactly 4 cd;
        Wordb].
(** [\b(S/O|D/O|C/O)\b] *)
Definition care_of :=
  seqs [Wordb; Grp 1 (alts [lit "S/O"; lit "D/O"; lit "C/O"]); Wordb].
(** [\b[A-Z]{3,4}[0-9]{6,10}\b] *)
Definition epic_id :=
  seqs [Wordb; between 3 4 (cls upper_AZ); between 6 10 (cls digit_09); Wordb].
(** [\bEPIC\s*NO\b] and [\bPART\s*NO\b] *)
Definition epic_no := seqs [Wordb; lit "EPIC"; star cs; lit "NO"; Wordb].
Definition part_no := seqs [Wordb; lit "PART"; star cs; lit "NO"; Wordb].
(** [\b[A-Z]{2}[0-9O]{6,20}\b] *)
Definition dl_id :=
  seqs [Wordb; exactly 2 (cls upper_AZ);
        between 6 20 (cls (anyof [digit_09; oneof "O"])); Wordb].
(** [\bVALID\s*(TILL|UPTO)\b] *)
Definition valid_till :=
  seqs [Wordb; lit "VALID"; star cs; Grp 1 (Alt (lit "TILL") (lit "UPTO"));
        Wordb].
(** [\b(LMV|MCWG|TRANS)\b] *)
Definition vehicle_class :=
  seqs [Wordb; Grp 1 (alts [lit "LMV"; lit "MCWG"; lit "TRANS"]); Wordb].
(** [\b(A1|A2|B1|B2|C1|C2|GRADE|CGPA)\b] *)
Definition grade :=
  seqs [Wordb;
        Grp 1 (alts [lit "A1"; lit "A2"; lit "B1"; lit "B2"; lit "C1";
                     lit "C2"; lit "GRADE"; lit "CGPA"]);
        Wordb].
(** [\b(SCHOOL|COLLEGE|INSTITUTE)\b] *)
Definition school :=
  seqs [Wordb; Grp 1 (alts [lit "SCHOOL"; lit "COLLEGE"; lit "INSTITUTE"]);
        Wordb].
(** [\bROLL\s*NO\b] *)
Definition roll_no := seqs [Wordb; lit "ROLL"; star cs; lit "NO"; Wordb].

End Rx.

(** [kw in txt] *)
Definition has (kw : string) (txt : text) : bool := Str.contains (str kw) txt.

(** [if c: score += n] *)
Definition points (c : bool) (n : Z) : Z := if c then n else 0.

Definition pan_score (txt : text) : Z :=
  points (found false Rx.pan_id txt) 50
  + points (has "INCOME TAX" (firstn 500 txt)) 40
  + points (has "PERMANENT ACCOUNT" (firstn 500 txt)) 30
  + points (has "GOVT. OF INDIA INCOME TAX" txt) 20
  + points (found false Rx.fathers_name txt) 15
  + points (found false Rx.date txt) 10
  - points (has "AADHAAR" txt || has "ELECTION" txt || has "DRIVING" txt) 30
  - points (has "APPLICATION" txt || has "FORM" (firstn 300 txt)) 20.

Definition aadhaar_score (txt : text) : Z :=
  points (found false Rx.aadhaar_no txt) 50
  + points (has "UIDAI" (firstn 500 txt)) 40
  + points (has "AADHAAR" txt || has "AADHAR" txt) 30
  + points (has "UNIQUE IDENTIFICATION" txt) 25
  + points (has "GOVERNMENT OF INDIA" txt) 20
  + points (found false Rx.care_of txt) 15
  + points (has "VID" txt) 10
  - points (has "INCOME TAX" txt || has "ELECTION" txt) 30
  - points (has "ENROLMENT" txt || has "APPLICATION" (firstn 300 txt)) 25.

Definition voter_score (txt : text) : Z :=
  points (found false Rx.epic_id txt) 50
  + points (has "ELECTION COMMISSION" (firstn 500 txt)) 40
  + points (has "ELECTORAL" (firstn 500 txt)) 30
  + points (has "ELECTOR" txt) 25
  + points (found false Rx.epic_no txt) 20
  + points (found false Rx.part_no txt) 15
  - points (has "AADHAAR" txt || has "INCOME TAX" txt || has "DRIVING" txt) 30.

Definition dl_score (txt : text) : Z :=
  points (found false Rx.dl_id txt) 50
  + points (has "DRIVING LICENCE" (firstn 500 txt)
            || has "DRIVING LICENSE" (firstn 500 txt)) 40
  + points (has "TRANSPORT" (firstn 500 txt)) 30
  + points (found false Rx.valid_till txt) 25
  + points (has "MOTOR VEHICLE" txt) 20
  + points (found false Rx.vehicle_class txt) 15
  - points (has "AADHAAR" txt || has "INCOME TAX" txt || has "ELECTION" txt) 30
  - points (has "LEARNER" txt || has "APPLICATION" (firstn 300 txt)) 25.

Definition marksheet_score (txt : text) : Z :=
  points (found false Rx.grade txt) 50
  + points (has "BOARD OF" (firstn 500 txt)) 40
  + points (has "EXAMINATION" (firstn 500 txt)) 35
  + points (has "MARKS" txt) 30
  + points (has "MARKSHEET" txt) 25
  + points (found false Rx.school txt) 20
  + points (found false Rx.roll_no txt) 20
  + points (has "SUBJECT" txt) 15
  - points (has "SAMPLE PAPER" txt || has "PRACTICE" txt) 30.

(** The [scores] dictionary, after [max(0, v)]. *)
Definition scores_of (txt : text) : Dict.dict Z :=
  map (fun '(k, v) => (k, Z.max 0 v))
    [ ("PAN", pan_score txt); ("Aadhaar", aadhaar_score txt);
      ("Voter ID", voter_score txt); ("Driving Licence", dl_score txt);
      ("Marksheet", marksheet_score txt) ]%string.

(** [max(scores.values())] *)
Definition max_value (scores : Dict.dict Z) : Z :=
  fold_left Z.max (Dict.values scores) 0.

(** [max(scores, key=scores.get)]: the first key with the largest value. *)
Fixpoint argmax (scores : Dict.dict Z) (best : string * Z) : string * Z :=
  match scores with
  | [] => best
  | (k, v) :: rest => argmax rest (if snd best <? v then (k, v) else best)
  end.

Definition best_of (scores : Dict.dict Z) : string * Z :=
  match scores with
  | [] => ("Unknown"%string, 0)
  | kv :: rest => argmax rest kv
  end.

Definition Qmin (a b : Q) : Q := if Qle_bool a b then a else b.

(** The piecewise map from the best score to a confidence, before [int]. *)
Definition confidence_of (best_score : Z) : Q :=
  if 100 <=? best_score
  then Qmin 95 (70 + (inject_Z best_score - 70) * 0.5)
  else if 70 <=? best_score then inject_Z best_score
  else if 50 <=? best_score then (50 + (inject_Z best_score - 50) * 0.5)%Q
  else inject_Z best_score.

Record classification := {
  document_type : string;
  confidence : Z;
  scores : Dict.dict Z
}.

(** [not text or len(text.strip()) == 0] *)
Definition blank (t : text) : bool := negb (Str.nonempty (Str.strip t)).

(** [classify_document_type_v2] *)
Definition classify_document_type_v2 (t : text) : classification :=
  if blank t
  then {| document_type := "Unknown"; confidence := 0; scores := [] |}
  else
    let txt := Str.upper t in
    let scores := scores_of txt in
    if max_value scores =? 0
    then {| document_type := "Unknown"; confidence := 0; scores := scores |}
    else
      let '(best_type, best_score) := best_of scores in
      {| document_type := best_type;
         confidence := Py.trunc (confidence_of best_score);
         scores := scores |}.

Definition any_in (keywords : list string) (txt : text) : bool :=
  existsb (fun kw => has kw txt) keywords.

(** [classify_document_type], the older classifier *)
Definition classify_document_type (t : text) : string :=
  if blank t then "Unknown"
  else
    let txt := Str.upper t in
    if found false Rx.pan_id txt then "PAN"
    else if any_in ["INCOME TAX"; "PERMANENT ACCOUNT"]%string txt then "PAN"
    else if found false Rx.aadhaar_no txt
            && any_in ["AADHAAR"; "AADHAR"; "UNIQUE IDENTIFICATION"; "UIDAI"]%string txt
    then "Aadhaar"
    else if any_in ["DRIVING LICENCE"; "DRIVING LICENSE"; "TRANSPORT AUTHORITY"]%string
              txt
    then "Driving Licence"
    else if any_in ["ELECTION COMMISSION"; "ELECTOR"; "EPIC NO"]%string txt
    then "Voter ID"
    else if any_in ["MARKSHEET"; "MARKS MEMO"; "GRADE POINT"; "CGPA"; "BOARD OF"]%string
              txt
    then "Marksheet"
    else "Unknown".

(** [classify_document_smart] *)
Definition classify_document_smart (t : text) : string :=
  let v2_result := classify_document_type_v2 t in
  if 70 <=? confidence v2_result then document_type v2_result
  else
    let old_result := classify_document_type t in
    if String.eqb old_result "Unknown" && (50 <=? confidence v2_result)
    then document_type v2_result
    else old_result.

End Classifier.

(** ** The field extractors ([services/extractor.py]) *)

Module Extract.

Import Re.
Open Scope Z_scope.

Definition raw_value := Confidence.raw_value.
Definition raw_fields := Confidence.raw_fields.

(** What an extractor returns: the dictionary of its string fields and, with
    [rawdata=True], the list that it stores last under the key [rawdata]. *)
Record extracted := {
  fields : raw_fields;
  rawdata : option (list text)
}.

Definition keys_of (e : extracted) : list string :=
  Dict.keys (fields e)
  ++ match rawdata e with Some _ => ["rawdata"%string] | None => [] end.

Definition with_rawdata (flag : bool) (fs : raw_fields) (lines : list text)
  : extracted :=
  {| fields := fs; rawdata := if flag then Some lines else None |}.

Definition upper_AZ : ascii -> bool := rng "A" "Z".
Definition lower_az : ascii -> bool := rng "a" "z".
Definition digit_09 : ascii -> bool := rng "0" "9".
Definition letters : ascii -> bool := anyof [upper_AZ; lower_az].

Definition has (kw : string) (s : text) : bool := Str.contains (str kw) s.
Definition len (s : text) : Z := Z.of_nat (List.length s).
Definition get (fs : raw_fields) (k : string) : raw_value :=
  Confidence.get_value fs k.

(** The first element on which [f] answers, as a [for] loop left by [break]
    does. *)
Fixpoint first_of {A B} (f : A -> option B) (l : list A) : option B :=
  match l with
  | [] => None
  | x :: l' => match f x with Some y => Some y | None => first_of f l' end
  end.

(** [fields[k] = v] when the loop found something *)
Definition assign (fs : raw_fields) (k : string) (found : option raw_value)
  : raw_fields :=
  match found with Some v => Dict.set fs k v | None => fs end.

(** [[:\-]+$] and [\s+] *)
Definition trailing_colons := Seq (plus (cls (oneof ":-"))) Eol.
Definition blanks := plus cs.

(** [normalize_name] *)
Definition normalize_name (s : text) : raw_value :=
  match s with
  | [] => None
  | _ =>
      let s := Str.strip (sub false blanks (str " ") s) in
      Some (Str.strip (sub false trailing_colons [] s))
  end.

Definition normalize_opt (s : raw_value) : raw_value :=
  match s with Some t => normalize_name t | None => None end.

(** *** PAN *)

Module PanRx.
(** [\b([A-Z]{5}[0-9]{4}[A-Z])\b] *)
Definition pan :=
  seqs [Wordb;
        Grp 1 (seqs [exactly 5 (cls upper_AZ); exactly 4 (cls digit_09);
                     Cls (cls upper_AZ)]);
        Wordb].
(** [[0-9]{2}[/-][0-9]{2}[/-][0-9]{4}] *)
Definition date :=
  seqs [exactly 2 (cls digit_09); chr "/-"; exactly 2 (cls digit_09);
        chr "/-"; exactly 4 (cls digit_09)].
(** [(DOB|DATE OF BIRTH)[:\s]*([0-9]{2}[/-][0-9]{2}[/-][0-9]{4})] *)
Definition dob_labelled :=
  seqs [Grp 1 (Alt (lit "DOB") (lit "DATE OF BIRTH"));
        star (cls (anyof [oneof ":"; Char.isspace])); Grp 2 date].
(** [\b[0-9]{2}[/-][0-9]{2}[/-][0-9]{4}\b] *)
Definition dob_plain := seqs [Wordb; date; Wordb].
(** [NAME\s*[:\-]?\s*(.+)] *)
Definition name :=
  seqs [lit "NAME"; star cs; Opt (chr ":-"); star cs; Grp 1 (plus dot)].
(** [FATHER'?S?\s*NAME\s*[:\-]?\s*(.+)] *)
Definition father :=
  seqs [lit "FATHER"; Opt (lit "'"); Opt (lit "S"); star cs; lit "NAME";
        star cs; Opt (chr ":-"); star cs; Grp 1 (plus dot)].
End PanRx.

(** The loop over the lines: each of the two names is taken from the first
    line that carries its label, or from the line below it. *)
Fixpoint pan_names (lines : list text) (fs : raw_fields) : raw_fields :=
  match lines with
  | [] => fs
  | line :: rest =>
      let ln := Str.upper line in
      let below :=
        match rest with next :: _ => normalize_name next | [] => None end in
      let fs :=
        if has "NAME" ln && negb (Py.truthy (get fs "name")) then
          Dict.set fs "name"
            match search true PanRx.name line with
            | Some m => normalize_opt (grp 1 m)
            | None => below
            end
        else fs in
      let fs :=
        if has "FATHER" ln && negb (Py.truthy (get fs "father_name")) then
          Dict.set fs "father_name"
            match search true PanRx.father line with
            | Some m => normalize_opt (grp 1 m)
            | None => below
            end
        else fs in
      pan_names rest fs
  end.

(** [extract_pan_fields] *)
Definition extract_pan_fields (t : text) (rawdata : bool) : extracted :=
  let fs : raw_fields :=
    [("pan", None); ("name", None); ("father_name", None); ("dob", None)]%string in
  let lines := Str.stripped_lines t in
  let fs :=
    match search false PanRx.pan (Str.upper t) with
    | Some m => Dict.set fs "pan" (grp 1 m)
    | None => fs
    end in
  let fs :=
    match search false PanRx.dob_labelled (Str.upper t) with
    | Some m => Dict.set fs "dob" (grp 2 m)
    | None =>
        match search false PanRx.dob_plain t with
        | Some m => Dict.set fs "dob" (Some (m_text m))
        | None => fs
        end
    end in
  let fs := pan_names lines fs in
  with_rawdata rawdata fs lines.

(** *** Driving licence *)

Module DlRx.
(** [\d{2}[/-]\d{2}[/-]\d{4}] *)
Definition date :=
  seqs [exactly 2 cd; chr "/-"; exactly 2 cd; chr "/-"; exactly 4 cd].
(** [\b([A-Z]{2}[0O]?\d{6,20})\b] *)
Definition number :=
  seqs [Wordb;
        Grp 1 (seqs [exactly 2 (cls upper_AZ); Opt (chr "0O"); between 6 20 cd]);
        Wordb].
(** [\b([A-Z]{2}[0O]?\s*\d[\d\s]{5,20})\b] *)
Definition spaced_number :=
  seqs [Wordb;
        Grp 1 (seqs [exactly 2 (cls upper_AZ); Opt (chr "0O"); star cs; Cls cd;
                     between 5 20 (cls (anyof [Char.isdigit; Char.isspace]))]);
        Wordb].
(** [\bNAME\b] and [Name\s*[:\-]?\s*(.+)] *)
Definition name_word := seqs [Wordb; lit "NAME"; Wordb].
Definition name :=
  seqs [lit "Name"; star cs; Opt (chr ":-"); star cs; Grp 1 (plus dot)].
(** [Holder.?s Signature] *)
Definition signature := seqs [lit "Holder"; Opt (Cls dot); lit "s Signature"].
(** [\b(S/O|D/O|W/O|FATHER)\b] *)
Definition relation :=
  seqs [Wordb; Grp 1 (alts [lit "S/O"; lit "D/O"; lit "W/O"; lit "FATHER"]);
        Wordb].
(** [(?:S/O|D/O|W/O|FATHER['']S NAME)[:\-]?\s*(.+)] *)
Definition father :=
  seqs [alts [lit "S/O"; lit "D/O"; lit "W/O"; lit "FATHER'S NAME"];
        Opt (chr ":-"); star cs; Grp 1 (plus dot)].
(** [.*ADDRESS\s*[:\-]?\s*] *)
Definition address_label :=
  seqs [star dot; lit "ADDRESS"; star cs; Opt (chr ":-"); star cs].
(** [label[\s:]*(\d{2}[/-]\d{2}[/-]\d{4})] for a [label] *)
Definition labelled (label : regex) :=
  seqs [label; star (cls (anyof [Char.isspace; oneof ":"])); Grp 1 date].
(** [(?:Date of Birth|DOB)], [(?:Issue Date|Date of First Issue)] and
    [(?:Validity|Valid Till)] *)
Definition birth := Alt (lit "Date of Birth") (lit "DOB").
Definition issue := Alt (lit "Issue Date") (lit "Date of First Issue").
Definition validity := Alt (lit "Validity") (lit "Valid Till").
End DlRx.

(** [sorted(set(l), key=l.index)]: the elements in the order of their first
    occurrence. *)
Fixpoint unique (seen : list text) (l : list text) : list text :=
  match l with
  | [] => []
  | x :: l' =>
      if existsb (Str.eqb x) seen then unique seen l'
      else x :: unique (x :: seen) l'
  end.

(** [l.remove(x)] when [x in l] *)
Fixpoint remove_first (x : text) (l : list text) : list text :=
  match l with
  | [] => []
  | y :: l' => if Str.eqb x y then l' else y :: remove_first x l'
  end.

(** One turn of the loop over the three labelled dates. *)
Definition dl_labelled_date (t : text) (label : regex) (field : string)
    (st : raw_fields * list text) : raw_fields * list text :=
  let '(fs, unique_dates) := st in
  match search true (DlRx.labelled label) t with
  | Some m =>
      (Dict.set fs field (grp 1 m),
       match grp 1 m with
       | Some d => remove_first d unique_dates
       | None => unique_dates
       end)
  | None => st
  end.

(** [if not fields[k] and unique_dates: fields[k] = unique_dates.pop(0)] *)
Definition dl_spare_date (field : string) (st : raw_fields * list text)
  : raw_fields * list text :=
  let '(fs, unique_dates) := st in
  if negb (Py.truthy (get fs field)) then
    match unique_dates with
    | d :: rest => (Dict.set fs field (Some d), rest)
    | [] => st
    end
  else st.

(** The lines below the address label: each non-blank one is kept; a blank
    one ends the block once something was collected. *)
Fixpoint dl_address_below (rest : list text) (addr_lines : list text)
  : list text :=
  match rest with
  | [] => addr_lines
  | ln :: rest' =>
      match Str.strip ln with
      | [] =>
          match addr_lines with
          | [] => dl_address_below rest' addr_lines
          | _ => addr_lines
          end
      | s => dl_address_below rest' (addr_lines ++ [s])
      end
  end.

(** The address: what follows the label on the first line that has it, and
    the lines below. *)
Fixpoint dl_address (lines : list text) : list text :=
  match lines with
  | [] => []
  | ln :: rest =>
      if has "ADDRESS" (Str.upper ln) then
        let part := Str.strip (sub true DlRx.address_label [] ln) in
        dl_address_below rest (match part with [] => [] | _ => [part] end)
      else dl_address rest
  end.

(** [extract_dl_fields] *)
Definition extract_dl_fields (t : text) : raw_fields :=
  let fs : raw_fields :=
    [("dl_number", None); ("name", None); ("dob", None); ("issue_date", None);
     ("valid_till", None); ("father_name", None); ("address", None)]%string in
  match t with
  | [] => fs
  | _ =>
      let lines := Str.stripped_lines t in
      let fs :=
        assign fs "dl_number"
          (first_of
             (fun ln =>
                option_map (grp 1)
                  (search false DlRx.number (Str.remove_char " " ln)))
             lines) in
      let fs :=
        if negb (Py.truthy (get fs "dl_number")) then
          match search false DlRx.spaced_number (Str.join (str " ") lines) with
          | Some m =>
              Dict.set fs "dl_number"
                (option_map (Str.remove_char " ") (grp 1 m))
          | None => fs
          end
        else fs in
      let fs :=
        assign fs "name"
          (first_of
             (fun ln =>
                if found true DlRx.name_word ln then
                  match search true DlRx.name ln with
                  | Some m =>
                      Some (normalize_opt
                              (option_map (sub true DlRx.signature []) (grp 1 m)))
                  | None => None
                  end
                else None)
             lines) in
      let fs :=
        assign fs "father_name"
          (first_of
             (fun ln =>
                if found true DlRx.relation ln then
                  option_map (fun m => normalize_opt (grp 1 m))
                    (search true DlRx.father ln)
                else None)
             lines) in
      let addr_lines := dl_address lines in
      let fs :=
        match addr_lines with
        | [] => fs
        | _ => Dict.set fs "address" (Some (Str.join (str ", ") addr_lines))
        end in
      let all_dates := findall false DlRx.date t in
      let unique_dates := unique [] all_dates in
      let st := (fs, unique_dates) in
      let st := dl_labelled_date t DlRx.birth "dob" st in
      let st := dl_labelled_date t DlRx.issue "issue_date" st in
      let st := dl_labelled_date t DlRx.validity "valid_till" st in
      let st := dl_spare_date "issue_date" st in
      let st := dl_spare_date "valid_till" st in
      fst st
  end.

(** *** Marksheet

    The dash class of the source, [[:\-...]], also lists three characters
    outside the ASCII range; they are not in the classes below. *)

Module MarkRx.
Definition colon_dash : ascii -> bool := oneof ":-".
(** [SCHOOL\s*[:\-]?\s*(.+)] *)
Definition school_label :=
  seqs [lit "SCHOOL"; star cs; Opt (Cls (cls colon_dash)); star cs;
        Grp 1 (plus dot)].
(** [\b(SCHOOL|INSTITUTE|COLLEGE)\b] *)
Definition school_word :=
  seqs [Wordb; Grp 1 (alts [lit "SCHOOL"; lit "INSTITUTE"; lit "COLLEGE"]);
        Wordb].
(** [\bROLL\b] *)
Definition roll_word := seqs [Wordb; lit "ROLL"; Wordb].
(** [\bROLL\s*(?:NO)?\.?\s*[:\-]?\s*([0-9]{7,12})\b] *)
Definition roll :=
  seqs [Wordb; lit "ROLL"; star cs; Opt (lit "NO"); Opt (lit "."); star cs;
        Opt (Cls (cls colon_dash)); star cs;
        Grp 1 (between 7 12 (cls digit_09)); Wordb].
(** [^[0-9]{7,12}$] *)
Definition roll_line := seqs [Bol; between 7 12 (cls digit_09); Eol].
(** [[0-3]?\d[\/\-.][01]?\d[\/\-.]\d{4}] *)
Definition date :=
  seqs [Opt (Cls (cls (rng "0" "3"))); Cls cd; chr "/-.";
        Opt (chr "01"); Cls cd; chr "/-."; exactly 4 cd].
(** [\b(?:DOB|DATE\s*OF\s*BIRTH)[\s:\-]*(date)\b] *)
Definition dob_labelled :=
  seqs [Wordb;
        Alt (lit "DOB")
            (seqs [lit "DATE"; star cs; lit "OF"; star cs; lit "BIRTH"]);
        star (cls (anyof [Char.isspace; colon_dash]));
        Grp 1 date; Wordb].
(** [\b(date)\b] *)
Definition dob_plain := seqs [Wordb; Grp 1 date; Wordb].
(** [EXAMINATION\s+held\s+in\s+\w+-?(20\d{2})] *)
Definition year :=
  seqs [lit "EXAMINATION"; plus cs; lit "held"; plus cs; lit "in"; plus cs;
        plus cw; Opt (lit "-"); Grp 1 (seqs [lit "20"; exactly 2 cd])].
(** [(CGPA|GPA|GRADE\s*POINT)[\s\.:;\-]*([0-9]{1,2}\.[0-9]{1,2})] *)
Definition cgpa :=
  seqs [Grp 1 (alts [lit "CGPA"; lit "GPA";
                     seqs [lit "GRADE"; star cs; lit "POINT"]]);
        star (cls (anyof [Char.isspace; oneof ".:;-"]));
        Grp 2 (seqs [between 1 2 (cls digit_09); lit ".";
                     between 1 2 (cls digit_09)])].
(** [\b(REGULAR|ROLL|PC\/)\b] *)
Definition names_above :=
  seqs [Wordb; Grp 1 (alts [lit "REGULAR"; lit "ROLL"; lit "PC/"]); Wordb].
Definition capitals_blanks := cls (anyof [upper_AZ; Char.isspace]).
(** [CERTIFIED\s+THAT\s+([A-Z\s]+)] *)
Definition student :=
  seqs [lit "CERTIFIED"; plus cs; lit "THAT"; plus cs;
        Grp 1 (plus capitals_blanks)].
(** [FATHER'?S\s+NAME\s+([A-Z\s]+)] and [MOTHER'?S\s+NAME\s+([A-Z\s]+)] *)
Definition parent (who : string) :=
  seqs [lit who; Opt (lit "'"); lit "S"; plus cs; lit "NAME"; plus cs;
        Grp 1 (plus capitals_blanks)].
End MarkRx.

(** [i+1 < len(lines) and re.match(r"^[0-9]{7,12}$", lines[i+1].strip())] *)
Definition roll_below (rest : list text) : option text :=
  match rest with
  | next :: _ =>
      match match_ false MarkRx.roll_line (Str.strip next) with
      | Some _ => Some (Str.strip next)
      | None => None
      end
  | [] => None
  end.

(** The roll number: on the line of the label, or alone on the next line. *)
Fixpoint mark_roll (lines : list text) : option raw_value :=
  match lines with
  | [] => None
  | ln :: rest =>
      if found true MarkRx.roll_word ln then
        let m := search true MarkRx.roll ln in
        let number := match m with Some m => grp 1 m | None => None end in
        if match m with Some _ => true | None => false end
           && negb (has "/" (Confidence.text_of number))
        then Some number
        else
          match roll_below rest with
          | Some r => Some (Some r)
          | None => mark_roll rest
          end
      else mark_roll rest
  end.

(** [m.group(1).strip() if m else line.strip()] *)
Definition captured_or_line (rx : regex) (line : text) : raw_value :=
  match search true rx line with
  | Some m => option_map Str.strip (grp 1 m)
  | None => Some (Str.strip line)
  end.

(** The three names, on the lines below the first line that has one of the
    words REGULAR, ROLL or PC/. *)
Fixpoint mark_names (lines : list text) (fs : raw_fields) : raw_fields :=
  match lines with
  | [] => fs
  | line :: rest =>
      if found true MarkRx.names_above line then
        let fs :=
          match rest with
          | l1 :: _ =>
              Dict.set fs "student_name" (captured_or_line MarkRx.student l1)
          | _ => fs
          end in
        let fs :=
          match rest with
          | _ :: l2 :: _ =>
              Dict.set fs "father_name"
                (captured_or_line (MarkRx.parent "FATHER") l2)
          | _ => fs
          end in
        match rest with
        | _ :: _ :: l3 :: _ =>
            Dict.set fs "mother_name"
              (captured_or_line (MarkRx.parent "MOTHER") l3)
        | _ => fs
        end
      else mark_names rest fs
  end.

(** [extract_marksheet_fields]; its [filename] and [meta] are not used. *)
Definition extract_marksheet_fields (t : text) : raw_fields :=
  let fs : raw_fields :=
    [("student_name", None); ("father_name", None); ("mother_name", None);
     ("school_name", None); ("dob", None); ("roll_no", None); ("year", None);
     ("cgpa", None)]%string in
  let lines := Str.stripped_lines t in
  let fs :=
    assign fs "school_name"
      (first_of
         (fun ln =>
            option_map (fun m => Some (Str.strip (m_text m)))
              (match_ true MarkRx.school_label ln))
         lines) in
  let fs :=
    if negb (Py.truthy (get fs "school_name")) then
      assign fs "school_name"
        (first_of
           (fun ln =>
              if found true MarkRx.school_word ln
              then Some (Some (Str.strip ln)) else None)
           lines)
    else fs in
  let fs := assign fs "roll_no" (mark_roll lines) in
  let fs :=
    match search true MarkRx.dob_labelled t with
    | Some m => Dict.set fs "dob" (grp 1 m)
    | None =>
        match search true MarkRx.dob_plain t with
        | Some m => Dict.set fs "dob" (grp 1 m)
        | None => fs
        end
    end in
  let fs :=
    assign fs "year"
      (first_of (fun ln => option_map (grp 1) (search true MarkRx.year ln))
         lines) in
  let fs :=
    match search true MarkRx.cgpa t with
    | Some m => Dict.set fs "cgpa" (grp 2 m)
    | None => fs
    end in
  mark_names lines fs.

(** *** Voter ID *)

(** A box of the label detector: its [text], if it has the key, and the
    corners [x1, y1, x2, y2] of its [box]. *)
Record box := {
  box_text : option text;
  box_rect : Z * Z * Z * Z
}.

(** A page of the detector's output: its [crops], if it has the key. *)
Definition page := option (list box).

(** [^[\s,.:;_\-]+|[\s,.:;_\-]+$] *)
Definition edge_punctuation :=
  let k := cls (anyof [Char.isspace; oneof ",.:;_-"]) in
  Alt (Seq Bol (plus k)) (Seq (plus k) Eol).

(** The first pair with the least abscissa, which is where a stable sort by
    abscissa puts its first element. *)
Fixpoint leftmost (l : list (Z * text)) (best : Z * text) : Z * text :=
  match l with
  | [] => best
  | (x, s) :: l' => leftmost l' (if x <? fst best then (x, s) else best)
  end.

(** [get_right_text], with its default [max_y_diff=40] *)
Definition get_right_text (b : box) (boxes : list box) : raw_value :=
  let '(x1, y1, _, _) := box_rect b in
  let right_texts :=
    flat_map
      (fun other =>
         match box_text other with
         | Some s =>
             let '(ox1, oy1, _, _) := box_rect other in
             if (x1 <? ox1) && (Z.abs (oy1 - y1) <? 40) then [(ox1, s)] else []
         | None => []
         end)
      boxes in
  match right_texts with
  | [] => None
  | first :: rest =>
      match snd (leftmost rest first) with
      | [] => None
      | val => Some (Str.strip (sub false edge_punctuation [] val))
      end
  end.

(** [fields[k] = fields[k] or v] *)
Definition keep_or (fs : raw_fields) (k : string) (v : raw_value)
  : raw_fields :=
  Dict.set fs k (if Py.truthy (get fs k) then get fs k else v).

(** One turn of the loop over the boxes. *)
Definition voter_box (boxes : list box) (fs : raw_fields) (b : box)
  : raw_fields :=
  let txt := Str.lower (Confidence.text_of (box_text b)) in
  match txt with
  | [] => fs
  | _ =>
      if has "name" txt && negb (has "father" txt) && negb (has "husband" txt)
      then keep_or fs "name" (get_right_text b boxes)
      else if has "father" txt
      then keep_or fs "father_name" (get_right_text b boxes)
      else if has "husband" txt
      then keep_or fs "husband_name" (get_right_text b boxes)
      else if has "birth" txt then keep_or fs "dob" (get_right_text b boxes)
      else if has "gender" txt
      then keep_or fs "gender" (get_right_text b boxes)
      else if has "epic no" txt || (has "epic" txt && has "no" txt)
      then keep_or fs "voter_id" (get_right_text b boxes)
      else fs
  end.

Module VoterRx.
(** [\b([A-Z]{3,4}[0-9]{6,10})\b] *)
Definition epic :=
  seqs [Wordb;
        Grp 1 (seqs [between 3 4 (cls upper_AZ); between 6 10 (cls digit_09)]);
        Wordb].
(** [Epic no\.?\s*[:\-]?\s*([A-Z0-9]{6,20})] *)
Definition epic_labelled :=
  seqs [lit "Epic no"; Opt (lit "."); star cs; Opt (chr ":-"); star cs;
        Grp 1 (between 6 20 (cls (anyof [upper_AZ; digit_09])))].
Definition name_chars := cls (anyof [upper_AZ; lower_az; oneof " .'-"]).
(** [Name[ ,:/-]*([A-Za-z .'-]+)] *)
Definition name :=
  seqs [lit "Name"; star (cls (oneof " ,:/-")); Grp 1 (plus name_chars)].
(** [Father'?s Name\s*[:;+\-_]*\s*([A-Za-z .'-]+)] *)
Definition father :=
  seqs [lit "Father"; Opt (lit "'"); lit "s Name"; star cs;
        star (cls (oneof ":;+-_")); star cs; Grp 1 (plus name_chars)].
(** [[0-9]{2}[-/][0-9]{2}[-/][0-9]{4}] *)
Definition date :=
  seqs [exactly 2 (cls digit_09); chr "-/"; exactly 2 (cls digit_09);
        chr "-/"; exactly 4 (cls digit_09)].
(** [Date of Birth[ /:]*(date)] and [(date)] *)
Definition dob_labelled :=
  seqs [lit "Date of Birth"; star (cls (oneof " /:")); Grp 1 date].
Definition dob_plain := Grp 1 date.
(** [(Sex|Gender)\s*[:;+\-_]*\s*(Male|Female|Other)] *)
Definition gender :=
  seqs [Grp 1 (Alt (lit "Sex") (lit "Gender")); star cs;
        star (cls (oneof ":;+-_")); star cs;
        Grp 2 (alts [lit "Male"; lit "Female"; lit "Other"])].
End VoterRx.

(** The father's name on a line: up to three alphabetic words of more than
    one letter after the label. *)
Definition voter_father (ln : text) : option raw_value :=
  match search true VoterRx.father ln with
  | Some m =>
      let words :=
        filter (fun w => Str.isalpha w && (1 <? len w))
               (Str.split (Confidence.text_of (grp 1 m))) in
      match words with
      | [] => None
      | _ => Some (normalize_name (Str.join (str " ") (firstn 3 words)))
      end
  | None => None
  end.

(** The patterns of the second half of [extract_voter_fields]. *)
Definition voter_by_patterns (t : text) (fs : raw_fields) : raw_fields :=
  let lines := Str.stripped_lines t in
  let fs :=
    match search false VoterRx.epic t with
    | Some m => Dict.set fs "voter_id" (grp 1 m)
    | None =>
        match search true VoterRx.epic_labelled t with
        | Some m => Dict.set fs "voter_id" (grp 1 m)
        | None => fs
        end
    end in
  let fs :=
    match search true VoterRx.name t with
    | Some m => Dict.set fs "name" (normalize_opt (grp 1 m))
    | None => fs
    end in
  let fs := assign fs "father_name" (first_of voter_father lines) in
  let fs :=
    match search true VoterRx.dob_labelled t with
    | Some m => Dict.set fs "dob" (grp 1 m)
    | None =>
        match search true VoterRx.dob_plain t with
        | Some m => Dict.set fs "dob" (grp 1 m)
        | None => fs
        end
    end in
  match search true VoterRx.gender t with
  | Some m => Dict.set fs "gender" (option_map Str.capitalize (grp 2 m))
  | None => fs
  end.

(** [extract_voter_fields].  [yolo_output] is the list of the pages of the
    detector's output, [None] when that output is missing or empty. *)
Definition extract_voter_fields (t : text) (yolo_output : option (list page))
    (rawdata : bool) : extracted :=
  let fs : raw_fields :=
    [("voter_id", None); ("name", None); ("father_name", None);
     ("husband_name", None); ("dob", None); ("gender", None)]%string in
  let yolo_boxes :=
    match yolo_output with
    | Some pages =>
        flat_map (fun p => match p with Some crops => crops | None => [] end)
          pages
    | None => []
    end in
  let by_boxes := fold_left (voter_box yolo_boxes) yolo_boxes fs in
  if match yolo_boxes with [] => false | _ => true end
     && existsb Py.truthy (Dict.values by_boxes)
  then
    with_rawdata rawdata by_boxes
      (map (fun b => Confidence.text_of (box_text b)) yolo_boxes)
  else
    with_rawdata rawdata (voter_by_patterns t by_boxes)
      (Str.stripped_lines t).

(** *** Aadhaar *)

Module AadhaarRx.
(** [\b(\d{4})\s*(\d{4})\s*(\d{4})\b] *)
Definition number :=
  seqs [Wordb; Grp 1 (exactly 4 cd); star cs; Grp 2 (exactly 4 cd); star cs;
        Grp 3 (exactly 4 cd); Wordb].
(** [\b(\d{1,2}[/\-\.]\d{1,2}[/\-\.]\d{4})\b] *)
Definition dob :=
  seqs [Wordb;
        Grp 1 (seqs [between 1 2 cd; chr "/-."; between 1 2 cd; chr "/-.";
                     exactly 4 cd]);
        Wordb].
(** [\b(male|female|transgender)\b] *)
Definition gender :=
  seqs [Wordb; Grp 1 (alts [lit "male"; lit "female"; lit "transgender"]);
        Wordb].
(** [(?:^|[^\d])([6-9]\d{9})(?:[^\d]|$)] *)
Definition mobile :=
  seqs [Alt Bol (Cls (ncls Char.isdigit));
        Grp 1 (seqs [Cls (cls (rng "6" "9")); exactly 9 cd]);
        Alt (Cls (ncls Char.isdigit)) Eol].
Definition relation := alts [lit "C/O"; lit "D/O"; lit "S/O"; lit "W/O"].
Definition capitals_blanks := cls (anyof [upper_AZ; Char.isspace]).
Definition letters_blanks := cls (anyof [upper_AZ; lower_az; Char.isspace]).
(** [^([A-Z\s]{5,30})\s+(C/O|D/O|S/O|W/O)[^\w]*([A-Za-z\s]{5,50})$] *)
Definition name_and_father :=
  seqs [Bol; Grp 1 (between 5 30 capitals_blanks); plus cs; Grp 2 relation;
        star (ncls Char.isword); Grp 3 (between 5 50 letters_blanks); Eol].
(** [[^A-Za-z\s]] *)
Definition not_letter_blank := Cls (ncls (anyof [letters; Char.isspace])).
(** [^[A-Z\s]{5,30}$] *)
Definition name_line := seqs [Bol; between 5 30 capitals_blanks; Eol].
(** [(C/O|D/O|S/O|W/O)] *)
Definition relation_word := Grp 1 relation.
(** [(?:C/O|D/O|S/O|W/O)[^\w]*([A-Za-z\s]{5,50})] *)
Definition father_below :=
  seqs [relation; star (ncls Char.isword); Grp 1 (between 5 50 letters_blanks)].
(** [\d+[-/]\d+] *)
Definition house_number := seqs [plus cd; chr "-/"; plus cd].
(** [flat no|house no|building] *)
Definition house_words := alts [lit "flat no"; lit "house no"; lit "building"].
(** [\b(VTC|PO|District|State|PIN|Mobile|Aadhaar|VID)\b] *)
Definition after_address :=
  seqs [Wordb;
        Grp 1 (alts [lit "VTC"; lit "PO"; lit "District"; lit "State";
                     lit "PIN"; lit "Mobile"; lit "Aadhaar"; lit "VID"]);
        Wordb].
(** [[^A-Za-z0-9\s,\-\./]] *)
Definition not_address_char :=
  Cls (ncls (anyof [letters; digit_09; Char.isspace; oneof ",-./"])).
(** [\bVTC\b] *)
Definition vtc := seqs [Wordb; lit "VTC"; Wordb].
(** A name as a pattern.  A name is made of letters and blanks, so it stands
    for itself. *)
Definition literally (s : text) : regex :=
  fold_right (fun c r => Seq (Cls (cls (Ascii.eqb c))) r) Eps s.
End AadhaarRx.

Definition address_markers : list string :=
  ["road"; "street"; "flat"; "house"; "building"; "apartment"; "near";
   "opposite"]%string.

(** [re.sub(r'[^A-Za-z\s]', ' ', line).strip()] *)
Definition letters_only (line : text) : text :=
  Str.strip (sub false AadhaarRx.not_letter_blank (str " ") line).

(** The first pattern of the name loop: name and relative on one line. *)
Definition aadhaar_same_line (m : match_obj) (fs : raw_fields) : raw_fields :=
  let name_part := Str.strip (Confidence.text_of (grp 1 m)) in
  let father_part := Str.strip (Confidence.text_of (grp 3 m)) in
  let name_part := sub false blanks (str " ") name_part in
  let father_part := sub false blanks (str " ") father_part in
  let fs :=
    if 3 <? len name_part
    then Dict.set fs "name" (Some (Str.title name_part)) else fs in
  if 3 <? len father_part
  then Dict.set fs "father_name" (Some (Str.title father_part)) else fs.

(** The second pattern: the name on a line, the relative on the next. *)
Definition aadhaar_two_lines (line next : text) (fs : raw_fields)
  : option raw_fields :=
  let current_line_clean := letters_only line in
  let next_line_clean := letters_only next in
  match match_ false AadhaarRx.name_line current_line_clean with
  | Some _ =>
      if found true AadhaarRx.relation_word next_line_clean then
        let fs := Dict.set fs "name" (Some (Str.title current_line_clean)) in
        Some
          match search true AadhaarRx.father_below next with
          | Some m =>
              let father_name := Str.strip (Confidence.text_of (grp 1 m)) in
              Dict.set fs "father_name"
                (Some (Str.title (sub false blanks (str " ") father_name)))
          | None => fs
          end
      else None
  | None => None
  end.

Fixpoint aadhaar_names (lines : list text) (fs : raw_fields) : raw_fields :=
  match lines with
  | [] => fs
  | line :: rest =>
      match search true AadhaarRx.name_and_father line with
      | Some m => aadhaar_same_line m fs
      | None =>
          match rest with
          | next :: _ =>
              match aadhaar_two_lines line next fs with
              | Some fs' => fs'
              | None => aadhaar_names rest fs
              end
          | [] => aadhaar_names rest fs
          end
      end
  end.

(** [re.sub(fields[k], '', clean_line, flags=re.IGNORECASE)] when the field
    is set *)
Definition without_name (fs : raw_fields) (k : string) (clean_line : text)
  : text :=
  if Py.truthy (get fs k)
  then sub true (AadhaarRx.literally (Confidence.text_of (get fs k))) []
         clean_line
  else clean_line.

(** [re.sub(r'[^A-Za-z0-9\s,\-\./]', ' ', line).strip()], blanks folded *)
Definition address_chars (line : text) : text :=
  sub false blanks (str " ")
    (Str.strip (sub false AadhaarRx.not_address_char (str " ") line)).

Definition in_list (x : text) (l : list text) : bool := existsb (Str.eqb x) l.

(** The address loop: it starts at the first line with a marker or a house
    number and ends at the first line with a word that follows an address. *)
Fixpoint aadhaar_address (fs : raw_fields) (lines : list text)
    (address_started : bool) (address_lines : list text) : list text :=
  match lines with
  | [] => address_lines
  | line :: rest =>
      let line_lower := Str.lower line in
      let address_started :=
        address_started
        || existsb (fun marker => has marker line_lower) address_markers
        || found false AadhaarRx.house_number line
        || found false AadhaarRx.house_words line_lower in
      if address_started
         && (found true AadhaarRx.after_address line
             || has "government" line_lower
             || has "unique identification" line_lower)
      then address_lines
      else if address_started then
        let clean_line := address_chars line in
        let clean_line := without_name fs "name" clean_line in
        let clean_line := without_name fs "father_name" clean_line in
        let clean_line := Str.strip_chars (str " ,.-") clean_line in
        aadhaar_address fs rest address_started
          (if (5 <? len clean_line) && negb (in_list clean_line address_lines)
           then address_lines ++ [clean_line] else address_lines)
      else aadhaar_address fs rest address_started address_lines
  end.

(** The indices of the last line with the name before the first line with
    VTC, and of that line. *)
Fixpoint name_and_vtc (fs : raw_fields) (lines : list text) (i : nat)
    (name_index : option nat) : option nat * option nat :=
  match lines with
  | [] => (name_index, None)
  | line :: rest =>
      let name_index :=
        if Py.truthy (get fs "name")
           && Str.contains (Str.upper (Confidence.text_of (get fs "name")))
                (Str.upper line)
        then Some i else name_index in
      if found true AadhaarRx.vtc line then (name_index, Some i)
      else name_and_vtc fs rest (S i) name_index
  end.

Definition mentions (fs : raw_fields) (k : string) (line_clean : text) : bool :=
  Py.truthy (get fs k)
  && Str.contains (Str.upper (Confidence.text_of (get fs k)))
       (Str.upper line_clean).

(** The lines between the name and VTC, when the address loop found none. *)
Definition aadhaar_between (fs : raw_fields) (lines : list text) : list text :=
  match name_and_vtc fs lines 0 None with
  | (Some name_index, Some vtc_index) =>
      fold_left
        (fun address_lines line =>
           let line_clean := address_chars line in
           if mentions fs "name" line_clean
              || mentions fs "father_name" line_clean
           then address_lines
           else if (5 <? len line_clean)
                   && negb (in_list line_clean address_lines)
           then address_lines ++ [line_clean] else address_lines)
        (firstn (vtc_index - (name_index + 1)) (skipn (name_index + 1) lines))
        []
  | _ => []
  end.

(** [extract_aadhaar_fields]; its [yolo_output] and [rawdata] are not used. *)
Definition extract_aadhaar_fields (t : text) : raw_fields :=
  let fs : raw_fields :=
    [("aadhaar_number", None); ("name", None); ("dob", None); ("gender", None);
     ("father_name", None); ("address", None); ("mobile", None)]%string in
  let lines := Str.stripped_lines t in
  match lines with
  | [] => fs
  | _ =>
      let fs :=
        assign fs "aadhaar_number"
          (first_of
             (fun line =>
                option_map
                  (fun m =>
                     Some (Confidence.text_of (grp 1 m)
                           ++ Confidence.text_of (grp 2 m)
                           ++ Confidence.text_of (grp 3 m)))
                  (search false AadhaarRx.number line))
             lines) in
      let fs :=
        assign fs "dob"
          (first_of
             (fun line => option_map (grp 1) (search false AadhaarRx.dob line))
             lines) in
      let fs :=
        assign fs "gender"
          (first_of
             (fun line =>
                option_map (fun m => option_map Str.title (grp 1 m))
                  (search true AadhaarRx.gender line))
             lines) in
      let fs :=
        assign fs "mobile"
          (first_of
             (fun line =>
                option_map (grp 1) (search false AadhaarRx.mobile line))
             lines) in
      let fs := aadhaar_names lines fs in
      let address_lines := aadhaar_address fs lines false [] in
      let address_lines :=
        match address_lines with
        | [] => aadhaar_between fs lines
        | _ => address_lines
        end in
      match address_lines with
      | [] => fs
      | _ => Dict.set fs "address" (Some (Str.join (str ", ") address_lines))
      end
  end.

End Extract.

(** ** The schema table and [normalize_fields] ([services/models.py]) *)

Module Models.

Open Scope Z_scope.

(** [DOCUMENT_FIELD_SCHEMA] *)
Definition DOCUMENT_FIELD_SCHEMA : Dict.dict (list string) :=
  [ ("PAN", ["pan"; "name"; "father_name"; "dob"]);
    ("Aadhaar",
     ["aadhaar_number"; "name"; "dob"; "gender"; "father_name"; "address";
      "mobile"]);
    ("Voter ID",
     ["voter_id"; "name"; "father_name"; "husband_name"; "dob"; "gender"]);
    ("Driving Licence",
     ["dl_number"; "name"; "dob"; "issue_date"; "valid_till"; "father_name";
      "address"]);
    ("Marksheet",
     ["student_name"; "father_name"; "mother_name"; "school_name"; "dob";
      "roll_no"; "year"; "cgpa"]) ]%string.

Definition schema (document_type : string) : list string :=
  match Dict.get DOCUMENT_FIELD_SCHEMA document_type with
  | Some names => names
  | None => []
  end.

(** A value of the [fields] dictionary that reaches [normalize_fields]: the
    dictionary that [add_confidence_to_fields] makes, the two-key dictionary
    [{"value": v, "confidence": 0}], or a bare value. *)
Inductive field_data : Type :=
| Annotated (a : Confidence.annotated)
| Placeholder (v : Confidence.raw_value)
| Bare (v : Confidence.raw_value).

(** [field_data if isinstance(field_data, dict)
     else {"value": field_data, "confidence": 0}] *)
Definition structured (d : field_data) : field_data :=
  match d with
  | Bare v => Placeholder v
  | _ => d
  end.

Definition value_of (d : field_data) : Confidence.raw_value :=
  match d with
  | Annotated a => Confidence.value a
  | Placeholder v | Bare v => v
  end.

(** The [confidence] entry, for the two kinds that have one. *)
Definition confidence_of (d : field_data) : option Z :=
  match d with
  | Annotated a => Some (Confidence.confidence a)
  | Placeholder _ => Some 0
  | Bare _ => None
  end.

(** [normalize_fields] *)
Definition normalize_fields (fields : Dict.dict field_data)
    (document_type : string) : Dict.dict field_data :=
  match schema document_type with
  | [] => fields
  | expected_fields =>
      let normalized :=
        fold_left
          (fun normalized field_name =>
             Dict.set normalized field_name
               match Dict.get fields field_name with
               | Some d => structured d
               | None => Placeholder None
               end)
          expected_fields [] in
      fold_left
        (fun normalized '(field_name, field_value) =>
           if Dict.has normalized field_name then normalized
           else Dict.set normalized field_name (structured field_value))
        fields normalized
  end.

End Models.

(** ** Binary64

    The closed floating-point expressions of the sources, evaluated on the
    kernel's binary64 numbers. *)

Module Binary64.

Import PrimFloat FloatOps SpecFloat.

Set Warnings "-inexact-float".
Open Scope Z_scope.

(** The integer nearest to [m * 2^e], a tie to the even one. *)
Definition nearest (m e : Z) : Z :=
  if 0 <=? e then m * 2 ^ e
  else
    let d := 2 ^ (- e) in
    let q := m / d in
    let r := m mod d in
    if 2 * r <? d then q
    else if d <? 2 * r then q + 1
    else if Z.even q then q else q + 1.

(** [round(x)] and [int(x)] of a finite double *)
Definition round (f : float) : option Z :=
  match Prim2SF f with
  | S754_zero _ => Some 0
  | S754_finite s m e =>
      Some ((if s then -1 else 1) * nearest (Zpos m) e)
  | _ => None
  end.
Definition trunc (f : float) : option Z :=
  match Prim2SF f with
  | S754_zero _ => Some 0
  | S754_finite s m e =>
      Some ((if s then -1 else 1)
            * (if 0 <=? e then Zpos m * 2 ^ e else Zpos m / 2 ^ (- e)))
  | _ => None
  end.

(** The double of a small integer. *)
Fixpoint of_pos (p : positive) : float :=
  match p with
  | xH => 1
  | xO p' => 2 * of_pos p'
  | xI p' => 2 * of_pos p' + 1
  end%float.
Definition of_Z (z : Z) : float :=
  match z with
  | Z0 => 0
  | Zpos p => of_pos p
  | Zneg p => - of_pos p
  end%float.

(** [int(round(confidence * 100))] *)
Definition percentage (confidence : float) : option Z :=
  round (confidence * 100)%float.

(** The weighted formula of [calculate_hybrid_confidence]. *)
Definition hybrid (tess_conf pattern_conf img_quality business_conf : float)
  : option Z :=
  round (tess_conf * 0.40 + pattern_conf * 0.30 + img_quality * 0.20
         + business_conf * 0.10)%float.

(** [int(overall_confidence * m)] *)
Definition penalised (overall_confidence : Z) (m : float) : option Z :=
  trunc (of_Z overall_confidence * m)%float.

Definition upto (n : nat) : list Z := map Z.of_nat (seq 0 n).

End Binary64.

(** ** The document processor ([process_document] in [services/extractor.py])

    The part of [process_document] that follows the OCR: it is given the
    text and the two dictionaries that the OCR and the quality check
    return. *)

Module Document.

Import Confidence.
Open Scope Z_scope.

(** [image_quality_info], by the key that is read later. *)
Record quality_info := { quality_score : option Q }.

(** The [meta] dictionary of a result. *)
Record doc_meta := {
  tesseract_text : text;
  text_length : Z;
  image_quality : quality_info;
  field_ocr_confidences : meta_info;
  is_pdf : bool;
  meta_filename : text
}.

(** The values found under the keys of a result. *)
Inductive doc_value : Type :=
| VText (s : text)
| VType (d : option string)
| VFields (fs : raw_fields)
| VTable (rows : list table_row)
| VNumber (q : Q)
| VMeta (m : doc_meta)
| VConfidences (d : Dict.dict Q)
| VQuality (q : quality_info)
| VMetadata (m : metadata).

Definition result := Dict.dict doc_value.

(** [s.endswith(suffix)] *)
Definition ends_with (suffix s : text) : bool :=
  Str.starts_with (rev suffix) (rev s).

(** The extractor of a document type; no field for a type without one. *)
Definition fields_for (doc_type : string) (full_text : text) : raw_fields :=
  if named doc_type "PAN"
  then Extract.fields (Extract.extract_pan_fields full_text false)
  else if named doc_type "Aadhaar"
  then Extract.extract_aadhaar_fields full_text
  else if named doc_type "Voter ID"
  then Extract.fields (Extract.extract_voter_fields full_text None false)
  else if named doc_type "Driving Licence"
  then Extract.extract_dl_fields full_text
  else if named doc_type "Marksheet"
  then Extract.extract_marksheet_fields full_text
  else [].

(** [sum(1 for v in fields.values() if v)] *)
Definition filled_fields (fs : raw_fields) : Z :=
  Z.of_nat (List.length (filter Py.truthy (Dict.values fs))).

(** [(filled_fields / total_fields * 100) if total_fields > 0 else 0] *)
Definition fill_confidence (fs : raw_fields) : Q :=
  let total_fields := Z.of_nat (List.length fs) in
  if 0 <? total_fields
  then (inject_Z (filled_fields fs) / inject_Z total_fields * 100)%Q
  else 0%Q.

(** [process_document], from the text on *)
Definition process_document (filename : text) (full_text : text)
    (field_ocr_confidences : meta_info) (image_quality_info : quality_info)
  : result :=
  let is_pdf := ends_with (str ".pdf") (Str.lower filename) in
  let doc_type := Classifier.classify_document_smart full_text in
  let fs := fields_for doc_type full_text in
  [ ("filename", VText filename);
    ("document_type", VType (Some doc_type));
    ("fields", VFields fs);
    ("table", VTable []);
    ("raw_text_preview",
     VText (Str.join [Char.newline] (firstn 30 (Str.splitlines full_text))));
    ("confidence", VNumber (fill_confidence fs));
    ("meta",
     VMeta {| tesseract_text := firstn 2812 full_text;
              text_length := Z.of_nat (List.length full_text);
              image_quality := image_quality_info;
              field_ocr_confidences := field_ocr_confidences;
              is_pdf := is_pdf;
              meta_filename := filename |}) ]%string.

(** What [process_with_confidence] reads in a result. *)
Definition as_raw_result (r : result) : raw_result :=
  {| document_type :=
       match Dict.get r "document_type" with
       | Some (VType d) => d
       | _ => None
       end;
     fields :=
       match Dict.get r "fields" with
       | Some (VFields fs) => Some fs
       | _ => None
       end;
     table :=
       match Dict.get r "table" with
       | Some (VTable rows) => Some rows
       | _ => None
       end;
     meta :=
       match Dict.get r "meta" with
       | Some (VMeta m) => field_ocr_confidences m
       | _ => {| overall_average := None |}
       end;
     input_metadata :=
       match Dict.get r "metadata" with
       | Some (VMetadata m) => Some m
       | _ => None
       end |}.

(** The two signals that [run_light_api] ([routes/ocr_routes.py]) reads in
    the result, with their defaults:
    [result.get('field_ocr_confidences', {})] and
    [result.get('image_quality', {}).get('quality_score', 75.0)]. *)
Definition light_ocr_confidences (r : result) : Dict.dict Q :=
  match Dict.get r "field_ocr_confidences" with
  | Some (VConfidences d) => d
  | _ => []
  end.
Definition light_image_quality (r : result) : Q :=
  match Dict.get r "image_quality" with
  | Some (VQuality q) =>
      match quality_score q with Some s => s | None => 75.0%Q end
  | _ => 75.0%Q
  end.

(** [run_light_api], from the text on and up to the call of
    [process_with_confidence]. *)
Definition run_light_api (filename : text) (full_text : text)
    (field_ocr_confidences : meta_info) (image_quality_info : quality_info)
    (now : text) : returned :=
  let result :=
    process_document filename full_text field_ocr_confidences
      image_quality_info in
  fst (process_with_confidence (as_raw_result result)
         (Some (light_ocr_confidences result))
         (Some (light_image_quality result)) now).

End Document.

(** ** Uploads and verified fields ([routes/ocr_routes.py]) *)

Module Routes.

Open Scope Z_scope.

Definition ALLOWED_EXTENSIONS : list string := ["pdf"; "png"; "jpg"; "jpeg"]%string.

(** [s.rsplit(c, 1)[1]]: what follows the last [c], if there is one. *)
Fixpoint after_last (c : ascii) (s : text) : option text :=
  match s with
  | [] => None
  | x :: s' =>
      match after_last c s' with
      | Some r => Some r
      | None => if Ascii.eqb x c then Some s' else None
      end
  end.

(** [allowed_file] *)
Definition allowed_file (filename : text) : bool :=
  Str.mem_char filename "."
  && match after_last "." filename with
     | Some ext => Confidence.one_of (Str.lower ext) ALLOWED_EXTENSIONS
     | None => false
     end.

(** A value of a fields dictionary: a dictionary that has the key [value],
    with its [confidence] if it has that key too, or a value that is not a
    dictionary. *)
Inductive field_value : Type :=
| Entry (value : Confidence.raw_value) (confidence : option Z)
| Plain (v : Confidence.raw_value).

(** [orig_field.get('confidence', 0)] of a dictionary, 0 otherwise *)
Definition original_confidence (original_fields : Dict.dict field_value)
    (field_name : string) : Z :=
  match Dict.get original_fields field_name with
  | Some (Entry _ (Some c)) => c
  | _ => 0
  end.


End Routes.

(** * Properties

    What follows states and proves properties of the definitions above.
    First the vocabulary of the statements. *)

Import Re Confidence.
Open Scope Z_scope.
Unset Implicit Arguments.

(** ** Vocabulary: ranges *)

(** A signal in [0, 100], and an optional one. *)
Definition percent (q : Q) : Prop := (0 <= q /\ q <= 100)%Q.
Definition percent_opt (o : option Q) : Prop :=
  match o with Some q => percent q | None => True end.
Definition percent_dict (o : option (Dict.dict Q)) : Prop :=
  match o with
  | Some d => Forall (fun kv => percent (snd kv)) d
  | None => True
  end.
Definition in_percent (z : Z) : Prop := 0 <= z <= 100.

(** An adjustment only subtracts. *)
Definition adjustment_ok (f : finding) : Prop :=
  -50 <= confidence_adjustment f <= 0.

Definition sample_fields : raw_fields :=
  [("pan", Some (str "ABCDE1234F")); ("name", Some (str "Ravi Kumar"));
   ("father_name", None); ("dob", Some (str "41/02/1990"))]%string.

(** ** Vocabulary: format rules

    The strict and the loose test of each identifier field, applied to the
    stripped value. *)
Definition format_rule (field_name : string)
  : option ((text -> bool) * (text -> bool)) :=
  if named field_name "aadhaar_number" then
    Some (fun s => fullmatch false Rx.aadhaar_strict (Str.remove_char " " s),
          fun s => fullmatch false Rx.aadhaar_loose (Str.remove_char " " s))
  else if named field_name "pan" then
    Some (fullmatch false Rx.pan_strict, fullmatch false Rx.pan_loose)
  else if named field_name "voter_id" then
    Some (fullmatch false Rx.voter_strict, fullmatch false Rx.voter_loose)
  else if named field_name "dl_number" then
    Some (fullmatch false Rx.dl_strict,
          fun s => found false Rx.two_capitals s && found false Rx.six_digits s)
  else if named field_name "mobile" then
    Some (fullmatch false Rx.mobile_strict, fullmatch false Rx.mobile_loose)
  else if named field_name "roll_no" then
    Some (fullmatch false Rx.roll_strict, fullmatch false Rx.roll_loose)
  else if named field_name "year" then
    Some (fullmatch false Rx.year_strict, fullmatch false Rx.year_loose)
  else None.

(** ** Vocabulary: special characters *)

(** A character that the business rules count as special. *)
Definition is_special (c : ascii) : bool := cmatch false Rx.special c.

(** The value with one more character, at position [i]. *)
Definition inject (i : nat) (c : ascii) (s : text) : text :=
  firstn i s ++ c :: skipn i s.

(** ** Vocabulary: dates of birth *)

Definition digits (s : text) : Prop := forallb Char.isdigit s = true.
Definition is_separator (c : ascii) : bool := oneof "/-" c.

(** The adjustment of the [dob] finding, if there is a finding. *)
Definition dob_adjustment (fs : raw_fields) (doc : string) : option Z :=
  option_map confidence_adjustment
    (Dict.get (validate_cross_fields fs doc) "dob").

(** The adjustment for a day, a month and a year, with the years running
    from 1900 to [bound]. *)
Definition verdict_with_bound (bound day month year : Z) : Z :=
  if negb (between_Z 1 day 31) || negb (between_Z 1 month 12) then -40
  else if negb (between_Z 1900 year bound) then -30
  else 0.

(** The same for the years up to 2024; the later years are left open. *)
Definition date_verdict (day month year : Z) : option Z :=
  if negb (between_Z 1 day 31) || negb (between_Z 1 month 12) then Some (-40)
  else if year <? 1900 then Some (-30)
  else if year <=? 2024 then Some 0
  else None.

(** The adjustment as the specification words it, for a current year: the
    format is that of the whole value, and the years run to the current
    one. *)
Definition stated_dob_adjustment (current_year : Z) (dob : text) : Z :=
  if negb (fullmatch false Rx.date dob) then -50
  else
    match date_parts dob with
    | Some (day, month, year) => verdict_with_bound current_year day month year
    | None => -50
    end.

(** ** Vocabulary: the pipeline *)

Definition a_row : table_row :=
  {| subject := Some (str "Maths"); grade := str "A1"; marks := str "95" |}.

Definition best_signals : meta_info := {| overall_average := Some 100%Q |}.
Definition no_signals : meta_info := {| overall_average := None |}.

(** A Marksheet result whose only resolved field scores 100, with a table of
    [rows] rows. *)
Definition marksheet_with_rows (rows : nat) : raw_result :=
  {| document_type := Some "Marksheet"%string;
     fields := Some [("gender"%string, Some (str "Male"))];
     table := Some (repeat a_row rows);
     meta := best_signals;
     input_metadata := None |}.

Definition run_marksheet (rows : nat) : returned * raw_result :=
  process_with_confidence (marksheet_with_rows rows) None (Some 100%Q)
    (str "2024-01-01T00:00:00").

(** A transcript as [process_document] hands it over: the fields of the
    extractor, and the table that it leaves empty. *)
Definition transcript : text :=
  str "BOARD OF SECONDARY EDUCATION"
  ++ Char.newline :: str "ROLL NO. 1234567"
  ++ Char.newline :: str "CERTIFIED THAT RAVI KUMAR"
  ++ Char.newline :: str "FATHER'S NAME SURESH KUMAR"
  ++ Char.newline :: str "MOTHER'S NAME LATA DEVI"
  ++ Char.newline :: str "CGPA: 9.2".

Definition transcript_result : raw_result :=
  {| document_type := Some "Marksheet"%string;
     fields := Some (Extract.extract_marksheet_fields transcript);
     table := Some [];
     meta := no_signals;
     input_metadata := None |}.

(** The [overall_confidence] of the returned dictionary. *)
Definition reported (r : returned * raw_result) : option Z :=
  match fst r with
  | Enhanced e => Some (overall_confidence e)
  | Unchanged _ => None
  end.

(** The [table_penalty] entry of its [metadata]. *)
Definition recorded_penalty (r : returned * raw_result) : option meta_value :=
  match fst r with
  | Enhanced e =>
      match e_metadata e with
      | Some m => Dict.get m "table_penalty"
      | None => None
      end
  | Unchanged _ => None
  end.

(** [del d[k]] *)
Fixpoint remove {V} (d : Dict.dict V) (k : string) : Dict.dict V :=
  match d with
  | [] => []
  | (k', v) :: d' =>
      if String.eqb k k' then remove d' k else (k', v) :: remove d' k
  end.

(** The returned dictionary without [metadata.processed_at]. *)
Definition without_timestamp (r : returned) : returned :=
  match r with
  | Enhanced e =>
      Enhanced
        (with_metadata e
           (option_map (fun m => remove m "processed_at") (e_metadata e)))
  | Unchanged _ => r
  end.

(** Two arguments that differ at most in their [metadata]. *)
Definition same_but_metadata (a b : raw_result) : Prop :=
  document_type a = document_type b /\ fields a = fields b
  /\ table a = table b /\ meta a = meta b.

Definition value_and_confidence (fs : annotated_fields)
  : list (string * raw_value * Z) :=
  map (fun '(k, a) => (k, value a, confidence a)) fs.

(** The fields of a PAN card on which nothing was found. *)
Definition unresolved_pan : raw_fields :=
  Extract.fields (Extract.extract_pan_fields [] false).

(** ** Vocabulary: blank text *)

(** Text made of whitespace only; the empty text is one. *)
Definition blank_text (s : text) : Prop := forallb Char.isspace s = true.

Definition space_chars : list ascii :=
  map ascii_of_nat [9; 10; 11; 12; 13; 28; 29; 30; 31; 32]%nat.

(** No whitespace character is in the class. *)
Definition rejects_space (ci : bool) (k : cclass) : bool :=
  forallb (fun c => negb (cmatch ci k c)) space_chars.

(** A sufficient test for: every match of the pattern holds a character that
    is not whitespace. *)
Fixpoint needs_ink (ci : bool) (r : regex) : bool :=
  match r with
  | Cls k => rejects_space ci k
  | Rep k (S _) _ => rejects_space ci k
  | Seq r1 r2 => needs_ink ci r1 || needs_ink ci r2
  | Alt r1 r2 => needs_ink ci r1 && needs_ink ci r2
  | Grp _ r1 => needs_ink ci r1
  | _ => false
  end.

(** The dictionary with the given keys and [None] everywhere. *)
Definition null_fields (names : list string) : raw_fields :=
  map (fun k => (k, None)) names.

Definition three_blanks : text := [" "; Char.newline; " "]%char.

(** Text in which no pattern of any extractor finds anything. *)
Definition garbage : text := str "%%% $$$ ^^^".

(** ** Vocabulary: the classifier *)

(** [[A-Z]{5}[0-9]{4}[A-Z]], as the specification writes it. *)
Definition pan_shape : regex :=
  seqs [exactly 5 (cls Classifier.upper_AZ); exactly 4 (cls Classifier.digit_09);
        Cls (cls Classifier.upper_AZ)].

(** The keywords of the other identity documents. *)
Definition other_keywords : list string :=
  ["AADHAAR"; "AADHAR"; "UIDAI"; "ELECTION"; "ELECTOR"; "DRIVING"]%string.

Definition marksheet_with_pan_shape : text :=
  str "ABCDE1234F ROLL NO 1234 SCHOOL SUBJECT MARKS".

(** The identifier inside a longer run of letters. *)
Definition embedded_pan_shape : text := str "REF XABCDE1234FZ".

(** The other four types stay below 70 points in the scoring classifier. *)
Definition others_below_70 (txt : text) : Prop :=
  Classifier.aadhaar_score txt < 70 /\ Classifier.voter_score txt < 70
  /\ Classifier.dl_score txt < 70 /\ Classifier.marksheet_score txt < 70.

(** ** Vocabulary: key sets *)

(** A dictionary with exactly the keys [names], in that order. *)
Definition has_keys {V} (names : list string) (d : Dict.dict V) : Prop :=
  Dict.keys d = names.

(** ** Vocabulary: further properties *)

(** The status of an annotated field says where its confidence lies with
    respect to its threshold. *)
Definition status_of (threshold confidence : Z) : status :=
  if threshold <=? confidence then PASS
  else if threshold - 10 <=? confidence then REVIEW
  else FAIL.

Definition status_ok (a : annotated) : Prop :=
  field_status a = status_of (threshold a) (confidence a)
  /\ 70 <= threshold a <= 80.

Definition below_threshold (kv : string * annotated) : bool :=
  confidence (snd kv) <? threshold (snd kv).

(** The [metadata] of a returned dictionary. *)
Definition metadata_of (r : returned) : metadata :=
  match r with
  | Enhanced e => match e_metadata e with Some m => m | None => [] end
  | Unchanged _ => []
  end.

Definition fields_of (r : returned) : annotated_fields :=
  match r with
  | Enhanced e => e_fields e
  | Unchanged _ => []
  end.

Definition overall_of (r : returned) : Z :=
  match r with
  | Enhanced e => overall_confidence e
  | Unchanged _ => 0
  end.

Definition valued (kv : string * annotated) : bool :=
  has_value (value (snd kv)).

Definition two_names : annotated_fields :=
  add_confidence_to_fields
    [("name", Some (str "Ravi Kumar")); ("father_name", Some (str "Suresh Kumar"));
     ("dob", None)]%string "PAN" None None no_signals.

(** One signal no better than another. *)
Definition no_better (a b : option Q) : Prop :=
  match a, b with
  | Some x, Some y => (x <= y)%Q
  | None, None => True
  | _, _ => False
  end.

(** The same fields, with confidences that are no lower on the right. *)
Definition no_lower (a b : annotated) : Prop :=
  value a = value b /\ confidence a <= confidence b.
Definition pointwise_no_lower (x y : annotated_fields) : Prop :=
  Forall2 (fun kv1 kv2 => fst kv1 = fst kv2 /\ no_lower (snd kv1) (snd kv2)) x y.

(** A signal that is given lies between two integers. *)
Definition within (lo hi : Z) (q : option Q) : Prop :=
  match q with
  | Some x => (inject_Z lo <= x /\ x <= inject_Z hi)%Q
  | None => True
  end.

Definition checked_fields : list string :=
  ["dob"; "year"; "cgpa"; "father_name"; "gender"]%string.

(** A finding is on one of the five checked fields; it is valid exactly when
    it takes nothing away, and what it takes away is 30 to 50 points. *)
Definition finding_ok (kv : string * finding) : Prop :=
  In (fst kv) checked_fields
  /\ (valid (snd kv) = true <-> confidence_adjustment (snd kv) = 0)
  /\ (valid (snd kv) = false -> -50 <= confidence_adjustment (snd kv) <= -30).

Definition rows_of (er : raw_result) : Z :=
  match table er with
  | Some rows => Z.of_nat (List.length rows)
  | None => 0
  end.

(** A result with fields, of type Marksheet, with fewer than five rows. *)
Definition short_marksheet (er : raw_result) : bool :=
  match fields er, document_type er with
  | Some _, Some d => named d "Marksheet" && (rows_of er <? 5)
  | _, _ => false
  end.

(** A Marksheet of two rows that comes with a [metadata] dictionary. *)
Definition marksheet_with_metadata : raw_result :=
  {| document_type := Some "Marksheet"%string;
     fields := Some [("gender"%string, Some (str "Male"))];
     table := Some [a_row; a_row];
     meta := best_signals;
     input_metadata := Some [("source"%string, MText (str "upload"))] |}.

Definition known_labels : list string :=
  ["PAN"; "Aadhaar"; "Voter ID"; "Driving Licence"; "Marksheet"; "Unknown"]%string.

(** The placeholder or the structured value that the first loop stores. *)
Definition expected_entry (fs : Dict.dict Models.field_data) (k : string)
  : Models.field_data :=
  match Dict.get fs k with
  | Some d => Models.structured d
  | None => Models.Placeholder None
  end.

Definition outside (names : list string)
    (kv : string * Models.field_data) : bool :=
  negb (Dict.mem (fst kv) names).

Definition restructured (kv : string * Models.field_data)
  : string * Models.field_data :=
  (fst kv, Models.structured (snd kv)).

(** The result of [normalize_fields], for a type that has a schema. *)
Definition normalized_as (names : list string)
    (fs : Dict.dict Models.field_data) : Dict.dict Models.field_data :=
  map (fun k => (k, expected_entry fs k)) names
  ++ map restructured (filter (outside names) fs).

(** Two fields of a PAN card, one of them a bare value, and one more key. *)
Definition partial_pan : Dict.dict Models.field_data :=
  [("name", Models.Bare (Some (str "Ravi Kumar")));
   ("note", Models.Bare (Some (str "checked")));
   ("pan", Models.Placeholder (Some (str "ABCDE1234F")))]%string.

Section LightPipelineTerms.
Import Document.

(** The argument that [run_light_api] hands to [process_with_confidence]. *)
Definition light_argument (full_text : text) (ocr : meta_info) : raw_result :=
  let d := Classifier.classify_document_smart full_text in
  {| document_type := Some d;
     fields := Some (fields_for d full_text);
     table := Some [];
     meta := ocr;
     input_metadata := None |}.

End LightPipelineTerms.

Section RouteTerms.
Import Routes.



End RouteTerms.

Section BoxTerms.
Import Extract.

Definition abscissa (b : box) : Z := let '(x, _, _, _) := box_rect b in x.
Definition ordinate (b : box) : Z := let '(_, y, _, _) := box_rect b in y.

(** A box with a text, strictly to the right of the label and less than 40
    away from it in height. *)
Definition to_the_right (label other : box) : bool :=
  match box_text other with
  | Some _ =>
      (abscissa label <? abscissa other)
      && (Z.abs (ordinate other - ordinate label) <? 40)
  | None => false
  end.

Definition candidates (b : box) (boxes : list box) : list (Z * text) :=
  flat_map
    (fun other =>
       match box_text other with
       | Some s => if to_the_right b other then [(abscissa other, s)] else []
       | None => []
       end)
    boxes.

Definition label_box : box :=
  {| box_text := Some (str "Name"); box_rect := (10, 100, 60, 120) |}.
Definition value_box : box :=
  {| box_text := Some (str ": Ravi Kumar ,"); box_rect := (80, 104, 200, 124) |}.
Definition far_box : box :=
  {| box_text := Some (str "Elector"); box_rect := (300, 110, 380, 130) |}.

End BoxTerms.

(** The character before the position that follows [pre]. *)
Definition last_of (p : option ascii) (pre : text) : option ascii :=
  match rev pre with c :: _ => Some c | [] => p end.

(** Five capitals, four digits and a capital. *)
Definition pan_shaped (g : text) : Prop :=
  exists a b c,
    g = a ++ b ++ [c]
    /\ List.length a = 5%nat /\ forallb (rng "A" "Z") a = true
    /\ List.length b = 4%nat /\ forallb (rng "0" "9") b = true
    /\ rng "A" "Z" c = true.

(** [dd/dd/dddd], with either separator. *)
Definition date_shaped (v : text) : Prop :=
  exists D s1 M s2 Y,
    v = D ++ s1 :: M ++ s2 :: Y
    /\ digits D /\ List.length D = 2%nat
    /\ digits M /\ List.length M = 2%nat
    /\ digits Y /\ List.length Y = 4%nat
    /\ is_separator s1 = true /\ is_separator s2 = true.

(** * Proofs *)

(** ** Rounding *)

Lemma round_floor_or_next (q : Q) :
  Py.round q = Qfloor q
  \/ (Py.round q = Qfloor q + 1 /\ (inject_Z (Qfloor q) + (1#2) <= q)%Q).
Proof.
  unfold Py.round.
  destruct (Qcompare (q - inject_Z (Qfloor q)) (1 # 2)) eqn:E.
  - destruct (Z.even (Qfloor q)); [now left | right; split; [reflexivity|]].
    apply Qeq_alt in E. lra.
  - now left.
  - right; split; [reflexivity|]. apply Qgt_alt in E. lra.
Qed.

Lemma round_bounds (a b : Z) (q : Q) :
  (inject_Z a <= q)%Q -> (q <= inject_Z b)%Q -> a <= Py.round q <= b.
Proof.
  intros Ha Hb.
  assert (Hfa : a <= Qfloor q)
    by (rewrite <- (Qfloor_Z a); now apply Qfloor_resp_le).
  assert (Hfb : Qfloor q <= b)
    by (rewrite <- (Qfloor_Z b); now apply Qfloor_resp_le).
  destruct (round_floor_or_next q) as [-> | [-> Hhalf]]; [lia|].
  split; [lia|].
  destruct (Z.eq_dec (Qfloor q) b) as [E|]; [|lia].
  rewrite E in Hhalf. lra.
Qed.

Lemma round_percent (q : Q) :
  (0 <= q)%Q -> (q <= 100)%Q -> 0 <= Py.round q <= 100.
Proof. intros; apply round_bounds; assumption. Qed.

Lemma inject_percent (z : Z) : 0 <= z <= 100 -> percent (inject_Z z).
Proof.
  intros H.
  split; [change 0%Q with (inject_Z 0) | change 100%Q with (inject_Z 100)];
    rewrite <- Zle_Qle; lia.
Qed.

(** ** Dictionaries *)

Lemma set_Forall {V} (P : V -> Prop) (d : Dict.dict V) k v :
  Forall (fun kv => P (snd kv)) d -> P v ->
  Forall (fun kv => P (snd kv)) (Dict.set d k v).
Proof.
  induction d as [|[k' v'] d IH]; intros Hd Hv; simpl.
  - constructor; [exact Hv | constructor].
  - inversion Hd; subst. destruct (String.eqb k k'); constructor; auto.
Qed.

Lemma get_Forall {V} (P : V -> Prop) (d : Dict.dict V) k v :
  Forall (fun kv => P (snd kv)) d -> Dict.get d k = Some v -> P v.
Proof.
  induction d as [|[k' v'] d IH]; simpl; intros Hd Hg; [discriminate|].
  inversion Hd; subst.
  destruct (String.eqb k k'); [now inversion Hg; subst | auto].
Qed.

Lemma keys_set {V} (d : Dict.dict V) k v :
  Dict.mem k (Dict.keys d) = true -> Dict.keys (Dict.set d k v) = Dict.keys d.
Proof.
  induction d as [|[k' v'] d IH]; cbn; [discriminate|].
  destruct (String.eqb k k') eqn:E; cbn.
  - apply String.eqb_eq in E. now subst.
  - intros H. f_equal. now apply IH.
Qed.

Lemma set_has_keys {V} names (d : Dict.dict V) k v :
  Dict.mem k names = true -> has_keys names d -> has_keys names (Dict.set d k v).
Proof. unfold has_keys. intros Hk <-. now apply keys_set. Qed.

Lemma named_eq a b : named a b = true -> a = b.
Proof. apply String.eqb_eq. Qed.

(** Case analysis on the next test of a chain of conditionals. *)
Ltac break_if :=
  match goal with
  | |- context [if ?c then _ else _] => destruct c
  | |- context [match ?c with Some _ => _ | None => _ end] => destruct c
  | |- context [let '(_, _) := ?c in _] => destruct c
  end.

(** A closed comparison of rationals. *)
Ltac q_closed := vm_compute; split; intro; discriminate.

(** A fact about one character, by its 256 cases. *)
Ltac by_cases_on c :=
  destruct c as [[] [] [] [] [] [] [] []]; vm_compute; intuition congruence.

(** ** The range of every confidence *)

Lemma name_confidence_range v :
  (0 <= name_confidence v /\ name_confidence v <= 1)%Q.
Proof. unfold name_confidence. repeat break_if; q_closed. Qed.

Lemma pattern_score_range f v :
  (0 <= pattern_score f v /\ pattern_score f v <= 1)%Q.
Proof.
  unfold pattern_score, date_confidence, address_confidence, cgpa_confidence.
  repeat break_if; first [apply name_confidence_range | q_closed].
Qed.

Lemma pattern_confidence_range f v d :
  0 <= calculate_pattern_confidence f v d <= 100.
Proof.
  unfold calculate_pattern_confidence.
  destruct v as [v|]; [|lia]. destruct (Str.strip v) eqn:E; [lia|].
  match goal with
  | |- context [pattern_score ?a ?b] => destruct (pattern_score_range a b)
  end.
  apply round_percent; lra.
Qed.

Lemma special_count_nonneg v : 0 <= special_count v.
Proof. unfold special_count; lia. Qed.

Lemma special_deduction_range v : 0 <= special_deduction v <= 30.
Proof.
  unfold special_deduction. pose proof (special_count_nonneg v).
  destruct (0 <? special_count v); lia.
Qed.

Lemma length_deduction_range v : 0 <= length_deduction v <= 40.
Proof. unfold length_deduction; repeat break_if; lia. Qed.
Lemma case_deduction_range f v : 0 <= case_deduction f v <= 10.
Proof. unfold case_deduction; repeat break_if; lia. Qed.
Lemma repeat_deduction_range v : 0 <= repeat_deduction v <= 30.
Proof. unfold repeat_deduction; repeat break_if; lia. Qed.
Lemma digit_deduction_range f v : 0 <= digit_deduction f v <= 50.
Proof. unfold digit_deduction; repeat break_if; lia. Qed.

Lemma business_confidence_range f v :
  0 <= calculate_business_rules_confidence f v <= 100.
Proof.
  unfold calculate_business_rules_confidence.
  destruct v as [[|c v]|]; try lia.
  destruct (len (Str.strip (c :: v)) =? 0); [lia|].
  pose proof (length_deduction_range (Str.strip (c :: v))).
  pose proof (special_deduction_range (Str.strip (c :: v))).
  pose proof (case_deduction_range f (Str.strip (c :: v))).
  pose proof (repeat_deduction_range (Str.strip (c :: v))).
  pose proof (digit_deduction_range f (Str.strip (c :: v))).
  lia.
Qed.

Lemma hybrid_confidence_range f v d t iq m :
  percent_opt (overall_average m) -> percent_opt t -> percent_opt iq ->
  0 <= final_confidence (calculate_hybrid_confidence f v d t iq m) <= 100.
Proof.
  intros Hm Ht Hq. unfold calculate_hybrid_confidence; cbn [final_confidence].
  pose proof (inject_percent _ (pattern_confidence_range f v d)) as Hp.
  pose proof (inject_percent _ (business_confidence_range f v)) as Hb.
  set (p := calculate_pattern_confidence f v d) in *.
  set (b := calculate_business_rules_confidence f v) in *.
  set (tc := match overall_average m with
             | Some a => a
             | None => match t with Some x => x | None => inject_Z p end
             end).
  assert (Htc : percent tc).
  { subst tc. destruct (overall_average m); [exact Hm|].
    destruct t; [exact Ht | exact Hp]. }
  set (q := match iq with Some q => q | None => 75.0%Q end).
  assert (Hq' : percent q).
  { subst q. destruct iq; [exact Hq|]. split; vm_compute; discriminate. }
  unfold percent in *. apply round_percent; lra.
Qed.

Lemma check_dob_penalty s : 0 <= snd (fst (check_dob s)) <= 50.
Proof. unfold check_dob. repeat break_if; cbn; lia. Qed.

Lemma dob_finding_ok s : adjustment_ok (dob_finding s).
Proof.
  unfold adjustment_ok, dob_finding. pose proof (check_dob_penalty s) as H.
  destruct (check_dob s) as [[ok p] r]; cbn in *.
  destruct (0 <? p); lia.
Qed.
Lemma year_finding_ok s : adjustment_ok (year_finding s).
Proof. unfold adjustment_ok, year_finding. repeat break_if; cbn; lia. Qed.
Lemma cgpa_finding_ok s : adjustment_ok (cgpa_finding s).
Proof. unfold adjustment_ok, cgpa_finding. repeat break_if; cbn; lia. Qed.

Lemma cross_adjustments_ok fs d :
  Forall (fun kv => adjustment_ok (snd kv)) (validate_cross_fields fs d).
Proof.
  unfold validate_cross_fields.
  repeat match goal with
  | |- Forall _ (if ?c then _ else _) => destruct c
  | |- Forall _ (Dict.set _ _ _) => apply set_Forall
  | |- Forall _ [] => constructor
  end;
  first [apply dob_finding_ok | apply year_finding_ok | apply cgpa_finding_ok
        | unfold adjustment_ok; cbn; lia].
Qed.

Lemma annotate_range cv d oc iq m f v :
  Forall (fun kv => adjustment_ok (snd kv)) cv ->
  percent_opt (overall_average m) -> percent_dict oc -> percent_opt iq ->
  in_percent (confidence (annotate cv d oc iq m f v)).
Proof.
  intros Hcv Hm Hoc Hq. unfold annotate; cbn [confidence].
  match goal with
  | |- context [calculate_hybrid_confidence f v d ?t iq m] =>
      assert (Ht : percent_opt t)
  end.
  { destruct oc as [[|e oc]|]; try exact I.
    change (percent_opt (Dict.get (e :: oc) f)).
    set (dd := e :: oc) in *.
    destruct (Dict.get dd f) eqn:E; [|exact I].
    exact (get_Forall percent _ _ _ Hoc E). }
  match goal with
  | |- context [final_confidence ?h] =>
      pose proof (hybrid_confidence_range f v d _ _ _ Hm Ht Hq) as Hh;
      set (fc := final_confidence h) in *
  end.
  unfold in_percent.
  destruct (Dict.get cv f) as [fd|] eqn:E.
  - pose proof (get_Forall adjustment_ok _ _ _ Hcv E) as Hadj.
    unfold adjustment_ok in Hadj. lia.
  - lia.
Qed.

(** What holds of every value that the loop stores holds of the result. *)
Lemma add_confidence_all (P : annotated -> Prop) fs d oc iq m :
  (forall f v, In (f, v) fs ->
               P (annotate (validate_cross_fields fs d) d oc iq m f v)) ->
  Forall (fun kv => P (snd kv)) (add_confidence_to_fields fs d oc iq m).
Proof.
  unfold add_confidence_to_fields.
  generalize (validate_cross_fields fs d) as cv. intros cv H.
  assert (G : forall (l : raw_fields) (acc : annotated_fields),
             incl l fs ->
             Forall (fun kv => P (snd kv)) acc ->
             Forall (fun kv => P (snd kv))
               (fold_left
                  (fun (a : annotated_fields) '(field_name, field_value) =>
                     Dict.set a field_name
                       (annotate cv d oc iq m field_name field_value)) l acc)).
  { induction l as [|[k v] l IH]; intros acc Hl Hacc; cbn; [exact Hacc|].
    apply IH; [intros x Hx; apply Hl; now right|].
    apply set_Forall; [exact Hacc | apply H; apply Hl; now left]. }
  apply G; [apply incl_refl | constructor].
Qed.

Lemma add_confidence_range fs d oc iq m :
  percent_opt (overall_average m) -> percent_dict oc -> percent_opt iq ->
  Forall (fun kv => in_percent (confidence (snd kv)))
         (add_confidence_to_fields fs d oc iq m).
Proof.
  intros Hm Hoc Hq.
  apply (add_confidence_all (fun a => in_percent (confidence a))).
  intros f v _. apply annotate_range; try assumption.
  apply cross_adjustments_ok.
Qed.

Lemma weight_positive f : (0 < weight_of f)%Q.
Proof.
  unfold weight_of, importance_weights; cbn [Dict.get].
  repeat match goal with
  | |- context [if ?c then _ else _] => destruct c
  end; reflexivity.
Qed.

Lemma weighted_sums_invariant (fs : annotated_fields) (tw w : Q) :
  Forall (fun kv => in_percent (confidence (snd kv))) fs ->
  (0 <= tw)%Q -> (tw <= 100 * w)%Q -> (0 <= w)%Q ->
  let '(tw', w') :=
    fold_left
      (fun '(total_weighted, total_weight) '(field_name, field_data) =>
         if has_value (value field_data) then
           ((total_weighted + inject_Z (confidence field_data) * weight_of field_name)%Q,
            (total_weight + weight_of field_name)%Q)
         else (total_weighted, total_weight))
      fs (tw, w) in
  (0 <= tw')%Q /\ (tw' <= 100 * w')%Q /\ (0 <= w')%Q.
Proof.
  revert tw w. induction fs as [|[k a] fs IH]; intros tw w Hfs H0 H1 H2; cbn.
  - auto.
  - inversion Hfs as [|x y Ha Hrest]; subst. cbn in Ha.
    destruct (has_value (value a)); [|now apply IH].
    pose proof (weight_positive k) as Hw.
    assert (Hc : (0 <= inject_Z (confidence a) /\ inject_Z (confidence a) <= 100)%Q).
    { unfold in_percent in Ha.
      split; [change 0%Q with (inject_Z 0) | change 100%Q with (inject_Z 100)];
        rewrite <- Zle_Qle; lia. }
    apply IH; [assumption| | |]; nra.
Qed.

Lemma overall_confidence_range (fs : annotated_fields) :
  Forall (fun kv => in_percent (confidence (snd kv))) fs ->
  in_percent (calculate_overall_confidence fs).
Proof.
  intros Hfs. unfold calculate_overall_confidence, in_percent.
  destruct fs as [|e fs]; [lia|].
  pose proof (@weighted_sums_invariant (e :: fs) 0 0 Hfs) as H.
  unfold weighted_sums.
  match type of H with
  | _ -> _ -> _ -> let '(_, _) := ?x in _ => destruct x as [tw w]
  end.
  destruct H as (H0 & H1 & H2); try lra.
  destruct (Qeq_bool w 0) eqn:E; [lia|].
  apply Qeq_bool_neq in E.
  assert (Hw : (0 < w)%Q) by (apply Qle_lteq in H2; destruct H2 as [|H2]; [assumption | symmetry in H2; contradiction]).
  apply round_percent.
  - apply Qle_shift_div_l; [assumption | lra].
  - apply Qle_shift_div_r; [assumption | lra].
Qed.

Lemma value_annotate cv d oc iq m f v : value (annotate cv d oc iq m f v) = v.
Proof. reflexivity. Qed.

Lemma weighted_sums_no_value (fs : annotated_fields) :
  Forall (fun kv => has_value (value (snd kv)) = false) fs ->
  weighted_sums fs = (0%Q, 0%Q).
Proof.
  unfold weighted_sums. generalize (0%Q, 0%Q).
  induction fs as [|[k a] fs IH]; intros acc H; cbn; [reflexivity|].
  inversion H as [|x y Ha Hrest]; subst. cbn in Ha.
  destruct acc as [tw w]. rewrite Ha. now apply IH.
Qed.

Lemma overall_no_value (fs : annotated_fields) :
  Forall (fun kv => has_value (value (snd kv)) = false) fs ->
  calculate_overall_confidence fs = 0.
Proof.
  intros H. unfold calculate_overall_confidence.
  destruct fs; [reflexivity|]. now rewrite (weighted_sums_no_value _ H).
Qed.

(** C10. Every confidence that the calculator produces is an integer between
    0 and 100, whatever the field name, the value and the document type, as
    long as the signals handed in (the OCR confidences, the image quality and
    the average of the metadata) are percentages themselves: the format
    score, the sanity score, the fused score of one field, the confidence
    stored for each field after the cross-field adjustment, and the document
    level average.  Every cross-field adjustment is zero or negative, so the
    adjustment never raises a score, and the document average of fields that
    all lack a value is 0. *)
Theorem confidences_stay_in_range
    (fs : raw_fields) (doc : string) (oc : option (Dict.dict Q))
    (iq : option Q) (m : meta_info) :
  percent_opt (overall_average m) -> percent_dict oc -> percent_opt iq ->
  let annotated := add_confidence_to_fields fs doc oc iq m in
  (forall f v, in_percent (calculate_pattern_confidence f v doc)
               /\ in_percent (calculate_business_rules_confidence f v))
  /\ (forall f v t, percent_opt t ->
        in_percent (final_confidence (calculate_hybrid_confidence f v doc t iq m)))
  /\ Forall (fun kv => confidence_adjustment (snd kv) <= 0)
            (validate_cross_fields fs doc)
  /\ Forall (fun kv => in_percent (confidence (snd kv))) annotated
  /\ in_percent (calculate_overall_confidence annotated)
  /\ (Forall (fun kv => has_value (value (snd kv)) = false) annotated ->
      calculate_overall_confidence annotated = 0).
Proof.
  intros Hm Hoc Hq annotated.
  assert (Hall : Forall (fun kv => in_percent (confidence (snd kv))) annotated)
    by now apply add_confidence_range.
  repeat split.
  - apply pattern_confidence_range.
  - apply pattern_confidence_range.
  - apply business_confidence_range.
  - apply business_confidence_range.
  - now apply hybrid_confidence_range.
  - now apply hybrid_confidence_range.
  - eapply Forall_impl; [|apply cross_adjustments_ok].
    intros kv H; apply H.
  - exact Hall.
  - now apply overall_confidence_range.
  - now apply overall_confidence_range.
  - apply overall_no_value.
Qed.

Lemma confidences_stay_in_range_witness :
  percent_opt (Some 90%Q) /\ percent_dict None /\ percent_opt (Some 80%Q) /\
  in_percent
    (calculate_overall_confidence
       (add_confidence_to_fields sample_fields "PAN" None (Some 80%Q)
          {| overall_average := Some 90%Q |})).
Proof.
  assert (H90 : percent_opt (Some 90%Q)) by (split; discriminate).
  assert (H80 : percent_opt (Some 80%Q)) by (split; discriminate).
  refine (conj H90 (conj I (conj H80 _))).
  exact (proj1 (proj2 (proj2 (proj2 (proj2
    (@confidences_stay_in_range sample_fields "PAN" None (Some 80%Q)
       {| overall_average := Some 90%Q |} H90 I H80)))))).
Defined.

(** ** The format score *)

Lemma pattern_blank f v d :
  Str.strip v = [] -> calculate_pattern_confidence f (Some v) d = 0.
Proof. intros E. unfold calculate_pattern_confidence. now rewrite E. Qed.

Lemma pattern_nonblank f v d :
  Str.strip v <> [] ->
  calculate_pattern_confidence f (Some v) d
  = Py.round (pattern_score f (Str.strip v) * 100).
Proof.
  intros E. unfold calculate_pattern_confidence.
  destruct (Str.strip v); [contradiction | reflexivity].
Qed.

(** A value that meets a rule is not blank. *)
Ltac not_blank H :=
  let E := fresh in
  intro E; rewrite E in H; vm_compute in H; discriminate H.

(** C7. For a field that has a format rule (Aadhaar number, PAN, voter id,
    licence number, mobile, roll number, year), a value that meets the strict
    format scores strictly more than a value that meets only the loose
    format, which scores strictly more than a value that meets neither; a
    missing value and a value that is empty or only white space score 0. *)
Theorem pattern_confidence_monotone
    (field_name : string) (strict loose : text -> bool)
    (v1 v2 v3 : text) (doc : string) :
  format_rule field_name = Some (strict, loose) ->
  strict (Str.strip v1) = true ->
  strict (Str.strip v2) = false -> loose (Str.strip v2) = true ->
  strict (Str.strip v3) = false -> loose (Str.strip v3) = false ->
  calculate_pattern_confidence field_name (Some v3) doc
    < calculate_pattern_confidence field_name (Some v2) doc
  /\ calculate_pattern_confidence field_name (Some v2) doc
    < calculate_pattern_confidence field_name (Some v1) doc
  /\ calculate_pattern_confidence field_name None doc = 0
  /\ (forall v, Str.strip v = [] ->
        calculate_pattern_confidence field_name (Some v) doc = 0).
Proof.
  intros Hrule S1 S2 L2 S3 L3.
  assert (Hblank : forall v, Str.strip v = [] ->
            calculate_pattern_confidence field_name (Some v) doc = 0)
    by (intros; now apply pattern_blank).
  revert Hrule S1 S2 L2 S3 L3. unfold format_rule.
  repeat match goal with
  | |- (if ?c then _ else _) = _ -> _ =>
      let En := fresh "En" in
      destruct c eqn:En; [apply named_eq in En; subst field_name |]
  end.
  all: intros Hrule; try discriminate Hrule.
  all: injection Hrule as <- <-; intros S1 S2 L2 S3 L3.
  all: assert (N1 : Str.strip v1 <> []) by not_blank S1.
  all: assert (N2 : Str.strip v2 <> []) by not_blank L2.
  all: rewrite (@pattern_nonblank _ _ doc N1), (@pattern_nonblank _ _ doc N2).
  all: destruct (list_eq_dec ascii_dec (Str.strip v3) []) as [E3|N3];
    [rewrite (@pattern_blank _ _ doc E3) | rewrite (@pattern_nonblank _ _ doc N3)].
  all: unfold pattern_score; cbn [named String.eqb Ascii.eqb Bool.eqb].
  all: cbv beta in S1, S2, L2, S3, L3.
  all: rewrite ?S1, ?S2, ?L2, ?S3, ?L3.
  all: repeat split; try reflexivity; try exact Hblank.
Qed.

Lemma pattern_confidence_monotone_witness :
  calculate_pattern_confidence "pan" (Some (str "abc")) "PAN"
    < calculate_pattern_confidence "pan" (Some (str "ABCDE12345")) "PAN"
  /\ calculate_pattern_confidence "pan" (Some (str "ABCDE12345")) "PAN"
    < calculate_pattern_confidence "pan" (Some (str "ABCDE1234F")) "PAN".
Proof.
  destruct (pattern_confidence_monotone "pan"
              (fullmatch false Rx.pan_strict) (fullmatch false Rx.pan_loose)
              (str "ABCDE1234F") (str "ABCDE12345") (str "abc") "PAN"
              eq_refl eq_refl eq_refl eq_refl eq_refl eq_refl)
    as (H1 & H2 & _).
  exact (conj H1 H2).
Defined.

(** ** The sanity score and special characters *)

(** A search for one character class finds the characters of the class. *)
Section OneClass.
Variable ci : bool.
Variable k : cclass.

Lemma search_class_spec (s : text) : forall p pos,
  match search_from ci (Cls k) p s pos with
  | None => filter (cmatch ci k) s = []
  | Some m =>
      exists pre c, s = pre ++ c :: m_after m
        /\ filter (cmatch ci k) pre = [] /\ cmatch ci k c = true
        /\ m_text m = [c]
  end.
Proof.
  induction s as [|c s IH]; intros p pos.
  - reflexivity.
  - cbn [search_from]. unfold match_at. cbn [rmatch].
    destruct (cmatch ci k c) eqn:E.
    + exists [], c. cbn [m_after m_text app filter].
      repeat split; try assumption.
      replace (List.length (c :: s) - List.length s)%nat with 1%nat
        by (cbn [List.length]; lia).
      reflexivity.
    + specialize (IH (Some c) (S pos)).
      destruct (search_from ci (Cls k) (Some c) s (S pos)) as [m|].
      * destruct IH as (pre & d & Hs & Hpre & Hd & Ht).
        exists (c :: pre), d. cbn [app filter]. rewrite E.
        repeat split; try assumption. now rewrite Hs at 1.
      * cbn [filter]. now rewrite E.
Qed.

Lemma matches_class (fuel : nat) : forall s p pos,
  (List.length s < fuel)%nat ->
  map m_text (matches_from ci fuel (Cls k) p s pos)
  = map (fun c => [c]) (filter (cmatch ci k) s).
Proof.
  induction fuel as [|fuel IH]; intros s p pos Hlen; [lia|].
  cbn [matches_from].
  pose proof (search_class_spec s p pos) as H.
  destruct (search_from ci (Cls k) p s pos) as [m|].
  - destruct H as (pre & c & Hs & Hpre & Hc & Ht).
    assert (Hshort : (List.length (m_after m) < fuel)%nat).
    { rewrite Hs in Hlen. rewrite length_app in Hlen.
      cbn [List.length] in Hlen. lia. }
    rewrite Ht. cbn [rev app map]. rewrite Ht.
    rewrite (IH _ _ _ Hshort).
    rewrite Hs. rewrite filter_app, Hpre. cbn [app filter]. rewrite Hc.
    reflexivity.
  - now rewrite H.
Qed.

Lemma findall_class (s : text) :
  findall ci (Cls k) s = map (fun c => [c]) (filter (cmatch ci k) s).
Proof. unfold findall, finditer. apply matches_class. lia. Qed.

End OneClass.

Lemma special_count_filter s :
  special_count s = Z.of_nat (List.length (filter is_special s)).
Proof.
  unfold special_count. rewrite findall_class. now rewrite length_map.
Qed.

(** Stripping removes only characters of the class. *)
Lemma filter_lstrip (f P : ascii -> bool) (s : text) :
  (forall c, f c = true -> P c = false) ->
  filter P (Str.lstrip_by f s) = filter P s.
Proof.
  intros H. induction s as [|c s IH]; [reflexivity|].
  cbn. destruct (f c) eqn:E.
  - rewrite (H _ E). exact IH.
  - reflexivity.
Qed.

Lemma filter_rev (P : ascii -> bool) (s : text) :
  filter P (rev s) = rev (filter P s).
Proof.
  induction s as [|c s IH]; [reflexivity|].
  cbn. rewrite filter_app, IH. cbn. destruct (P c); cbn; [reflexivity|].
  now rewrite app_nil_r.
Qed.

Lemma filter_strip (f P : ascii -> bool) (s : text) :
  (forall c, f c = true -> P c = false) ->
  filter P (Str.strip_by f s) = filter P s.
Proof.
  intros H. unfold Str.strip_by, Str.rstrip_by.
  rewrite filter_rev, (filter_lstrip _ _ _ H), filter_rev, rev_involutive.
  apply (filter_lstrip _ _ _ H).
Qed.

Lemma space_not_special c : Char.isspace c = true -> is_special c = false.
Proof. by_cases_on c. Qed.
Lemma special_not_cased c :
  is_special c = true -> Char.isupper c = false /\ Char.islower c = false.
Proof. by_cases_on c. Qed.
Lemma special_not_digit c : is_special c = true -> Char.isdigit c = false.
Proof. by_cases_on c. Qed.
Lemma space_not_cased c :
  Char.isspace c = true -> Char.isupper c = false /\ Char.islower c = false.
Proof. by_cases_on c. Qed.
Lemma space_not_digit c : Char.isspace c = true -> Char.isdigit c = false.
Proof. by_cases_on c. Qed.

(** Injecting one character at a position. *)

Lemma filter_inject P i c s :
  P c = true ->
  List.length (filter P (inject i c s)) = S (List.length (filter P s)).
Proof.
  intros Hc. unfold inject. rewrite filter_app. cbn [filter]. rewrite Hc.
  rewrite length_app. cbn [List.length].
  rewrite <- (firstn_skipn i s) at 3. rewrite filter_app, length_app. lia.
Qed.

Lemma existsb_filter (P : ascii -> bool) s :
  existsb P s = negb (Nat.eqb (List.length (filter P s)) 0).
Proof.
  induction s as [|c s IH]; [reflexivity|].
  cbn. destruct (P c); cbn; [reflexivity | exact IH].
Qed.

Lemma filter_inject_other P i c s :
  P c = false -> filter P (inject i c s) = filter P s.
Proof.
  intros Hc. unfold inject. rewrite filter_app. cbn [filter]. rewrite Hc.
  rewrite <- filter_app. now rewrite firstn_skipn.
Qed.

Lemma special_count_inject i c v :
  is_special c = true ->
  special_count (Str.strip (inject i c v)) = special_count (Str.strip v) + 1.
Proof.
  intros Hc. rewrite !special_count_filter. unfold Str.strip.
  rewrite !(filter_strip _ _ _ space_not_special).
  rewrite (filter_inject _ _ _ _ Hc). lia.
Qed.

Lemma existsb_strip_inject (P : ascii -> bool) i c v :
  (forall x, Char.isspace x = true -> P x = false) -> P c = false ->
  existsb P (Str.strip (inject i c v)) = existsb P (Str.strip v).
Proof.
  intros Hs Hc. rewrite !existsb_filter. unfold Str.strip.
  rewrite !(filter_strip _ _ _ Hs). now rewrite (filter_inject_other _ _ _ _ Hc).
Qed.

Lemma case_deduction_inject f i c v :
  is_special c = true ->
  case_deduction f (Str.strip (inject i c v)) = case_deduction f (Str.strip v).
Proof.
  intros Hc. unfold case_deduction, Str.isupper, Str.islower.
  destruct (special_not_cased _ Hc) as [Hu Hl].
  rewrite !(existsb_strip_inject Char.isupper), !(existsb_strip_inject Char.islower);
    try assumption; try (intros x Hx; now destruct (space_not_cased _ Hx)).
  reflexivity.
Qed.

Lemma digit_deduction_inject f i c v :
  is_special c = true ->
  digit_deduction f (Str.strip (inject i c v)) = digit_deduction f (Str.strip v).
Proof.
  intros Hc. unfold digit_deduction.
  rewrite (existsb_strip_inject Char.isdigit);
    [reflexivity | apply space_not_digit | now apply special_not_digit].
Qed.

Lemma strip_nil : Str.strip [] = [].
Proof. reflexivity. Qed.

Lemma business_nonblank f v :
  Str.strip v <> [] ->
  calculate_business_rules_confidence f (Some v)
  = Z.max 0 (100 - length_deduction (Str.strip v)
             - special_deduction (Str.strip v)
             - case_deduction f (Str.strip v)
             - repeat_deduction (Str.strip v)
             - digit_deduction f (Str.strip v)).
Proof.
  intros N. unfold calculate_business_rules_confidence.
  destruct v as [|c v]; [now elim N|].
  destruct (Str.strip (c :: v)) as [|d s]; [now elim N|].
  reflexivity.
Qed.

Lemma business_blank f v :
  Str.strip v = [] -> calculate_business_rules_confidence f (Some v) = 0.
Proof.
  intros E. unfold calculate_business_rules_confidence.
  destruct v; [reflexivity|]. now rewrite E.
Qed.

Lemma special_deduction_count s :
  special_deduction s = Z.min 30 (special_count s * 5).
Proof.
  unfold special_deduction. rewrite special_count_filter.
  destruct (0 <? Z.of_nat (List.length (filter is_special s))) eqn:E; lia.
Qed.

Lemma length_deduction_values s :
  length_deduction s = 0 \/ length_deduction s = 30 \/ length_deduction s = 40.
Proof. unfold length_deduction. repeat match goal with |- context [if ?c then _ else _] => destruct c end; auto. Qed.
Lemma case_deduction_values f s :
  case_deduction f s = 0 \/ case_deduction f s = 10.
Proof. unfold case_deduction. destruct (_ && _); auto. Qed.
Lemma repeat_deduction_values s :
  repeat_deduction s = 0 \/ repeat_deduction s = 30.
Proof. unfold repeat_deduction. destruct (has_repeat s); auto. Qed.
Lemma digit_deduction_values f s :
  digit_deduction f s = 0 \/ digit_deduction f s = 50.
Proof. unfold digit_deduction. destruct (_ && _); auto. Qed.

(** C6. The sanity score is 0 for a missing and for an empty value.  Putting
    one more disallowed special character into a non-blank value, the other
    deductions unchanged, never raises the score; it lowers the score by
    exactly 5 as long as the value held fewer than six such characters and
    the score was above 0, and leaves it unchanged once six are present (the
    deduction is capped at 30). *)
Theorem business_confidence_under_injection
    (field_name : string) (v : text) (i : nat) (c : ascii) :
  is_special c = true ->
  Str.strip v <> [] ->
  length_deduction (Str.strip (inject i c v)) = length_deduction (Str.strip v) ->
  repeat_deduction (Str.strip (inject i c v)) = repeat_deduction (Str.strip v) ->
  let before := calculate_business_rules_confidence field_name (Some v) in
  let after :=
    calculate_business_rules_confidence field_name (Some (inject i c v)) in
  calculate_business_rules_confidence field_name None = 0
  /\ calculate_business_rules_confidence field_name (Some []) = 0
  /\ after <= before
  /\ (special_count (Str.strip v) < 6 -> 0 < before -> after = before - 5)
  /\ (6 <= special_count (Str.strip v) -> after = before).
Proof.
  intros Hc Hv Hlen Hrep before after.
  pose proof (special_count_inject i c v Hc) as Hcount.
  assert (Hv' : Str.strip (inject i c v) <> []).
  { intros E. rewrite E in Hcount. rewrite !special_count_filter in Hcount.
    cbn in Hcount. lia. }
  subst before after.
  rewrite (business_nonblank _ _ Hv), (business_nonblank _ _ Hv').
  rewrite Hlen, Hrep, (case_deduction_inject field_name i c v Hc),
    (digit_deduction_inject field_name i c v Hc), !special_deduction_count, Hcount.
  assert (Hn : 0 <= special_count (Str.strip v))
    by (rewrite special_count_filter; lia).
  destruct (length_deduction_values (Str.strip v)) as [-> | [-> | ->]];
  destruct (case_deduction_values field_name (Str.strip v)) as [-> | ->];
  destruct (repeat_deduction_values (Str.strip v)) as [-> | ->];
  destruct (digit_deduction_values field_name (Str.strip v)) as [-> | ->];
  repeat split; try reflexivity; lia.
Qed.

(** C6, as stated: the score does not decrease once the cap of the deduction
    is reached.  The value below holds six special characters; a seventh
    changes no other deduction and leaves the score at 70. *)
Lemma business_injection_counterexample :
  let field_name := "address"%string in
  let v := str "a!@#$%^" in
  let v' := inject 7 "&" v in
  is_special "&" = true
  /\ length_deduction (Str.strip v') = length_deduction (Str.strip v)
  /\ case_deduction field_name (Str.strip v')
     = case_deduction field_name (Str.strip v)
  /\ repeat_deduction (Str.strip v') = repeat_deduction (Str.strip v)
  /\ digit_deduction field_name (Str.strip v')
     = digit_deduction field_name (Str.strip v)
  /\ special_count (Str.strip v') = special_count (Str.strip v) + 1
  /\ calculate_business_rules_confidence field_name (Some v) = 70
  /\ calculate_business_rules_confidence field_name (Some v') = 70
  /\ ~ (calculate_business_rules_confidence field_name (Some v')
        < calculate_business_rules_confidence field_name (Some v)).
Proof. vm_compute. repeat split; discriminate. Qed.

Lemma business_confidence_under_injection_witness :
  calculate_business_rules_confidence "address" (Some (inject 1 "@" (str "abc")))
  = calculate_business_rules_confidence "address" (Some (str "abc")) - 5.
Proof.
  assert (N : Str.strip (str "abc") <> []) by (vm_compute; discriminate).
  destruct (business_confidence_under_injection "address" (str "abc") 1 "@"
              eq_refl N eq_refl eq_refl) as (_ & _ & _ & H & _).
  apply H; vm_compute; reflexivity.
Defined.

(** ** Dates of birth *)

Lemma digit_facts c :
  Char.isdigit c = true ->
  Char.isspace c = false /\ is_separator c = false
  /\ Ascii.eqb c "-" = false /\ Ascii.eqb c "+" = false
  /\ cmatch false cd c = true.
Proof. by_cases_on c. Qed.

Lemma separator_facts c :
  is_separator c = true ->
  cmatch false cd c = false /\ cmatch false (cls (oneof "/-")) c = true.
Proof. by_cases_on c. Qed.

Lemma digits_cons c s : digits (c :: s) <-> Char.isdigit c = true /\ digits s.
Proof. unfold digits; cbn. now rewrite andb_true_iff. Qed.

Lemma lstrip_digit c s :
  Char.isdigit c = true -> Str.lstrip_by Char.isspace (c :: s) = c :: s.
Proof. intros H. cbn. now destruct (digit_facts c H) as (-> & _). Qed.

Lemma digits_rev s : digits s -> digits (rev s).
Proof. unfold digits. intros H. rewrite forallb_forall in *. intros x Hx. apply H. now apply in_rev. Qed.

Lemma strip_digits s : digits s -> Str.strip s = s.
Proof.
  intros H. unfold Str.strip, Str.strip_by, Str.rstrip_by.
  destruct s as [|c s]; [reflexivity|].
  apply digits_cons in H as H'. destruct H' as [Hc Hs].
  rewrite (lstrip_digit c s Hc).
  pose proof (digits_rev _ H) as Hr.
  destruct (rev (c :: s)) as [|d r] eqn:E.
  - apply (f_equal (@rev ascii)) in E. rewrite rev_involutive in E. discriminate E.
  - apply digits_cons in Hr. destruct Hr as [Hd _].
    rewrite (lstrip_digit d r Hd), <- E. apply rev_involutive.
Qed.

Lemma digitpart_digits s b :
  digits s -> s <> [] -> Py.digitpart_from b s = Some s.
Proof.
  revert b. induction s as [|c s IH]; intros b H N; [now elim N|].
  apply digits_cons in H. destruct H as [Hc Hs].
  cbn. rewrite Hc. destruct s as [|d s'].
  - reflexivity.
  - rewrite (IH true Hs); [reflexivity | discriminate].
Qed.

Lemma int_digits s :
  digits s -> s <> [] -> Py.int s = Some (Py.decimal s).
Proof.
  intros H N. unfold Py.int. rewrite (strip_digits s H).
  destruct s as [|c s]; [now elim N|].
  apply digits_cons in H as H'. destruct H' as [Hc Hs].
  destruct (digit_facts c Hc) as (_ & _ & Hm & Hp & _).
  unfold Py.signed. rewrite Hm, Hp. unfold Py.digitpart.
  now rewrite (digitpart_digits (c :: s) false H N).
Qed.

Lemma split_digits s :
  digits s -> Str.split_on (oneof "/-") s = [s].
Proof.
  induction s as [|c s IH]; intros H; [reflexivity|].
  apply digits_cons in H. destruct H as [Hc Hs]. cbn [Str.split_on].
  destruct (digit_facts c Hc) as (_ & Hsep & _). unfold is_separator in Hsep.
  rewrite Hsep, (IH Hs). reflexivity.
Qed.

Lemma split_digits_app s c rest :
  digits s -> is_separator c = true ->
  Str.split_on (oneof "/-") (s ++ c :: rest)
  = s :: Str.split_on (oneof "/-") rest.
Proof.
  intros H Hc. induction s as [|d s IH].
  - cbn [app Str.split_on]. unfold is_separator in Hc. now rewrite Hc.
  - apply digits_cons in H. destruct H as [Hd Hs]. cbn [app Str.split_on].
    destruct (digit_facts d Hd) as (_ & Hsep & _). unfold is_separator in Hsep.
    rewrite Hsep, (IH Hs). reflexivity.
Qed.

Lemma date_parts_digits D M Y s1 s2 :
  digits D -> D <> [] -> digits M -> M <> [] -> digits Y -> Y <> [] ->
  is_separator s1 = true -> is_separator s2 = true ->
  date_parts (D ++ s1 :: M ++ s2 :: Y)
  = Some (Py.decimal D, Py.decimal M, Py.decimal Y).
Proof.
  intros HD ND HM NM HY NY H1 H2. unfold date_parts.
  rewrite (split_digits_app D s1 _ HD H1), (split_digits_app M s2 _ HM H2),
    (split_digits Y HY).
  now rewrite (int_digits D HD ND), (int_digits M HM NM), (int_digits Y HY NY).
Qed.

Lemma date_shape_matches D M Y s1 s2 :
  digits D -> (1 <= List.length D <= 2)%nat ->
  digits M -> (1 <= List.length M <= 2)%nat ->
  digits Y -> List.length Y = 4%nat ->
  is_separator s1 = true -> is_separator s2 = true ->
  match_ false Rx.date (D ++ s1 :: M ++ s2 :: Y) <> None
  /\ fullmatch false Rx.date (D ++ s1 :: M ++ s2 :: Y) = true.
Proof.
  intros HD LD HM LM HY LY H1 H2.
  destruct (separator_facts s1 H1) as [N1 S1].
  destruct (separator_facts s2 H2) as [N2 S2].
  destruct Y as [|y1 [|y2 [|y3 [|y4 [|]]]]]; try discriminate LY.
  repeat (apply digits_cons in HY; destruct HY as [?Hy HY]).
  destruct (digit_facts y1 Hy) as (_ & _ & _ & _ & Y1).
  destruct (digit_facts y2 Hy0) as (_ & _ & _ & _ & Y2).
  destruct (digit_facts y3 Hy1) as (_ & _ & _ & _ & Y3).
  destruct (digit_facts y4 Hy2) as (_ & _ & _ & _ & Y4).
  destruct D as [|d1 [|d2 [|]]]; cbn in LD; try lia;
  destruct M as [|m1 [|m2 [|]]]; cbn in LM; try lia.
  all: repeat (apply digits_cons in HD; destruct HD as [?Hd HD]).
  all: repeat (apply digits_cons in HM; destruct HM as [?Hm HM]).
  all: repeat match goal with
       | H : Char.isdigit ?c = true |- _ =>
           let F := fresh "F" in
           destruct (digit_facts c H) as (_ & _ & _ & _ & F); clear H
       end.
  all: unfold match_, match_at, fullmatch, Rx.date, between, exactly, chr.
  all: cbn [app seqs rmatch rep pred option_map].
  all: repeat match goal with
       | H : cmatch false _ _ = _ |- _ => rewrite H; clear H
       end.
  all: cbn [app seqs rmatch rep pred option_map].
  all: split; [discriminate | reflexivity].
Qed.

Lemma get_dob_finding fs doc :
  Dict.get (validate_cross_fields fs doc) "dob"
  = if Py.truthy (get_value fs "dob")
    then Some (dob_finding (text_of (get_value fs "dob"))) else None.
Proof.
  unfold validate_cross_fields.
  repeat match goal with
  | |- context [if ?c then Dict.set _ _ _ else _] => destruct c
  end; reflexivity.
Qed.

Lemma dob_finding_shape D M Y s1 s2 :
  digits D -> (1 <= List.length D <= 2)%nat ->
  digits M -> (1 <= List.length M <= 2)%nat ->
  digits Y -> List.length Y = 4%nat ->
  is_separator s1 = true -> is_separator s2 = true ->
  confidence_adjustment (dob_finding (D ++ s1 :: M ++ s2 :: Y))
  = verdict_with_bound 2024 (Py.decimal D) (Py.decimal M) (Py.decimal Y).
Proof.
  intros HD LD HM LM HY LY H1 H2.
  destruct (date_shape_matches D M Y s1 s2 HD LD HM LM HY LY H1 H2) as [Hm _].
  assert (ND : D <> []) by (intros ->; cbn in LD; lia).
  assert (NM : M <> []) by (intros ->; cbn in LM; lia).
  assert (NY : Y <> []) by (intros ->; discriminate LY).
  unfold dob_finding, check_dob, verdict_with_bound.
  rewrite (date_parts_digits D M Y s1 s2 HD ND HM NM HY NY H1 H2).
  destruct (match_ false Rx.date (D ++ s1 :: M ++ s2 :: Y)); [|now elim Hm].
  destruct (between_Z 1 (Py.decimal D) 31); cbn; [|reflexivity].
  destruct (between_Z 1 (Py.decimal M) 12); cbn; [|reflexivity].
  destruct (between_Z 1900 (Py.decimal Y) 2024); reflexivity.
Qed.

Lemma date_verdict_sound day month year a :
  date_verdict day month year = Some a ->
  verdict_with_bound 2024 day month year = a.
Proof.
  unfold date_verdict, verdict_with_bound, between_Z.
  destruct (negb _ || negb _); [congruence|].
  destruct (year <? 1900) eqn:E1.
  - intros [= <-]. apply Z.ltb_lt in E1.
    replace (1900 <=? year) with false by (symmetry; apply Z.leb_gt; lia).
    reflexivity.
  - destruct (year <=? 2024) eqn:E2; [|discriminate].
    intros [= <-]. apply Z.ltb_ge in E1. apply Z.leb_le in E1. now rewrite E1.
Qed.

(** C5. For a [dob] value that is not empty, the cross-field validation
    gives the adjustment -50 when the value does not start with a date of the
    shape D[/-]M[/-]YYYY (day and month of one or two digits).  When the
    whole value has that shape, the adjustment is -40 when the day is not in
    1..31 or the month is not in 1..12, otherwise -30 when the year is before
    1900, and 0 when the year is in 1900..2024.  An empty value gets no
    adjustment at all.  Years after 2024 and values with text after the date
    are not covered. *)
Theorem dob_adjustment_by_design (fs : raw_fields) (doc : string) (dob : text) :
  get_value fs "dob" = Some dob ->
  (dob = [] -> dob_adjustment fs doc = None)
  /\ (dob <> [] -> match_ false Rx.date dob = None ->
      dob_adjustment fs doc = Some (-50))
  /\ (forall D M Y s1 s2 a,
        dob = D ++ s1 :: M ++ s2 :: Y ->
        digits D -> (1 <= List.length D <= 2)%nat ->
        digits M -> (1 <= List.length M <= 2)%nat ->
        digits Y -> List.length Y = 4%nat ->
        is_separator s1 = true -> is_separator s2 = true ->
        date_verdict (Py.decimal D) (Py.decimal M) (Py.decimal Y) = Some a ->
        dob_adjustment fs doc = Some a).
Proof.
  intros Hget. unfold dob_adjustment. rewrite get_dob_finding, Hget.
  repeat split.
  - intros ->. reflexivity.
  - intros N Hno. destruct dob as [|c dob]; [now elim N|].
    cbn [Py.truthy option_map text_of]. unfold dob_finding, check_dob.
    now rewrite Hno.
  - intros D M Y s1 s2 a -> HD LD HM LM HY LY H1 H2 Ha.
    assert (N : D ++ s1 :: M ++ s2 :: Y <> []) by (now destruct D).
    destruct (D ++ s1 :: M ++ s2 :: Y) as [|c r] eqn:E; [now elim N|].
    cbn [Py.truthy option_map text_of]. rewrite <- E.
    rewrite (dob_finding_shape D M Y s1 s2 HD LD HM LM HY LY H1 H2).
    now rewrite (date_verdict_sound _ _ _ _ Ha).
Qed.

(** C5, as stated: three values on which the adjustment is not the stated
    one.  The year 2025 is taken as out of range although the current year
    is 2026; a value that only starts with a date passes as a valid date;
    and an empty value, which is not null, gets no adjustment. *)
Lemma dob_adjustment_counterexample :
  dob_adjustment [("dob"%string, Some (str "15/08/2025"))] "PAN" = Some (-30)
  /\ stated_dob_adjustment 2026 (str "15/08/2025") = 0
  /\ dob_adjustment [("dob"%string, Some (str "01/01/1990/05"))] "PAN" = Some 0
  /\ stated_dob_adjustment 2026 (str "01/01/1990/05") = -50
  /\ dob_adjustment [("dob"%string, Some [])] "PAN" = None.
Proof. vm_compute. repeat split. Qed.

Lemma dob_adjustment_by_design_witness :
  dob_adjustment [("dob"%string, Some (str "15/13/1990"))] "PAN" = Some (-40).
Proof.
  refine (proj2 (proj2
    (dob_adjustment_by_design [("dob"%string, Some (str "15/13/1990"))] "PAN"
       (str "15/13/1990") eq_refl))
    (str "15") (str "13") (str "1990") "/"%char "/"%char (-40)
    eq_refl eq_refl _ eq_refl _ eq_refl eq_refl eq_refl eq_refl eq_refl);
  cbn; lia.
Defined.

(** The upper bound of the years is the constant 2024, whatever the date of
    the run. *)
Remark dob_year_bound_is_fixed :
  dob_adjustment [("dob"%string, Some (str "15/08/2024"))] "PAN" = Some 0
  /\ dob_adjustment [("dob"%string, Some (str "15/08/2025"))] "PAN"
     = Some (-30).
Proof. vm_compute. split; reflexivity. Qed.

(** ** The table penalty *)

(** C1. On a Marksheet whose unpenalised score is 100, with 0, 2, 4 and 6
    table rows, the penalised scores are 60, 75, 90 and 100, but the
    [overall_confidence] that the returned dictionary reports is 100 in all
    four cases, and its [metadata] holds no [table_penalty] entry.  The same
    on a transcript as the document pipeline hands it over (the fields of the
    extractor and an empty table): the penalised score is 52, the reported
    one is 87, nothing is recorded, and only [suggest_rescan] follows the
    penalised score. *)
Theorem table_penalty_is_not_reported :
  map (fun rows => reported (run_marksheet rows)) [0; 2; 4; 6]%nat
  = [Some 100; Some 100; Some 100; Some 100]
  /\ map (fun rows => fst (table_penalty_of (Z.of_nat rows) 100))
       [0; 2; 4; 6]%nat
     = [60; 75; 90; 100]
  /\ map (fun rows => recorded_penalty (run_marksheet rows)) [0; 2; 4; 6]%nat
     = [None; None; None; None]
  /\ (let r := process_with_confidence transcript_result None None
                 (str "2024-01-01T00:00:00") in
      reported r = Some 87
      /\ fst (table_penalty_of 0 87) = 52
      /\ recorded_penalty r = None
      /\ match fst r with
         | Enhanced e =>
             option_map (fun m => Dict.get m "suggest_rescan") (e_metadata e)
         | Unchanged _ => None
         end = Some (Some (MBool true))).
Proof. vm_compute. repeat split. Qed.

(** For every argument, what is reported is the average of the fields, and
    the metadata of the result has no [table_penalty]. *)
Lemma reported_is_unpenalised er oc iq now :
  match fst (process_with_confidence er oc iq now) with
  | Enhanced e =>
      overall_confidence e = calculate_overall_confidence (e_fields e)
      /\ e_confidence e = calculate_overall_confidence (e_fields e)
      /\ exists m, e_metadata e = Some m /\ Dict.get m "table_penalty" = None
  | Unchanged _ => fields er = None
  end.
Proof.
  unfold process_with_confidence.
  destruct (fields er) as [fs|]; [|reflexivity].
  cbn [fst]. generalize (add_confidence_to_fields fs
     match document_type er with Some d => d | None => "Unknown"%string end
     oc iq (meta er)).
  intros ann. unfold metadata_step, penalty_step, copy_step.
  cbn [enhanced e_document_type].
  destruct (document_type er) as [d|];
    [destruct (named d "Marksheet");
      [cbn [local_confidence caller];
       destruct (table_penalty_of _ _) as [o [p|]];
        [destruct (e_metadata _) |] |] |];
  cbn; repeat split; eexists; split; reflexivity.
Qed.

(** ** Two runs *)

Lemma without_timestamp_step now st :
  without_timestamp (Enhanced (enhanced (metadata_step now st)))
  = Enhanced
      (with_metadata (enhanced st)
         (Some
            (remove
               (match e_metadata (enhanced (metadata_step [] st)) with
                | Some m => m
                | None => []
                end) "processed_at"))).
Proof. reflexivity. Qed.

Lemma caller_same_but_metadata er ann :
  same_but_metadata (caller (penalty_step (copy_step er ann))) er.
Proof.
  destruct er as [da fa ta ma ia].
  unfold penalty_step, copy_step, same_but_metadata.
  cbn [enhanced e_document_type local_confidence caller e_metadata document_type
       table input_metadata meta fields].
  destruct da as [d|];
    [destruct (named d "Marksheet");
      [destruct (table_penalty_of _ _) as [o [p|]];
        [destruct ia |] |] |];
  cbn; repeat split; reflexivity.
Qed.

Lemma metadata_forgotten a b ann now :
  same_but_metadata a b ->
  without_timestamp
    (Enhanced (enhanced (metadata_step now (penalty_step (copy_step a ann)))))
  = without_timestamp
      (Enhanced (enhanced (metadata_step now (penalty_step (copy_step b ann))))).
Proof.
  destruct a as [da fa ta ma ia], b as [db fb tb mb ib].
  unfold same_but_metadata; cbn [document_type fields table meta].
  intros (<- & <- & <- & <-).
  unfold metadata_step, penalty_step, copy_step.
  cbn [enhanced e_document_type local_confidence caller e_metadata document_type
       table input_metadata meta fields].
  destruct da as [d|];
    [destruct (named d "Marksheet");
      [destruct (table_penalty_of _ _) as [o [p|]];
        [destruct ia, ib |] |] |];
  reflexivity.
Qed.

(** C2. Two runs of [process_with_confidence] on the same arguments, at
    whatever moments, return dictionaries that are equal except for
    [metadata.processed_at], and leave the caller's dictionary the same; a
    run on the dictionary that an earlier run left behind returns the same
    again. *)
Theorem deterministic_up_to_timestamp
    (er : raw_result) (oc : option (Dict.dict Q)) (iq : option Q)
    (now1 now2 : text) :
  let first := process_with_confidence er oc iq now1 in
  let second := process_with_confidence er oc iq now2 in
  let again := process_with_confidence (snd first) oc iq now2 in
  without_timestamp (fst first) = without_timestamp (fst second)
  /\ snd first = snd second
  /\ without_timestamp (fst again) = without_timestamp (fst first).
Proof.
  unfold process_with_confidence.
  destruct (fields er) as [fs|] eqn:Ef; cbn [fst snd].
  2:{ rewrite Ef. repeat split. }
  set (doc := match document_type er with Some d => d | None => "Unknown"%string end).
  set (ann := add_confidence_to_fields fs doc oc iq (meta er)).
  split; [|split].
  - now rewrite !without_timestamp_step.
  - reflexivity.
  - change (caller (metadata_step now1 (penalty_step (copy_step er ann))))
      with (caller (penalty_step (copy_step er ann))).
    destruct (caller_same_but_metadata er ann) as (Hd & Hf & Ht & Hm).
    rewrite Hf, Ef, Hd, Hm. fold doc. fold ann. cbn [fst].
    rewrite (metadata_forgotten _ er ann now2 (caller_same_but_metadata er ann)).
    now rewrite !without_timestamp_step.
Qed.

(** C2, as stated: the same arguments at two moments give two results. *)
Lemma timestamp_counterexample :
  process_with_confidence (marksheet_with_rows 0) None None
    (str "2024-01-01T00:00:00")
  <> process_with_confidence (marksheet_with_rows 0) None None
       (str "2024-01-01T00:00:01").
Proof. vm_compute. intros H. discriminate H. Qed.

(** ** Blank text *)

Lemma isspace_listed c : Char.isspace c = true -> In c space_chars.
Proof.
  destruct c as [[] [] [] [] [] [] [] []]; vm_compute; intros H;
    try discriminate H; intuition.
Qed.

Lemma rejects_space_spec ci k c :
  rejects_space ci k = true -> Char.isspace c = true -> cmatch ci k c = false.
Proof.
  unfold rejects_space. rewrite forallb_forall. intros H Hc.
  apply isspace_listed in Hc. apply H in Hc. now apply negb_true_iff.
Qed.

Lemma blank_cons c s :
  blank_text (c :: s) <-> Char.isspace c = true /\ blank_text s.
Proof. unfold blank_text; cbn. now rewrite andb_true_iff. Qed.

Section Blank.

Variable ci : bool.
Variable A : Type.

Lemma rep_dead_end k (s : text) : forall lo hi p (kont : option ascii -> text -> option A),
  blank_text s ->
  (forall p' s', blank_text s' -> kont p' s' = None) ->
  rep ci k lo hi p s kont = None.
Proof.
  induction s as [|c s IH]; intros lo hi p kont Hs Hk.
  - destruct lo, hi as [[|]|]; cbn; auto.
  - apply blank_cons in Hs as Hs'. destruct Hs' as [Hc Hs'].
    cbn [rep].
    assert (Hstop : match lo with O => kont p (c :: s) | S _ => None end = None)
      by (destruct lo; auto).
    destruct hi as [[|h]|]; [exact Hstop | |];
      (destruct (cmatch ci k c); [rewrite IH by assumption|]; exact Hstop).
Qed.

Lemma rmatch_dead_end (r : regex) : forall p s g
    (kont : option ascii -> text -> captures -> option A),
  blank_text s ->
  (forall p' s' g', blank_text s' -> kont p' s' g' = None) ->
  rmatch ci r p s g kont = None.
Proof.
  induction r as [|k|k lo hi|r1 IH1|r1 IH1 r2 IH2|r1 IH1 r2 IH2|i r1 IH1| | |];
    intros p s g kont Hs Hk; cbn [rmatch].
  - auto.
  - destruct s as [|c s]; [reflexivity|].
    apply blank_cons in Hs. destruct Hs as [_ Hs].
    destruct (cmatch ci k c); auto.
  - apply rep_dead_end; auto.
  - rewrite IH1; auto.
  - apply IH1; auto.
  - rewrite IH1; auto.
  - apply IH1; auto.
  - destruct p; auto.
  - destruct s as [|c [|d s]]; auto. destruct (Ascii.eqb c Char.newline); auto.
  - destruct (xorb _ _); auto.
Qed.

Lemma rmatch_needs_ink (r : regex) : forall p s g
    (kont : option ascii -> text -> captures -> option A),
  needs_ink ci r = true -> blank_text s ->
  rmatch ci r p s g kont = None.
Proof.
  induction r as [|k|k lo hi|r1 IH1|r1 IH1 r2 IH2|r1 IH1 r2 IH2|i r1 IH1| | |];
    intros p s g kont Hr Hs; cbn [needs_ink] in Hr; try discriminate Hr;
    cbn [rmatch].
  - destruct s as [|c s]; [reflexivity|].
    apply blank_cons in Hs. destruct Hs as [Hc _].
    now rewrite (rejects_space_spec _ _ _ Hr Hc).
  - destruct lo as [|lo]; [discriminate Hr|].
    destruct s as [|c s]; [now destruct hi as [[|]|]|].
    apply blank_cons in Hs. destruct Hs as [Hc _].
    cbn [rep]. rewrite (rejects_space_spec _ _ _ Hr Hc).
    now destruct hi as [[|]|].
  - apply orb_true_iff in Hr. destruct Hr as [Hr|Hr].
    + now apply IH1.
    + apply rmatch_dead_end; [assumption|]. intros; now apply IH2.
  - apply andb_true_iff in Hr. destruct Hr as [H1 H2].
    rewrite IH1 by assumption. now apply IH2.
  - now apply IH1.
Qed.

End Blank.

Lemma search_blank ci r (s : text) : forall p pos,
  needs_ink ci r = true -> blank_text s -> search_from ci r p s pos = None.
Proof.
  induction s as [|c s IH]; intros p pos Hr Hs; cbn [search_from];
    unfold match_at; rewrite rmatch_needs_ink by assumption.
  - reflexivity.
  - apply blank_cons in Hs. destruct Hs as [_ Hs]. now apply IH.
Qed.

Lemma search_on_blank ci r s :
  needs_ink ci r = true -> blank_text s -> search ci r s = None.
Proof. intros; now apply search_blank. Qed.

Lemma found_on_blank ci r s :
  needs_ink ci r = true -> blank_text s -> found ci r s = false.
Proof. intros Hr Hs. unfold found. now rewrite search_on_blank. Qed.

Lemma findall_on_blank ci r s :
  needs_ink ci r = true -> blank_text s -> findall ci r s = [].
Proof.
  intros Hr Hs. unfold findall, finditer. cbn [matches_from].
  now rewrite search_blank.
Qed.

(** Blank text has no line and nothing left after [strip]. *)
Lemma lstrip_blank s : blank_text s -> Str.lstrip_by Char.isspace s = [].
Proof.
  induction s as [|c s IH]; intros H; [reflexivity|].
  apply blank_cons in H. destruct H as [Hc Hs]. cbn. rewrite Hc. now apply IH.
Qed.

Lemma strip_blank s : blank_text s -> Str.strip s = [].
Proof.
  intros H. unfold Str.strip, Str.strip_by, Str.rstrip_by.
  now rewrite (lstrip_blank s H).
Qed.

Lemma upper_space c : Char.isspace c = true -> Char.upper c = c.
Proof. destruct c as [[] [] [] [] [] [] [] []]; vm_compute; intuition congruence. Qed.

Lemma blank_upper s : blank_text s -> blank_text (Str.upper s).
Proof.
  induction s as [|c s IH]; intros H; [reflexivity|].
  apply blank_cons in H. destruct H as [Hc Hs].
  change (Str.upper (c :: s)) with (Char.upper c :: Str.upper s).
  apply blank_cons. rewrite (upper_space c Hc). split; [assumption | now apply IH].
Qed.

Lemma blank_rev s : blank_text s -> blank_text (rev s).
Proof.
  unfold blank_text. rewrite !forallb_forall. intros H x Hx.
  apply H. now apply in_rev.
Qed.

Lemma splitlines_blank (n : nat) : forall s cur,
  (List.length s <= n)%nat -> blank_text cur -> blank_text s ->
  Forall blank_text (Str.splitlines_from cur s).
Proof.
  induction n as [|n IH]; intros s cur Hn Hcur Hs.
  - destruct s; [|cbn in Hn; lia]. cbn.
    destruct cur; constructor; [now apply blank_rev | constructor].
  - destruct s as [|c s]; cbn [Str.splitlines_from].
    + destruct cur; constructor; [now apply blank_rev | constructor].
    + cbn in Hn. apply blank_cons in Hs. destruct Hs as [Hc Hs].
      destruct (Char.islinebreak c).
      * constructor; [now apply blank_rev|].
        destruct s as [|d s']; [constructor|].
        apply blank_cons in Hs as Hs'. destruct Hs' as [Hd Hs'].
        cbn in Hn.
        destruct (_ && _)%bool; apply IH; cbn; try lia; try assumption;
          reflexivity.
      * apply IH; [lia | | assumption]. apply blank_cons. now split.
Qed.

Lemma stripped_lines_blank s : blank_text s -> Str.stripped_lines s = [].
Proof.
  intros H. unfold Str.stripped_lines, Str.splitlines.
  pose proof (splitlines_blank (List.length s) s [] (le_n _) eq_refl H) as Hl.
  induction Hl as [|l ls Hb _ IH]; [reflexivity|].
  cbn. rewrite (strip_blank l Hb). exact IH.
Qed.

Lemma blank_is_blank t : blank_text t -> Classifier.blank t = true.
Proof. intros H. unfold Classifier.blank. now rewrite (strip_blank t H). Qed.

Lemma classify_blank t :
  blank_text t ->
  Classifier.classify_document_type_v2 t
  = {| Classifier.document_type := "Unknown"; Classifier.confidence := 0;
       Classifier.scores := [] |}
  /\ Classifier.classify_document_type t = "Unknown"%string
  /\ Classifier.classify_document_smart t = "Unknown"%string.
Proof.
  intros H. pose proof (blank_is_blank t H) as Hb.
  assert (H2 : Classifier.classify_document_type_v2 t
    = {| Classifier.document_type := "Unknown"; Classifier.confidence := 0;
         Classifier.scores := [] |})
    by (unfold Classifier.classify_document_type_v2; now rewrite Hb).
  assert (H1 : Classifier.classify_document_type t = "Unknown"%string)
    by (unfold Classifier.classify_document_type; now rewrite Hb).
  repeat split; try assumption.
  unfold Classifier.classify_document_smart. now rewrite H2, H1.
Qed.

Ltac dead_search :=
  repeat match goal with
  | H : blank_text ?s |- context [search ?ci ?r ?s] =>
      rewrite (search_on_blank ci r s eq_refl H)
  | H : blank_text ?s |- context [found ?ci ?r ?s] =>
      rewrite (found_on_blank ci r s eq_refl H)
  | H : blank_text ?s |- context [findall ?ci ?r ?s] =>
      rewrite (findall_on_blank ci r s eq_refl H)
  end.

Lemma pan_blank t rawdata :
  blank_text t ->
  Extract.fields (Extract.extract_pan_fields t rawdata)
  = null_fields (Models.schema "PAN").
Proof.
  intros H. pose proof (blank_upper t H) as Hu.
  unfold Extract.extract_pan_fields.
  rewrite (stripped_lines_blank t H).
  dead_search. reflexivity.
Qed.

Lemma aadhaar_blank t :
  blank_text t ->
  Extract.extract_aadhaar_fields t = null_fields (Models.schema "Aadhaar").
Proof.
  intros H. unfold Extract.extract_aadhaar_fields.
  now rewrite (stripped_lines_blank t H).
Qed.

Lemma voter_blank t rawdata :
  blank_text t ->
  Extract.fields (Extract.extract_voter_fields t None rawdata)
  = null_fields (Models.schema "Voter ID").
Proof.
  intros H. unfold Extract.extract_voter_fields, Extract.voter_by_patterns.
  cbn [flat_map fold_left andb]. cbv iota.
  rewrite (stripped_lines_blank t H).
  dead_search. reflexivity.
Qed.

Lemma dl_blank t :
  blank_text t ->
  Extract.extract_dl_fields t = null_fields (Models.schema "Driving Licence").
Proof.
  intros H. unfold Extract.extract_dl_fields.
  destruct t as [|c t]; [reflexivity|].
  rewrite (stripped_lines_blank _ H).
  unfold Extract.dl_labelled_date.
  dead_search. reflexivity.
Qed.

Lemma marksheet_blank t :
  blank_text t ->
  Extract.extract_marksheet_fields t = null_fields (Models.schema "Marksheet").
Proof.
  intros H. unfold Extract.extract_marksheet_fields.
  rewrite (stripped_lines_blank t H).
  dead_search. reflexivity.
Qed.

Lemma overall_of_nulls names d oc iq m :
  calculate_overall_confidence
    (add_confidence_to_fields (null_fields names) d oc iq m) = 0.
Proof.
  apply overall_no_value.
  apply (add_confidence_all (fun a => has_value (value a) = false)).
  intros f v Hin. rewrite value_annotate.
  unfold null_fields in Hin. apply in_map_iff in Hin.
  destruct Hin as (k & [= _ <-] & _). reflexivity.
Qed.

(** C9. On a text that is empty or holds only white space, both classifiers
    answer Unknown, the scoring one with confidence 0 and no scores; each of
    the five extractors returns the keys of its schema with no value for any
    of them; and the document confidence of such fields is 0, whatever the
    document type and the signals.  Every function of the model is total, so
    each of these calls returns. *)
Theorem blank_text_degrades (t : text) :
  blank_text t ->
  (Classifier.classify_document_type_v2 t
   = {| Classifier.document_type := "Unknown"; Classifier.confidence := 0;
        Classifier.scores := [] |}
   /\ Classifier.classify_document_smart t = "Unknown"%string)
  /\ (forall rawdata,
        Extract.fields (Extract.extract_pan_fields t rawdata)
        = null_fields (Models.schema "PAN"))
  /\ Extract.extract_aadhaar_fields t = null_fields (Models.schema "Aadhaar")
  /\ (forall rawdata,
        Extract.fields (Extract.extract_voter_fields t None rawdata)
        = null_fields (Models.schema "Voter ID"))
  /\ Extract.extract_dl_fields t = null_fields (Models.schema "Driving Licence")
  /\ Extract.extract_marksheet_fields t = null_fields (Models.schema "Marksheet")
  /\ (forall doc oc iq m,
        calculate_overall_confidence
          (add_confidence_to_fields (null_fields (Models.schema doc)) doc oc iq m)
        = 0).
Proof.
  intros H. destruct (classify_blank t H) as (H2 & _ & Hs).
  repeat split; try assumption.
  - intros; now apply pan_blank.
  - now apply aadhaar_blank.
  - intros; now apply voter_blank.
  - now apply dl_blank.
  - now apply marksheet_blank.
  - intros; apply overall_of_nulls.
Qed.

Lemma blank_text_degrades_witness :
  blank_text three_blanks
  /\ Classifier.classify_document_smart three_blanks = "Unknown"%string.
Proof.
  split; [reflexivity|].
  exact (proj2 (proj1 (blank_text_degrades three_blanks eq_refl))).
Defined.

(** ** The classifiers on a PAN identifier *)

Lemma lstrip_nil f (s : text) :
  Str.lstrip_by f s = [] -> forallb f s = true.
Proof.
  induction s as [|c s IH]; [reflexivity|]. cbn.
  destruct (f c); [exact IH | discriminate].
Qed.

Lemma lstrip_head f (s : text) c r :
  Str.lstrip_by f s = c :: r -> f c = false.
Proof.
  induction s as [|d s IH]; cbn; [discriminate|].
  destruct (f d) eqn:E; [exact IH|]. intros H; injection H as <- _. exact E.
Qed.

Lemma strip_nil_blank s : Str.strip s = [] -> blank_text s.
Proof.
  unfold Str.strip, Str.strip_by, Str.rstrip_by. intros H.
  apply (f_equal (@rev ascii)) in H. rewrite rev_involutive in H. cbn in H.
  apply lstrip_nil in H.
  destruct (Str.lstrip_by Char.isspace s) as [|c r] eqn:E.
  - now apply lstrip_nil.
  - apply lstrip_head in E. rewrite forallb_forall in H.
    rewrite (H c) in E; [discriminate|]. apply in_rev. rewrite rev_involutive.
    now left.
Qed.

Lemma found_not_blank ci r t :
  needs_ink ci r = true -> found ci r (Str.upper t) = true ->
  Classifier.blank t = false.
Proof.
  intros Hr Hf. unfold Classifier.blank.
  destruct (Str.strip t) eqn:E; [|reflexivity].
  apply strip_nil_blank in E. apply blank_upper in E.
  rewrite (found_on_blank ci r _ Hr E) in Hf. discriminate Hf.
Qed.

Lemma trunc_inject (v : Z) : Py.trunc (inject_Z v) = v.
Proof.
  unfold Py.trunc. destruct (Qle_bool 0 (inject_Z v)).
  - apply Qfloor_Z.
  - apply Qceiling_Z.
Qed.

Lemma confidence_below_70 (v : Z) :
  v < 70 -> Py.trunc (Classifier.confidence_of v) < 70.
Proof.
  intros H. unfold Classifier.confidence_of.
  replace (100 <=? v) with false by (symmetry; apply Z.leb_gt; lia).
  replace (70 <=? v) with false by (symmetry; apply Z.leb_gt; lia).
  destruct (50 <=? v) eqn:E.
  - apply Z.leb_le in E.
    assert (Hq : (50 <= 50 + (inject_Z v - 50) * 0.5 /\
                  50 + (inject_Z v - 50) * 0.5 < 70)%Q).
    { assert (H1 : (inject_Z 50 <= inject_Z v)%Q) by (rewrite <- Zle_Qle; lia).
      assert (H2 : (inject_Z v < inject_Z 70)%Q) by (rewrite <- Zlt_Qlt; lia).
      change (inject_Z 50) with 50%Q in H1. change (inject_Z 70) with 70%Q in H2.
      split; lra. }
    destruct Hq as [Hlo Hhi]. unfold Py.trunc.
    replace (Qle_bool 0 (50 + (inject_Z v - 50) * 0.5)) with true
      by (symmetry; apply Qle_bool_iff; lra).
    assert (Hf : (inject_Z (Qfloor (50 + (inject_Z v - 50) * 0.5)) < inject_Z 70)%Q).
    { eapply Qle_lt_trans; [apply Qfloor_le | exact Hhi]. }
    rewrite <- Zlt_Qlt in Hf. exact Hf.
  - rewrite trunc_inject. exact H.
Qed.

Lemma v2_confident_means_pan (t : text) :
  others_below_70 (Str.upper t) ->
  Classifier.confidence (Classifier.classify_document_type_v2 t) < 70
  \/ Classifier.document_type (Classifier.classify_document_type_v2 t)
     = "PAN"%string.
Proof.
  intros (Ha & Hv & Hd & Hm). unfold Classifier.classify_document_type_v2.
  destruct (Classifier.blank t); [left; cbn; lia|].
  cbv zeta. destruct (_ =? 0); [left; cbn; lia|].
  unfold Classifier.scores_of, Classifier.best_of. cbn [map Classifier.argmax snd].
  set (p := Z.max 0 (Classifier.pan_score (Str.upper t))).
  set (a := Z.max 0 (Classifier.aadhaar_score (Str.upper t))).
  set (v := Z.max 0 (Classifier.voter_score (Str.upper t))).
  set (d := Z.max 0 (Classifier.dl_score (Str.upper t))).
  set (m := Z.max 0 (Classifier.marksheet_score (Str.upper t))).
  assert (a < 70 /\ v < 70 /\ d < 70 /\ m < 70) as (Ha' & Hv' & Hd' & Hm')
    by (subst a v d m; lia).
  clearbody p a v d m.
  repeat match goal with
  | |- context [if ?x <? ?y then _ else _] => destruct (x <? y); cbn [snd]
  end;
  cbn [Classifier.document_type Classifier.confidence];
  first [right; reflexivity | left; now apply confidence_below_70].
Qed.

(** C8. For every text whose upper-cased form holds a PAN identifier (five
    letters, four digits, one letter) standing as a word of its own, the
    older classifier answers PAN; and when none of the other four types
    reaches 70 points in the scoring classifier, the combined classifier
    answers PAN too. *)
Theorem pan_identifier_classified (t : text) :
  found false Classifier.Rx.pan_id (Str.upper t) = true ->
  others_below_70 (Str.upper t) ->
  Classifier.classify_document_type t = "PAN"%string
  /\ Classifier.classify_document_smart t = "PAN"%string.
Proof.
  intros Hf Hothers.
  assert (H1 : Classifier.classify_document_type t = "PAN"%string).
  { unfold Classifier.classify_document_type.
    rewrite (found_not_blank false Classifier.Rx.pan_id t eq_refl Hf).
    now rewrite Hf. }
  split; [exact H1|].
  unfold Classifier.classify_document_smart. rewrite H1.
  destruct (70 <=? _) eqn:E; [|reflexivity].
  destruct (v2_confident_means_pan t Hothers) as [Hlt | Hpan];
    [apply Z.leb_le in E; lia | exact Hpan].
Qed.

(** C8, as stated: two texts that hold the shape and none of the keywords
    of the other identity documents.  The first also holds the words of a
    marksheet, which collects 85 points, and is classified as Marksheet; in
    the second the shape is part of a longer word, and the answer is
    Unknown. *)
Lemma pan_identifier_counterexample :
  (found false pan_shape marksheet_with_pan_shape = true
   /\ Classifier.any_in other_keywords (Str.upper marksheet_with_pan_shape)
      = false
   /\ Classifier.marksheet_score (Str.upper marksheet_with_pan_shape) = 85
   /\ Classifier.classify_document_smart marksheet_with_pan_shape
      = "Marksheet"%string)
  /\ (found false pan_shape embedded_pan_shape = true
      /\ Classifier.any_in other_keywords (Str.upper embedded_pan_shape)
         = false
      /\ Classifier.classify_document_smart embedded_pan_shape
         = "Unknown"%string).
Proof. vm_compute. repeat split. Qed.

Lemma pan_identifier_classified_witness :
  found false Classifier.Rx.pan_id (Str.upper (str "Name ABCDE1234F")) = true
  /\ Classifier.classify_document_smart (str "Name ABCDE1234F") = "PAN"%string.
Proof.
  split; [reflexivity|].
  refine (proj2 (pan_identifier_classified (str "Name ABCDE1234F") eq_refl _)).
  vm_compute. repeat split; reflexivity.
Defined.

(** ** The keys of the extractors *)

Ltac keep_step :=
  match goal with
  | |- has_keys _ (Dict.set _ _ _) => apply set_has_keys; [reflexivity|]
  | |- has_keys _ (Extract.assign _ _ ?o) => unfold Extract.assign
  | |- has_keys _ (Extract.keep_or _ _ _) => unfold Extract.keep_or
  | |- has_keys _ (if ?c then _ else _) => destruct c
  | |- has_keys _ (match ?c with Some _ => _ | None => _ end) => destruct c
  | |- has_keys _ (match ?c with [] => _ | _ :: _ => _ end) => destruct c
  | |- has_keys _ (fst (let '(_, _) := ?st in _)) => destruct st
  | |- has_keys _ _ => assumption
  | |- has_keys _ _ => reflexivity
  end.
Ltac keep := repeat keep_step.

Section Keys.

Variable names : list string.

Lemma pan_names_keys lines : forall fs,
  Dict.mem "name" names = true -> Dict.mem "father_name" names = true ->
  has_keys names fs -> has_keys names (Extract.pan_names lines fs).
Proof.
  induction lines as [|l ls IH]; intros fs Hn Hf H; cbn [Extract.pan_names].
  - exact H.
  - apply IH; try assumption.
    cbv zeta.
    destruct (_ && _)%bool; [apply set_has_keys; [assumption|]|];
    (destruct (_ && _)%bool; [apply set_has_keys; assumption | assumption]).
Qed.

End Keys.

Lemma pan_keys t rawdata :
  Dict.keys (Extract.fields (Extract.extract_pan_fields t rawdata))
  = Models.schema "PAN".
Proof.
  unfold Extract.extract_pan_fields, Extract.with_rawdata.
  cbn [Extract.fields].
  apply pan_names_keys; [reflexivity | reflexivity |]. keep.
Qed.

Lemma dl_labelled_keys names t label field st :
  Dict.mem field names = true ->
  has_keys names (fst st) ->
  has_keys names (fst (Extract.dl_labelled_date t label field st)).
Proof.
  intros Hf H. unfold Extract.dl_labelled_date. destruct st as [fs u].
  destruct (search true _ t); cbn [fst] in *; [|assumption].
  now apply set_has_keys.
Qed.

Lemma dl_spare_keys names field st :
  Dict.mem field names = true ->
  has_keys names (fst st) ->
  has_keys names (fst (Extract.dl_spare_date field st)).
Proof.
  intros Hf H. unfold Extract.dl_spare_date. destruct st as [fs u].
  destruct (negb _); [|assumption].
  destruct u; cbn [fst] in *; [assumption|]. now apply set_has_keys.
Qed.

Lemma dl_keys t :
  Dict.keys (Extract.extract_dl_fields t) = Models.schema "Driving Licence".
Proof.
  unfold Extract.extract_dl_fields. destruct t as [|c t]; [reflexivity|].
  cbv zeta.
  apply (dl_spare_keys (Models.schema "Driving Licence")); [reflexivity|].
  apply dl_spare_keys; [reflexivity|].
  apply dl_labelled_keys; [reflexivity|].
  apply dl_labelled_keys; [reflexivity|].
  apply dl_labelled_keys; [reflexivity|].
  cbn [fst]. keep.
Qed.

Lemma mark_names_keys names lines : forall fs,
  Dict.mem "student_name" names = true -> Dict.mem "father_name" names = true ->
  Dict.mem "mother_name" names = true ->
  has_keys names fs -> has_keys names (Extract.mark_names lines fs).
Proof.
  induction lines as [|l ls IH]; intros fs H1 H2 H3 H; cbn [Extract.mark_names].
  - exact H.
  - destruct (found true _ l); [|now apply IH].
    destruct ls as [|l1 [|l2 [|l3 ls]]]; cbv zeta iota;
      repeat (apply set_has_keys; [assumption|]); assumption.
Qed.

Lemma marksheet_keys t :
  Dict.keys (Extract.extract_marksheet_fields t) = Models.schema "Marksheet".
Proof.
  unfold Extract.extract_marksheet_fields. cbv zeta.
  apply (mark_names_keys (Models.schema "Marksheet")); try reflexivity. keep.
Qed.

Lemma voter_box_keys names boxes fs b :
  (forall k, In k ["name"; "father_name"; "husband_name"; "dob"; "gender";
                   "voter_id"]%string -> Dict.mem k names = true) ->
  has_keys names fs -> has_keys names (Extract.voter_box boxes fs b).
Proof.
  intros Hk H. unfold Extract.voter_box, Extract.keep_or.
  destruct (Str.lower _); [assumption|].
  repeat match goal with
  | |- has_keys _ (if ?c then _ else _) => destruct c
  end; try assumption; apply set_has_keys; try assumption; apply Hk; cbn; tauto.
Qed.

Lemma voter_boxes_keys names boxes l : forall fs,
  (forall k, In k ["name"; "father_name"; "husband_name"; "dob"; "gender";
                   "voter_id"]%string -> Dict.mem k names = true) ->
  has_keys names fs ->
  has_keys names (fold_left (Extract.voter_box boxes) l fs).
Proof.
  induction l as [|b l IH]; intros fs Hk H; cbn; [exact H|].
  apply IH; [assumption|]. now apply voter_box_keys.
Qed.

Lemma voter_patterns_keys t fs :
  has_keys (Models.schema "Voter ID") fs ->
  has_keys (Models.schema "Voter ID") (Extract.voter_by_patterns t fs).
Proof. intros H. unfold Extract.voter_by_patterns. cbv zeta. keep. Qed.

Lemma voter_keys t yolo_output rawdata :
  Dict.keys (Extract.fields (Extract.extract_voter_fields t yolo_output rawdata))
  = Models.schema "Voter ID".
Proof.
  unfold Extract.extract_voter_fields. cbv zeta.
  match goal with
  | |- context [fold_left (Extract.voter_box ?bs) ?bs ?fs] =>
      assert (H : has_keys (Models.schema "Voter ID")
                    (fold_left (Extract.voter_box bs) bs fs));
      [apply voter_boxes_keys; [|reflexivity] |
       generalize dependent (fold_left (Extract.voter_box bs) bs fs)]
  end.
  - intros k Hk. cbn in Hk.
    repeat (destruct Hk as [<- | Hk]; [reflexivity|]). contradiction.
  - intros by_boxes H.
    destruct (_ && _)%bool; unfold Extract.with_rawdata;
      cbn [Extract.fields].
    + exact H.
    + now apply voter_patterns_keys.
Qed.

Lemma aadhaar_names_keys names lines : forall fs,
  Dict.mem "name" names = true -> Dict.mem "father_name" names = true ->
  has_keys names fs -> has_keys names (Extract.aadhaar_names lines fs).
Proof.
  induction lines as [|l ls IH]; intros fs H1 H2 H; cbn [Extract.aadhaar_names].
  - exact H.
  - destruct (search true _ l).
    + unfold Extract.aadhaar_same_line. cbv zeta.
      repeat match goal with
      | |- has_keys _ (if ?c then _ else _) => destruct c
      | |- has_keys _ (Dict.set _ _ _) => apply set_has_keys; [assumption|]
      end; assumption.
    + destruct ls as [|next ls']; [now apply IH|].
      unfold Extract.aadhaar_two_lines. cbv zeta.
      destruct (match_ false _ _); [|now apply IH].
      destruct (found true _ _); [|now apply IH].
      destruct (search true _ next);
        repeat (apply set_has_keys; [assumption|]); assumption.
Qed.

Lemma aadhaar_keys t :
  Dict.keys (Extract.extract_aadhaar_fields t) = Models.schema "Aadhaar".
Proof.
  unfold Extract.extract_aadhaar_fields.
  destruct (Str.stripped_lines t) as [|l ls]; [reflexivity|].
  cbv zeta.
  match goal with
  | |- context [Extract.aadhaar_names ?lines ?fs] =>
      assert (H : has_keys (Models.schema "Aadhaar")
                    (Extract.aadhaar_names lines fs));
      [apply aadhaar_names_keys; [reflexivity | reflexivity |]; keep |
       generalize dependent (Extract.aadhaar_names lines fs)]
  end.
  intros fs H.
  repeat match goal with
  | |- Dict.keys (match ?a with [] => _ | _ :: _ => _ end) = _ => destruct a
  end; try exact H; now apply set_has_keys.
Qed.

Lemma keys_without_rawdata e :
  Extract.rawdata e = None -> Extract.keys_of e = Dict.keys (Extract.fields e).
Proof. unfold Extract.keys_of. intros ->. apply app_nil_r. Qed.

(** C3. For every text, each of the five extractors returns a dictionary
    whose keys are exactly the field names of the schema of its type, in the
    order of the schema: the fields of PAN and Voter ID whatever the
    [rawdata] flag and the boxes of the detector, and the whole dictionary
    when the flag is off (the flag adds the lines of the text under the key
    [rawdata]).  On the empty text and on a text of punctuation only, every
    one of these fields is null. *)
Theorem extractors_return_schema (t : text) yolo_output :
  ((forall rawdata,
      has_keys (Models.schema "PAN")
        (Extract.fields (Extract.extract_pan_fields t rawdata)))
   /\ Extract.keys_of (Extract.extract_pan_fields t false)
      = Models.schema "PAN")
  /\ has_keys (Models.schema "Aadhaar") (Extract.extract_aadhaar_fields t)
  /\ ((forall rawdata,
         has_keys (Models.schema "Voter ID")
           (Extract.fields
              (Extract.extract_voter_fields t yolo_output rawdata)))
      /\ Extract.keys_of (Extract.extract_voter_fields t yolo_output false)
         = Models.schema "Voter ID")
  /\ has_keys (Models.schema "Driving Licence") (Extract.extract_dl_fields t)
  /\ has_keys (Models.schema "Marksheet") (Extract.extract_marksheet_fields t)
  /\ Forall
       (fun nothing =>
          Extract.fields (Extract.extract_pan_fields nothing false)
          = null_fields (Models.schema "PAN")
          /\ Extract.extract_aadhaar_fields nothing
             = null_fields (Models.schema "Aadhaar")
          /\ Extract.fields (Extract.extract_voter_fields nothing None false)
             = null_fields (Models.schema "Voter ID")
          /\ Extract.extract_dl_fields nothing
             = null_fields (Models.schema "Driving Licence")
          /\ Extract.extract_marksheet_fields nothing
             = null_fields (Models.schema "Marksheet"))
       [[]; garbage].
Proof.
  repeat split.
  - intros rawdata. apply pan_keys.
  - rewrite keys_without_rawdata; [apply pan_keys | reflexivity].
  - apply aadhaar_keys.
  - intros rawdata. apply voter_keys.
  - rewrite keys_without_rawdata; [apply voter_keys|].
    unfold Extract.extract_voter_fields. cbv zeta.
    destruct (_ && _)%bool; reflexivity.
  - apply dl_keys.
  - apply marksheet_keys.
  - repeat constructor; vm_compute; reflexivity.
Qed.

(** With the flag on, the dictionary has one more key. *)
Remark rawdata_adds_a_key t :
  Extract.keys_of (Extract.extract_pan_fields t true)
  = Models.schema "PAN" ++ ["rawdata"%string].
Proof.
  unfold Extract.keys_of. rewrite pan_keys. reflexivity.
Qed.

(** ** Fields without a value *)

(** C4. The fields of a PAN card on which nothing was found keep their
    four keys and their null values, but the confidence stored for each of
    them is not 0: it is 15 when no OCR average and no image quality is
    supplied (a fifth of the default quality of 75), and 52 with an OCR
    average of 90 and a quality of 80.  [normalize_fields], which writes the
    placeholder with confidence 0 for a field that is missing, leaves these
    annotated fields as they are. *)
Theorem unresolved_field_confidence :
  value_and_confidence
    (add_confidence_to_fields unresolved_pan "PAN" None None no_signals)
  = [("pan", None, 15); ("name", None, 15); ("father_name", None, 15);
     ("dob", None, 15)]%string
  /\ value_and_confidence
       (add_confidence_to_fields unresolved_pan "PAN" None (Some 80%Q)
          {| overall_average := Some 90%Q |})
     = [("pan", None, 52); ("name", None, 52); ("father_name", None, 52);
        ("dob", None, 52)]%string
  /\ map (fun '(k, d) => (k, Models.value_of d, Models.confidence_of d))
       (Models.normalize_fields
          (map (fun '(k, a) => (k, Models.Annotated a))
             (add_confidence_to_fields unresolved_pan "PAN" None None no_signals))
          "PAN")
     = [("pan", None, Some 15); ("name", None, Some 15);
        ("father_name", None, Some 15); ("dob", None, Some 15)]%string.
Proof. vm_compute. repeat split. Qed.

(** The fused confidence of a field without a value, for any signals. *)
Lemma null_field_fused f d t iq m :
  final_confidence (calculate_hybrid_confidence f None d t iq m)
  = Py.round
      ((match overall_average m with
        | Some a => a
        | None => match t with Some x => x | None => 0 end
        end) * 0.40 + 0 * 0.30
       + (match iq with Some q => q | None => 75.0 end) * 0.20 + 0 * 0.10)%Q.
Proof. reflexivity. Qed.

(** * Further properties of the code *)

(** ** What the annotation keeps *)

Lemma set_fresh {V} (d : Dict.dict V) k v :
  ~ In k (Dict.keys d) -> Dict.set d k v = d ++ [(k, v)].
Proof.
  induction d as [|[k' v'] d IH]; cbn; intros H; [reflexivity|].
  destruct (String.eqb k k') eqn:E.
  - apply String.eqb_eq in E. subst. elim H. now left.
  - f_equal. apply IH. intros Hin. apply H. now right.
Qed.

Lemma fold_set_fresh {A V} (f : string -> A -> V) (l : list (string * A)) :
  forall acc : Dict.dict V,
  NoDup (Dict.keys acc ++ map fst l) ->
  fold_left (fun (a : Dict.dict V) '(k, x) => Dict.set a k (f k x)) l acc
  = acc ++ map (fun '(k, x) => (k, f k x)) l.
Proof.
  induction l as [|[k x] l IH]; intros acc H; cbn.
  - now rewrite app_nil_r.
  - assert (Hk : ~ In k (Dict.keys acc)).
    { intros Hin. apply NoDup_remove_2 in H. apply H.
      apply in_or_app. now left. }
    rewrite (set_fresh acc k (f k x) Hk). rewrite IH.
    + now rewrite <- app_assoc.
    + unfold Dict.keys in *. rewrite map_app. cbn. rewrite <- app_assoc.
      exact H.
Qed.

(** With distinct keys, the loop of [add_confidence_to_fields] is a map. *)
Lemma add_confidence_map fs d oc iq m :
  NoDup (Dict.keys fs) ->
  add_confidence_to_fields fs d oc iq m
  = map (fun '(k, v) =>
           (k, annotate (validate_cross_fields fs d) d oc iq m k v)) fs.
Proof.
  intros H. unfold add_confidence_to_fields.
  exact (fold_set_fresh
           (annotate (validate_cross_fields fs d) d oc iq m) fs [] H).
Qed.

(** X1. The annotation keeps every field, in its place and with its value:
    the annotated dictionary has the keys of the fields, in the same order,
    and under each key the value that the field had. *)
Theorem annotation_keeps_fields fs d oc iq m :
  NoDup (Dict.keys fs) ->
  Dict.keys (add_confidence_to_fields fs d oc iq m) = Dict.keys fs
  /\ map (fun kv => (fst kv, value (snd kv)))
         (add_confidence_to_fields fs d oc iq m) = fs.
Proof.
  intros H. rewrite (add_confidence_map fs d oc iq m H).
  generalize (validate_cross_fields fs d) as cv. intros cv.
  unfold Dict.keys. rewrite !map_map. split.
  - apply map_ext. now intros [k v].
  - rewrite <- (map_id fs) at 2. apply map_ext. now intros [k v].
Qed.

Lemma annotation_keeps_fields_witness :
  Dict.keys (add_confidence_to_fields sample_fields "PAN" None None no_signals)
  = Dict.keys sample_fields.
Proof.
  refine (proj1 (annotation_keeps_fields sample_fields "PAN" None None
                   no_signals _)).
  repeat constructor; cbn; intuition discriminate.
Defined.

(** ** Status and the list of low-confidence fields *)

Lemma threshold_range f :
  70 <= match Dict.get FIELD_THRESHOLDS f with Some t => t | None => 80 end
     <= 80.
Proof.
  unfold FIELD_THRESHOLDS; cbn [Dict.get].
  repeat match goal with
  | |- context [if ?c then _ else _] => destruct c
  end; lia.
Qed.

Lemma annotate_status cv d oc iq m f v : status_ok (annotate cv d oc iq m f v).
Proof.
  unfold status_ok, status_of, annotate.
  cbn [field_status threshold confidence].
  split; [reflexivity | apply threshold_range].
Qed.

Lemma add_confidence_status fs d oc iq m :
  Forall (fun kv => status_ok (snd kv)) (add_confidence_to_fields fs d oc iq m).
Proof.
  apply (add_confidence_all status_ok). intros f v _. apply annotate_status.
Qed.

Lemma low_fields_below_threshold (fs : annotated_fields) :
  Forall (fun kv => status_ok (snd kv)) fs ->
  map low_field (low_confidence_fields fs)
  = map fst (filter below_threshold fs).
Proof.
  induction 1 as [|[k a] fs [Hs _] _ IH]; [reflexivity|].
  unfold low_confidence_fields in *. cbn [filter]. cbn [snd] in Hs.
  unfold below_threshold at 1. cbn [snd].
  rewrite Hs. unfold status_of.
  destruct (threshold a <=? confidence a) eqn:E1.
  - apply Z.leb_le in E1.
    replace (confidence a <? threshold a) with false
      by (symmetry; apply Z.ltb_ge; lia).
    exact IH.
  - apply Z.leb_gt in E1.
    replace (confidence a <? threshold a) with true
      by (symmetry; apply Z.ltb_lt; lia).
    destruct (threshold a - 10 <=? confidence a); cbn [map fst low_field];
      f_equal; exact IH.
Qed.

Lemma process_fields er oc iq now fs :
  fields er = Some fs ->
  fields_of (fst (process_with_confidence er oc iq now))
  = add_confidence_to_fields fs
      (match document_type er with Some d => d | None => "Unknown"%string end)
      oc iq (meta er).
Proof.
  intros Hf. unfold process_with_confidence. rewrite Hf. cbn [fst fields_of].
  unfold metadata_step; cbn [enhanced with_metadata e_fields].
  unfold penalty_step, copy_step; cbn [enhanced e_document_type].
  repeat break_if; reflexivity.
Qed.

Lemma process_metadata er oc iq now fs :
  fields er = Some fs ->
  let r := fst (process_with_confidence er oc iq now) in
  let low := low_confidence_fields (fields_of r) in
  exists rescan,
    metadata_of r
    = [ ("low_confidence_fields", MLow low);
        ("low_confidence_count", MInt (Z.of_nat (List.length low)));
        ("suggest_rescan", MBool rescan);
        ("reviewed", MBool false);
        ("processed_at", MText now) ]%string.
Proof.
  intros Hf r low. subst r low. rewrite (process_fields er oc iq now fs Hf).
  unfold process_with_confidence. rewrite Hf. cbn [fst metadata_of].
  unfold metadata_step; cbn [enhanced with_metadata e_metadata e_fields].
  eexists. repeat f_equal.
  all: unfold penalty_step, copy_step; cbn [enhanced e_document_type].
  all: repeat break_if; reflexivity.
Qed.

(** ** The table penalty and the advice to scan again *)

Lemma trunc_scaled (c : Z) (k : Q) :
  0 <= c -> (0 <= k)%Q -> (k <= 1)%Q ->
  0 <= Py.trunc (inject_Z c * k) <= c.
Proof.
  intros Hc H0 H1.
  assert (Hq : (0 <= inject_Z c)%Q)
    by (change 0%Q with (inject_Z 0); rewrite <- Zle_Qle; exact Hc).
  assert (Hlo : (0 <= inject_Z c * k)%Q) by nra.
  assert (Hhi : (inject_Z c * k <= inject_Z c)%Q) by nra.
  unfold Py.trunc.
  replace (Qle_bool 0 (inject_Z c * k)) with true
    by (symmetry; now apply Qle_bool_iff).
  split.
  - rewrite <- (Qfloor_Z 0). now apply Qfloor_resp_le.
  - rewrite <- (Qfloor_Z c) at 2. now apply Qfloor_resp_le.
Qed.

Lemma table_penalty_range (table_count overall : Z) :
  0 <= table_count -> 0 <= overall ->
  0 <= fst (table_penalty_of table_count overall) <= overall
  /\ (5 <= table_count <->
      table_penalty_of table_count overall = (overall, None)).
Proof.
  intros Hn Hc. unfold table_penalty_of.
  destruct (table_count =? 0) eqn:E0;
    [|destruct (table_count <? 3) eqn:E3;
      [|destruct (table_count <? 5) eqn:E5]]; cbn [fst].
  1-3: split; [apply trunc_scaled; [exact Hc | |]; vm_compute; discriminate|].
  1-3: split; [|discriminate].
  - apply Z.eqb_eq in E0. lia.
  - apply Z.ltb_lt in E3. lia.
  - apply Z.ltb_lt in E5. lia.
  - split; [lia|]. apply Z.ltb_ge in E5. split; [reflexivity | lia].
Qed.

(** X2. The table penalty never raises a score and never makes it negative;
    it leaves the score as it is exactly from five rows on. *)
Theorem table_penalty_bounds (table_count overall : Z) :
  0 <= table_count -> 0 <= overall ->
  0 <= fst (table_penalty_of table_count overall) <= overall
  /\ (5 <= table_count <->
      table_penalty_of table_count overall = (overall, None)).
Proof. apply table_penalty_range. Qed.

Lemma table_penalty_bounds_witness :
  0 <= fst (table_penalty_of 2 87) <= 87.
Proof.
  apply (table_penalty_bounds 2 87); lia.
Defined.

Lemma overall_nonneg (fs : annotated_fields) :
  Forall (fun kv => 0 <= confidence (snd kv)) fs ->
  0 <= calculate_overall_confidence fs.
Proof.
  intros H. unfold calculate_overall_confidence.
  destruct fs as [|e fs]; [lia|].
  assert (G : forall (l : annotated_fields) (tw w : Q),
             Forall (fun kv => 0 <= confidence (snd kv)) l ->
             (0 <= tw)%Q -> (0 <= w)%Q ->
             let '(tw', w') :=
               fold_left
                 (fun '(total_weighted, total_weight) '(field_name, field_data) =>
                    if has_value (value field_data) then
                      ((total_weighted
                        + inject_Z (confidence field_data) * weight_of field_name)%Q,
                       (total_weight + weight_of field_name)%Q)
                    else (total_weighted, total_weight))
                 l (tw, w) in
             (0 <= tw')%Q /\ (0 <= w')%Q).
  { induction l as [|[k a] l IH]; intros tw w Hl H0 H1; cbn; [auto|].
    inversion Hl as [|x y Ha Hrest]; subst. cbn in Ha.
    destruct (has_value (value a)); [|now apply IH].
    pose proof (weight_positive k).
    assert ((0 <= inject_Z (confidence a))%Q)
      by (change 0%Q with (inject_Z 0); rewrite <- Zle_Qle; exact Ha).
    apply IH; [assumption | nra | lra]. }
  specialize (G (e :: fs) 0%Q 0%Q H). unfold weighted_sums.
  destruct (fold_left _ (e :: fs) (0%Q, 0%Q)) as [tw w].
  destruct G as [H0 H1]; try lra.
  destruct (Qeq_bool w 0) eqn:E; [lia|].
  apply Qeq_bool_neq in E.
  assert (Hr : (0 <= tw / w)%Q).
  { apply Qle_shift_div_l; [|lra].
    apply Qle_lteq in H1. destruct H1 as [H1|H1]; [exact H1|].
    elim E. now symmetry. }
  change 0 with (Qfloor 0).
  destruct (round_floor_or_next (tw / w)) as [-> | [-> _]];
    [|apply Z.le_trans with (Qfloor (tw / w)); [|lia]];
    now apply Qfloor_resp_le.
Qed.

Lemma annotate_nonneg cv d oc iq m f v :
  0 <= confidence (annotate cv d oc iq m f v).
Proof. unfold annotate; cbn [confidence]. lia. Qed.

Lemma add_confidence_nonneg fs d oc iq m :
  Forall (fun kv => 0 <= confidence (snd kv))
         (add_confidence_to_fields fs d oc iq m).
Proof.
  apply (add_confidence_all (fun a => 0 <= confidence a)).
  intros f v _. apply annotate_nonneg.
Qed.

Lemma penalty_step_local er ann :
  0 <= calculate_overall_confidence ann ->
  local_confidence (penalty_step (copy_step er ann))
  <= calculate_overall_confidence ann.
Proof.
  intros H0. unfold penalty_step, copy_step.
  cbn [enhanced e_document_type local_confidence caller e_metadata].
  destruct (document_type er) as [d|]; [|cbn; lia].
  destruct (named d "Marksheet"); [|cbn; lia].
  match goal with
  | |- context [table_penalty_of ?n ?c] =>
      assert (Hn : 0 <= n) by (destruct (table er); lia);
      pose proof (proj1 (table_penalty_range n c Hn H0)) as Hb;
      destruct (table_penalty_of n c) as [o [p|]]
  end; cbn [fst] in Hb.
  - destruct (input_metadata er); cbn; lia.
  - cbn; lia.
Qed.

Lemma process_overall er oc iq now fs :
  fields er = Some fs ->
  overall_of (fst (process_with_confidence er oc iq now))
  = calculate_overall_confidence
      (fields_of (fst (process_with_confidence er oc iq now))).
Proof.
  intros Hf. unfold process_with_confidence. rewrite Hf.
  cbn [fst overall_of fields_of].
  unfold metadata_step; cbn [enhanced with_metadata e_fields overall_confidence].
  unfold penalty_step, copy_step; cbn [enhanced e_document_type].
  repeat break_if; reflexivity.
Qed.

(** X3. In the dictionary that [process_with_confidence] returns, the status
    of every field tells where its confidence lies with respect to its
    threshold (PASS from the threshold on, REVIEW up to ten points below,
    FAIL further down; a threshold is between 70 and 80), the metadata has
    exactly the five keys below, [low_confidence_fields] lists in order the
    fields whose confidence is below their threshold, and
    [low_confidence_count] is their number.  When [suggest_rescan] is false,
    fewer than three fields are listed and the reported score is at least
    70. *)
Theorem metadata_lists_fields_below_threshold er oc iq now fs :
  fields er = Some fs ->
  let r := fst (process_with_confidence er oc iq now) in
  Forall (fun kv => status_ok (snd kv)) (fields_of r)
  /\ exists low rescan,
       metadata_of r
       = [ ("low_confidence_fields", MLow low);
           ("low_confidence_count", MInt (Z.of_nat (List.length low)));
           ("suggest_rescan", MBool rescan);
           ("reviewed", MBool false);
           ("processed_at", MText now) ]%string
       /\ map low_field low = map fst (filter below_threshold (fields_of r))
       /\ (rescan = false ->
           (List.length low < 3)%nat /\ 70 <= overall_of r).
Proof.
  intros Hf r.
  assert (Hst : Forall (fun kv => status_ok (snd kv)) (fields_of r)).
  { subst r. rewrite (process_fields er oc iq now fs Hf).
    apply add_confidence_status. }
  split; [exact Hst|].
  exists (low_confidence_fields (fields_of r)).
  assert (Hov : overall_of r = calculate_overall_confidence (fields_of r))
    by (subst r; exact (process_overall er oc iq now fs Hf)).
  assert (Hfs : fields_of r
                = add_confidence_to_fields fs
                    (match document_type er with
                     | Some d => d | None => "Unknown"%string end)
                    oc iq (meta er))
    by (subst r; now apply process_fields).
  rewrite Hov. clear Hov. revert Hst Hfs. subst r.
  unfold process_with_confidence. rewrite Hf. cbn [fst fields_of metadata_of].
  set (ann := add_confidence_to_fields fs _ oc iq (meta er)).
  set (st := penalty_step (copy_step er ann)).
  assert (Hann : e_fields (enhanced st) = ann).
  { subst st. unfold penalty_step, copy_step. cbn [enhanced e_document_type].
    repeat break_if; reflexivity. }
  unfold metadata_step.
  cbn [enhanced with_metadata e_metadata e_fields].
  rewrite !Hann. intros Hst _.
  eexists. split; [reflexivity|]. split.
  - now apply low_fields_below_threshold.
  - intros Hr. apply orb_false_iff in Hr. destruct Hr as [H70 H3].
    apply Z.ltb_ge in H70. apply Z.leb_gt in H3. split; [lia|].
    assert (H0 : 0 <= calculate_overall_confidence ann)
      by (apply overall_nonneg; apply add_confidence_nonneg).
    pose proof (penalty_step_local er ann H0). fold st in H. lia.
Qed.

Lemma metadata_lists_fields_below_threshold_witness :
  Forall (fun kv => status_ok (snd kv))
    (fields_of (fst (process_with_confidence transcript_result None None
                       (str "2024-01-01T00:00:00")))).
Proof.
  exact (proj1 (metadata_lists_fields_below_threshold transcript_result None
                  None (str "2024-01-01T00:00:00") _ eq_refl)).
Defined.

(** ** The document score as a mean *)

Lemma weighted_sums_mean (lo hi : Z) (l : annotated_fields) :
  forall tw w : Q,
  Forall (fun kv => valued kv = true -> lo <= confidence (snd kv) <= hi) l ->
  (inject_Z lo * w <= tw)%Q -> (tw <= inject_Z hi * w)%Q -> (0 <= w)%Q ->
  let '(tw', w') :=
    fold_left
      (fun '(total_weighted, total_weight) '(field_name, field_data) =>
         if has_value (value field_data) then
           ((total_weighted
             + inject_Z (confidence field_data) * weight_of field_name)%Q,
            (total_weight + weight_of field_name)%Q)
         else (total_weighted, total_weight))
      l (tw, w) in
  (inject_Z lo * w' <= tw')%Q /\ (tw' <= inject_Z hi * w')%Q /\ (w <= w')%Q
  /\ (Exists (fun kv => valued kv = true) l -> (0 < w')%Q).
Proof.
  induction l as [|[k a] l IH]; intros tw w Hl H1 H2 H0; cbn.
  - repeat split; try assumption; try lra. intros H. inversion H.
  - inversion Hl as [|x y Ha Hrest]; subst. unfold valued in Ha. cbn in Ha.
    destruct (has_value (value a)) eqn:E.
    + pose proof (weight_positive k) as Hw. specialize (Ha eq_refl).
      assert (Hc1 : (inject_Z lo <= inject_Z (confidence a))%Q)
        by (rewrite <- Zle_Qle; lia).
      assert (Hc2 : (inject_Z (confidence a) <= inject_Z hi)%Q)
        by (rewrite <- Zle_Qle; lia).
      assert (A1 : (inject_Z lo * (w + weight_of k)
                    <= tw + inject_Z (confidence a) * weight_of k)%Q) by nra.
      assert (A2 : (tw + inject_Z (confidence a) * weight_of k
                    <= inject_Z hi * (w + weight_of k))%Q) by nra.
      assert (A3 : (0 <= w + weight_of k)%Q) by lra.
      specialize (IH (tw + inject_Z (confidence a) * weight_of k)%Q
                     (w + weight_of k)%Q Hrest A1 A2 A3).
      destruct (fold_left _ l _) as [tw' w'].
      destruct IH as (I1 & I2 & I3 & I4).
      repeat split; try assumption; lra.
    + specialize (IH tw w Hrest H1 H2 H0).
      destruct (fold_left _ l _) as [tw' w'].
      destruct IH as (I1 & I2 & I3 & I4).
      repeat split; try assumption.
      intros Hex. apply I4. inversion Hex as [x y Hx | x y Hx]; subst;
        [unfold valued in Hx; cbn in Hx; congruence | exact Hx].
Qed.

(** X4. The document score is a mean: it lies between the least and the
    greatest confidence of the fields that have a value.  In particular it is
    [c] when all of them have confidence [c]. *)
Theorem overall_is_a_mean (fs : annotated_fields) (lo hi : Z) :
  Forall (fun kv => valued kv = true -> lo <= confidence (snd kv) <= hi) fs ->
  Exists (fun kv => valued kv = true) fs ->
  lo <= calculate_overall_confidence fs <= hi.
Proof.
  intros Hall Hex. unfold calculate_overall_confidence.
  destruct fs as [|e fs]; [inversion Hex|].
  pose proof (weighted_sums_mean lo hi (e :: fs) 0 0 Hall) as H.
  unfold weighted_sums.
  destruct (fold_left _ (e :: fs) (0%Q, 0%Q)) as [tw w].
  destruct H as (H1 & H2 & H3 & H4); try lra.
  specialize (H4 Hex).
  destruct (Qeq_bool w 0) eqn:E; [apply Qeq_bool_iff in E; lra|].
  apply round_bounds.
  - apply Qle_shift_div_l; [exact H4 | exact H1].
  - apply Qle_shift_div_r; [exact H4 | exact H2].
Qed.

Lemma overall_is_a_mean_witness : calculate_overall_confidence two_names = 87.
Proof.
  assert (H : 87 <= calculate_overall_confidence two_names <= 87).
  { apply overall_is_a_mean;
      let v := eval vm_compute in two_names in change two_names with v.
    - repeat (apply Forall_cons;
              [vm_compute; intros Hv;
               first [discriminate Hv | split; intro Hc; discriminate Hc] |]).
      apply Forall_nil.
    - apply Exists_cons_hd. reflexivity. }
  lia.
Defined.

(** X5. A field without a value has no part in the document score: the
    score of a dictionary is the score of its fields that have a value. *)
Theorem overall_ignores_fields_without_value (fs : annotated_fields) :
  calculate_overall_confidence fs
  = calculate_overall_confidence (filter valued fs).
Proof.
  assert (G : forall (l : annotated_fields) (acc : Q * Q),
             fold_left
               (fun '(total_weighted, total_weight) '(field_name, field_data) =>
                  if has_value (value field_data) then
                    ((total_weighted
                      + inject_Z (confidence field_data) * weight_of field_name)%Q,
                     (total_weight + weight_of field_name)%Q)
                  else (total_weighted, total_weight))
               l acc
             = fold_left
               (fun '(total_weighted, total_weight) '(field_name, field_data) =>
                  if has_value (value field_data) then
                    ((total_weighted
                      + inject_Z (confidence field_data) * weight_of field_name)%Q,
                     (total_weight + weight_of field_name)%Q)
                  else (total_weighted, total_weight))
               (filter valued l) acc).
  { induction l as [|[k a] l IH]; intros [tw w]; [reflexivity|].
    cbn [filter]. unfold valued at 1. cbn [snd fold_left].
    destruct (has_value (value a)) eqn:E.
    - cbn [fold_left]. rewrite E. apply IH.
    - apply IH. }
  unfold calculate_overall_confidence, weighted_sums. rewrite G.
  destruct fs as [|e fs]; [reflexivity|].
  destruct (filter valued (e :: fs)); reflexivity.
Qed.

(** ** Better signals *)

Lemma round_monotone (q1 q2 : Q) : (q1 <= q2)%Q -> Py.round q1 <= Py.round q2.
Proof.
  intros H. pose proof (Qfloor_resp_le _ _ H) as Hf.
  destruct (Z.eq_dec (Qfloor q1) (Qfloor q2)) as [E|N].
  - unfold Py.round. rewrite E.
    destruct (Qcompare (q1 - inject_Z (Qfloor q2)) (1 # 2)) eqn:C1;
    destruct (Qcompare (q2 - inject_Z (Qfloor q2)) (1 # 2)) eqn:C2;
    try (destruct (Z.even (Qfloor q2))); try lia;
    repeat match goal with
    | C : Qcompare _ _ = Eq |- _ => apply Qeq_alt in C
    | C : Qcompare _ _ = Lt |- _ => apply Qlt_alt in C
    | C : Qcompare _ _ = Gt |- _ => apply Qgt_alt in C
    end; lra.
  - destruct (round_floor_or_next q1) as [-> | [-> _]];
    destruct (round_floor_or_next q2) as [-> | [-> _]]; lia.
Qed.

Lemma hybrid_monotone f v d t iq1 iq2 m1 m2 :
  no_better iq1 iq2 -> no_better (overall_average m1) (overall_average m2) ->
  final_confidence (calculate_hybrid_confidence f v d t iq1 m1)
  <= final_confidence (calculate_hybrid_confidence f v d t iq2 m2).
Proof.
  intros Hq Hm. unfold calculate_hybrid_confidence; cbn [final_confidence].
  apply round_monotone. unfold no_better in *.
  destruct iq1 as [q1|], iq2 as [q2|]; try contradiction;
  destruct (overall_average m1) as [a1|], (overall_average m2) as [a2|];
    try contradiction; lra.
Qed.

Lemma annotate_monotone cv d oc iq1 iq2 m1 m2 f v :
  no_better iq1 iq2 -> no_better (overall_average m1) (overall_average m2) ->
  no_lower (annotate cv d oc iq1 m1 f v) (annotate cv d oc iq2 m2 f v).
Proof.
  intros Hq Hm. split; [reflexivity|]. unfold annotate; cbn [confidence].
  match goal with
  | |- Z.max 0 (final_confidence ?h1 + ?a) <= Z.max 0 (final_confidence ?h2 + _) =>
      assert (H : final_confidence h1 <= final_confidence h2)
        by (now apply hybrid_monotone);
      set (x := final_confidence h1) in *; set (y := final_confidence h2) in *
  end.
  lia.
Qed.

Lemma set_pointwise (x y : annotated_fields) k a b :
  pointwise_no_lower x y -> no_lower a b ->
  pointwise_no_lower (Dict.set x k a) (Dict.set y k b).
Proof.
  intros H Hab. induction H as [|[k1 a1] [k2 a2] x y [Hk Ha] H IH]; cbn.
  - constructor; [now split | constructor].
  - cbn in Hk. subst k2. destruct (String.eqb k k1).
    + constructor; [now split | exact H].
    + constructor; [now split | exact IH].
Qed.

Lemma add_confidence_monotone fs d oc iq1 iq2 m1 m2 :
  no_better iq1 iq2 -> no_better (overall_average m1) (overall_average m2) ->
  pointwise_no_lower (add_confidence_to_fields fs d oc iq1 m1)
                     (add_confidence_to_fields fs d oc iq2 m2).
Proof.
  intros Hq Hm. unfold add_confidence_to_fields.
  generalize (validate_cross_fields fs d) as cv. intros cv.
  assert (G : forall (l : raw_fields) (x y : annotated_fields),
             pointwise_no_lower x y ->
             pointwise_no_lower
               (fold_left
                  (fun (a : annotated_fields) '(field_name, field_value) =>
                     Dict.set a field_name
                       (annotate cv d oc iq1 m1 field_name field_value)) l x)
               (fold_left
                  (fun (a : annotated_fields) '(field_name, field_value) =>
                     Dict.set a field_name
                       (annotate cv d oc iq2 m2 field_name field_value)) l y)).
  { induction l as [|[k v] l IH]; intros x y H; cbn; [exact H|].
    apply IH. apply set_pointwise; [exact H|]. now apply annotate_monotone. }
  apply G. constructor.
Qed.

Lemma weighted_sums_monotone (x y : annotated_fields) :
  pointwise_no_lower x y ->
  forall tw1 tw2 w : Q, (tw1 <= tw2)%Q ->
  let '(a1, w1) :=
    fold_left
      (fun '(total_weighted, total_weight) '(field_name, field_data) =>
         if has_value (value field_data) then
           ((total_weighted
             + inject_Z (confidence field_data) * weight_of field_name)%Q,
            (total_weight + weight_of field_name)%Q)
         else (total_weighted, total_weight))
      x (tw1, w) in
  let '(a2, w2) :=
    fold_left
      (fun '(total_weighted, total_weight) '(field_name, field_data) =>
         if has_value (value field_data) then
           ((total_weighted
             + inject_Z (confidence field_data) * weight_of field_name)%Q,
            (total_weight + weight_of field_name)%Q)
         else (total_weighted, total_weight))
      y (tw2, w) in
  (a1 <= a2)%Q /\ w1 = w2 /\ (w <= w1)%Q.
Proof.
  induction 1 as [|[k1 a1] [k2 a2] x y [Hk [Hv Hc]] H IH]; intros tw1 tw2 w Ht.
  - cbn. repeat split; [exact Ht | lra].
  - cbn in Hk, Hv, Hc. subst k2. cbn [fold_left]. rewrite Hv.
    destruct (has_value (value a2)); [|now apply IH].
    pose proof (weight_positive k1) as Hw.
    assert (Hi : (inject_Z (confidence a1) <= inject_Z (confidence a2))%Q)
      by (rewrite <- Zle_Qle; exact Hc).
    assert (Hs : (tw1 + inject_Z (confidence a1) * weight_of k1
                  <= tw2 + inject_Z (confidence a2) * weight_of k1)%Q) by nra.
    specialize (IH _ _ (w + weight_of k1)%Q Hs).
    destruct (fold_left _ x _) as [b1 v1].
    destruct (fold_left _ y _) as [b2 v2].
    destruct IH as (I1 & I2 & I3). repeat split; try assumption. lra.
Qed.

Lemma overall_monotone (x y : annotated_fields) :
  pointwise_no_lower x y ->
  calculate_overall_confidence x <= calculate_overall_confidence y.
Proof.
  intros H. unfold calculate_overall_confidence.
  destruct H as [|e1 e2 x y He H]; [lia|].
  pose proof (weighted_sums_monotone (e1 :: x) (e2 :: y)
                (Forall2_cons _ _ He H) 0 0 0 (Qle_refl 0)) as G.
  unfold weighted_sums.
  destruct (fold_left _ (e1 :: x) (0%Q, 0%Q)) as [a1 w1].
  destruct (fold_left _ (e2 :: y) (0%Q, 0%Q)) as [a2 w2].
  destruct G as (Ha & <- & Hw).
  destruct (Qeq_bool w1 0) eqn:E; [lia|].
  apply round_monotone. apply Qeq_bool_neq in E.
  assert (Hpos : (0 < w1)%Q).
  { apply Qle_lteq in Hw. destruct Hw as [Hw|Hw]; [exact Hw|].
    elim E. now symmetry. }
  unfold Qdiv. apply Qmult_le_compat_r; [exact Ha|].
  apply Qlt_le_weak. now apply Qinv_lt_0_compat.
Qed.

(** X6. Better signals never lower a score: with a higher image quality and
    a higher OCR average, every field keeps its value and gets a confidence
    that is no lower, and the document score is no lower either. *)
Theorem better_signals_never_lower_scores fs d oc iq1 iq2 m1 m2 :
  no_better iq1 iq2 -> no_better (overall_average m1) (overall_average m2) ->
  let before := add_confidence_to_fields fs d oc iq1 m1 in
  let after := add_confidence_to_fields fs d oc iq2 m2 in
  pointwise_no_lower before after
  /\ calculate_overall_confidence before <= calculate_overall_confidence after.
Proof.
  intros Hq Hm before after.
  assert (H : pointwise_no_lower before after)
    by now apply add_confidence_monotone.
  split; [exact H | now apply overall_monotone].
Qed.

Lemma better_signals_never_lower_scores_witness :
  calculate_overall_confidence
    (add_confidence_to_fields sample_fields "PAN" None (Some 60%Q)
       {| overall_average := Some 70%Q |})
  <= calculate_overall_confidence
       (add_confidence_to_fields sample_fields "PAN" None (Some 90%Q)
          {| overall_average := Some 95%Q |}).
Proof.
  refine (proj2 (better_signals_never_lower_scores sample_fields "PAN" None
                   (Some 60%Q) (Some 90%Q) {| overall_average := Some 70%Q |}
                   {| overall_average := Some 95%Q |} _ _));
    cbn; intro Hc; discriminate Hc.
Defined.

(** ** The fused score and its parts *)

(** X7. The fused score of a field is a weighted mean of its four parts, so
    it never leaves an interval that holds them all: when the format score,
    the business score, the image quality in use (75 when none is given) and
    the OCR confidences that are given lie between two integers, so does the
    final confidence. *)
Theorem fused_score_between_its_parts f v d t iq m (lo hi : Z) :
  lo <= calculate_pattern_confidence f v d <= hi ->
  lo <= calculate_business_rules_confidence f v <= hi ->
  within lo hi (Some (match iq with Some q => q | None => 75.0%Q end)) ->
  within lo hi (overall_average m) -> within lo hi t ->
  lo <= final_confidence (calculate_hybrid_confidence f v d t iq m) <= hi.
Proof.
  intros Hp Hb Hq Hm Ht.
  unfold calculate_hybrid_confidence; cbn [final_confidence].
  set (p := calculate_pattern_confidence f v d) in *.
  set (b := calculate_business_rules_confidence f v) in *.
  assert (Hp' : (inject_Z lo <= inject_Z p /\ inject_Z p <= inject_Z hi)%Q)
    by (rewrite <- !Zle_Qle; lia).
  assert (Hb' : (inject_Z lo <= inject_Z b /\ inject_Z b <= inject_Z hi)%Q)
    by (rewrite <- !Zle_Qle; lia).
  unfold within in *.
  apply round_bounds;
    destruct iq as [q|]; destruct (overall_average m) as [a|];
    destruct t as [t|]; lra.
Qed.

Lemma fused_score_between_its_parts_witness :
  90 <= final_confidence
          (calculate_hybrid_confidence "pan" (Some (str "ABCDE1234F")) "PAN"
             None (Some 92.5%Q) {| overall_average := Some 96.4%Q |})
     <= 100.
Proof.
  apply fused_score_between_its_parts; vm_compute;
    repeat split; discriminate.
Defined.

(** ** Surrounding white space *)

Lemma lstrip_split f (s : text) :
  exists pre, s = pre ++ Str.lstrip_by f s /\ forallb f pre = true.
Proof.
  induction s as [|c s (pre & Hs & Hp)]; [now exists []|].
  cbn. destruct (f c) eqn:E.
  - exists (c :: pre). cbn. rewrite E, Hp. split; [now f_equal | reflexivity].
  - now exists [].
Qed.

Lemma lstrip_fixed f (s : text) :
  match s with c :: _ => f c = false | [] => True end ->
  Str.lstrip_by f s = s.
Proof. destruct s as [|c s]; [reflexivity|]. cbn. now intros ->. Qed.

Lemma lstrip_head_kept f (s : text) :
  match Str.lstrip_by f s with c :: _ => f c = false | [] => True end.
Proof.
  induction s as [|c s IH]; [exact I|]. cbn.
  destruct (f c) eqn:E; [exact IH | exact E].
Qed.

Lemma strip_by_idempotent f (s : text) :
  Str.strip_by f (Str.strip_by f s) = Str.strip_by f s.
Proof.
  unfold Str.strip_by at 2. unfold Str.rstrip_by.
  pose proof (lstrip_head_kept f s) as Ha.
  set (a := Str.lstrip_by f s) in *.
  destruct (lstrip_split f (rev a)) as (pre & Hs & _).
  pose proof (lstrip_head_kept f (rev a)) as Hb.
  set (b := Str.lstrip_by f (rev a)) in *.
  assert (Hhead : match rev b with c :: _ => f c = false | [] => True end).
  { apply (f_equal (@rev ascii)) in Hs. rewrite rev_involutive, rev_app_distr in Hs.
    destruct (rev b) as [|c r]; [exact I|].
    rewrite Hs in Ha. exact Ha. }
  unfold Str.strip_by, Str.rstrip_by.
  rewrite (lstrip_fixed f (rev b) Hhead), rev_involutive.
  now rewrite (lstrip_fixed f b Hb).
Qed.

Lemma strip_idempotent (s : text) : Str.strip (Str.strip s) = Str.strip s.
Proof. apply strip_by_idempotent. Qed.

(** X8. White space around a value changes none of its scores: the format
    score, the sanity score and the fused result of a value are those of the
    stripped value. *)
Theorem surrounding_space_keeps_scores f (v : text) d t iq m :
  calculate_pattern_confidence f (Some v) d
  = calculate_pattern_confidence f (Some (Str.strip v)) d
  /\ calculate_business_rules_confidence f (Some v)
     = calculate_business_rules_confidence f (Some (Str.strip v))
  /\ calculate_hybrid_confidence f (Some v) d t iq m
     = calculate_hybrid_confidence f (Some (Str.strip v)) d t iq m.
Proof.
  assert (Hp : calculate_pattern_confidence f (Some v) d
               = calculate_pattern_confidence f (Some (Str.strip v)) d)
    by (unfold calculate_pattern_confidence; now rewrite strip_idempotent).
  assert (Hb : calculate_business_rules_confidence f (Some v)
               = calculate_business_rules_confidence f (Some (Str.strip v))).
  { unfold calculate_business_rules_confidence.
    destruct v as [|c v]; [reflexivity|].
    destruct (Str.strip (c :: v)) as [|c' v'] eqn:E; [reflexivity|].
    rewrite <- E, strip_idempotent. reflexivity. }
  repeat split; try assumption.
  unfold calculate_hybrid_confidence. now rewrite <- Hp, <- Hb.
Qed.

(** The cross-field checks read the value as it is: a space before a date
    costs 50 points. *)
Remark surrounding_space_changes_adjustment :
  dob_adjustment [("dob"%string, Some (str "15/08/1990"))] "PAN" = Some 0
  /\ dob_adjustment [("dob"%string, Some (str " 15/08/1990"))] "PAN"
     = Some (-50).
Proof. vm_compute. split; reflexivity. Qed.

(** ** The document type *)

(** The document type has no part in the score of a field: the format
    score, the cross-field findings and the annotated fields are the same
    for any two document types. *)
Remark scores_ignore_document_type fs f v d1 d2 oc iq m :
  calculate_pattern_confidence f v d1 = calculate_pattern_confidence f v d2
  /\ validate_cross_fields fs d1 = validate_cross_fields fs d2
  /\ add_confidence_to_fields fs d1 oc iq m
     = add_confidence_to_fields fs d2 oc iq m.
Proof. repeat split. Qed.

(** ** Cross-field findings *)

Lemma set_Forall_pairs {V} (P : string * V -> Prop) (d : Dict.dict V) k v :
  Forall P d -> P (k, v) -> Forall P (Dict.set d k v).
Proof.
  induction d as [|[k' v'] d IH]; intros Hd Hv; simpl.
  - constructor; [exact Hv | constructor].
  - inversion Hd; subst. destruct (String.eqb k k'); constructor; auto.
Qed.

Ltac break_test :=
  match goal with
  | |- context [if ?c then _ else _] => destruct c
  | |- context [match ?c with Some _ => _ | None => _ end] => destruct c
  | |- context [let (_, _) := ?c in _] => is_var c; destruct c
  end.

Lemma dob_finding_valid s :
  (valid (dob_finding s) = true <-> confidence_adjustment (dob_finding s) = 0)
  /\ (valid (dob_finding s) = false ->
      -50 <= confidence_adjustment (dob_finding s) <= -30).
Proof.
  unfold dob_finding, check_dob.
  repeat (break_test; cbn); repeat split; intros; try lia; congruence.
Qed.

Lemma year_finding_valid s :
  (valid (year_finding s) = true <-> confidence_adjustment (year_finding s) = 0)
  /\ (valid (year_finding s) = false ->
      -50 <= confidence_adjustment (year_finding s) <= -30).
Proof.
  unfold year_finding.
  repeat (break_test; cbn); repeat split; intros; try lia; congruence.
Qed.

Lemma cgpa_finding_valid s :
  (valid (cgpa_finding s) = true <-> confidence_adjustment (cgpa_finding s) = 0)
  /\ (valid (cgpa_finding s) = false ->
      -50 <= confidence_adjustment (cgpa_finding s) <= -30).
Proof.
  unfold cgpa_finding.
  repeat (break_test; cbn); repeat split; intros; try lia; congruence.
Qed.

(** X9. Whatever the fields, every finding of the cross-field validation
    is attached to [dob], [year], [cgpa], [father_name] or [gender]; it is
    valid exactly when its adjustment is 0, and the adjustment of an invalid
    finding is between -50 and -30. *)
Theorem cross_findings_are_penalties fs d :
  Forall finding_ok (validate_cross_fields fs d).
Proof.
  unfold validate_cross_fields.
  repeat match goal with
  | |- Forall _ (if ?c then _ else _) => destruct c
  | |- Forall _ (Dict.set _ _ _) => apply set_Forall_pairs
  | |- Forall _ [] => constructor
  end.
  all: split; [cbn; tauto|]; cbn [snd].
  all: first [apply dob_finding_valid | apply year_finding_valid
             | apply cgpa_finding_valid
             | cbn; repeat split; intros; try lia; congruence].
Qed.

(** ** What a call leaves in the caller's dictionary *)

(** X10. The returned dictionary is a shallow copy, so the [table_penalty]
    entry of a Marksheet with fewer than five rows is written into the
    [metadata] dictionary of the caller, when the caller's dictionary has
    one: after the call the caller's metadata holds the entry (with the
    score before and after the penalty), while the metadata of the returned
    dictionary does not.  In every other case the call leaves the caller's
    dictionary as it was. *)
Theorem penalty_is_written_to_the_caller er oc iq now :
  let r := process_with_confidence er oc iq now in
  Dict.get (metadata_of (fst r)) "table_penalty" = None
  /\ match input_metadata er with
     | Some m =>
         if short_marksheet er then
           exists p,
             snd r
             = with_input_metadata er
                 (Some (Dict.set m "table_penalty" (MPenalty p)))
             /\ applied p = true
             /\ original_confidence p = overall_of (fst r)
             /\ penalized_confidence p
                = fst (table_penalty_of (rows_of er) (overall_of (fst r)))
             /\ penalty_table_count p = rows_of er
         else snd r = er
     | None => snd r = er
     end.
Proof.
  cbv zeta. unfold process_with_confidence, short_marksheet, rows_of.
  destruct er as [da fa ta ma ia]. cbn [fields document_type table meta input_metadata].
  destruct fa as [fs|]; [|cbn; split; [reflexivity | now destruct ia]].
  cbn [fst snd].
  set (ann := add_confidence_to_fields fs _ oc iq ma).
  unfold metadata_step, penalty_step, copy_step.
  cbn [enhanced e_document_type local_confidence caller e_metadata
       document_type table input_metadata meta fields with_metadata
       metadata_of overall_of overall_confidence].
  split; [reflexivity|].
  destruct da as [d|]; [|now destruct ia].
  destruct (named d "Marksheet"); [|now destruct ia].
  cbn [andb].
  set (n := match ta with Some rows => Z.of_nat (List.length rows) | None => 0 end).
  assert (Hn : 0 <= n) by (subst n; destruct ta; lia).
  unfold table_penalty_of.
  destruct (n =? 0) eqn:E0;
    [|destruct (n <? 3) eqn:E3; [|destruct (n <? 5) eqn:E5]].
  - replace (n <? 5) with true by (apply Z.eqb_eq in E0; symmetry; apply Z.ltb_lt; lia).
    destruct ia as [m|]; [|reflexivity].
    cbn. eexists. split; [reflexivity|]. cbn. repeat split.
  - replace (n <? 5) with true by (apply Z.ltb_lt in E3; symmetry; apply Z.ltb_lt; lia).
    destruct ia as [m|]; [|reflexivity].
    cbn. eexists. split; [reflexivity|]. cbn. repeat split.
  - destruct ia as [m|]; [|reflexivity].
    cbn. eexists. split; [reflexivity|]. cbn. repeat split.
  - now destruct ia.
Qed.

Example penalty_in_the_callers_metadata :
  let r := process_with_confidence marksheet_with_metadata None (Some 100%Q)
             (str "2024-01-01T00:00:00") in
  option_map Dict.keys (input_metadata (snd r))
  = Some ["source"; "table_penalty"]%string
  /\ Dict.keys (metadata_of (fst r))
     = ["low_confidence_fields"; "low_confidence_count"; "suggest_rescan";
        "reviewed"; "processed_at"]%string.
Proof. vm_compute. split; reflexivity. Qed.

(** ** What a classification looks like *)

Lemma trunc_bounds (a b : Z) (q : Q) :
  0 <= a -> (inject_Z a <= q)%Q -> (q <= inject_Z b)%Q ->
  a <= Py.trunc q <= b.
Proof.
  intros H0 Ha Hb. unfold Py.trunc.
  assert (Hq : (0 <= q)%Q).
  { apply Qle_trans with (inject_Z a); [|exact Ha].
    change 0%Q with (inject_Z 0). now rewrite <- Zle_Qle. }
  replace (Qle_bool 0 q) with true by (symmetry; now apply Qle_bool_iff).
  split.
  - rewrite <- (Qfloor_Z a). now apply Qfloor_resp_le.
  - rewrite <- (Qfloor_Z b). now apply Qfloor_resp_le.
Qed.

Lemma points_by_five c n : (5 | n) -> (5 | Classifier.points c n).
Proof.
  intros H. unfold Classifier.points. destruct c; [exact H|]. exists 0. lia.
Qed.

Ltac by_five :=
  repeat first [apply Z.divide_sub_r | apply Z.divide_add_r];
  apply points_by_five;
  match goal with
  | |- (5 | ?n) => exists (n / 5); reflexivity
  end.

Lemma scores_by_five (txt : text) :
  (5 | Classifier.pan_score txt) /\ (5 | Classifier.aadhaar_score txt)
  /\ (5 | Classifier.voter_score txt) /\ (5 | Classifier.dl_score txt)
  /\ (5 | Classifier.marksheet_score txt).
Proof.
  unfold Classifier.pan_score, Classifier.aadhaar_score,
    Classifier.voter_score, Classifier.dl_score, Classifier.marksheet_score.
  repeat split; by_five.
Qed.

Lemma max_by_five z : (5 | z) -> (5 | Z.max 0 z).
Proof.
  intros H. destruct (Z.max_spec 0 z) as [[_ ->] | [_ ->]];
    [exact H | exists 0; lia].
Qed.

Lemma confidence_of_range (s : Z) :
  1 <= s -> (5 | s) -> 1 <= Py.trunc (Classifier.confidence_of s) <= 95.
Proof.
  intros H [k Hk]. unfold Classifier.confidence_of.
  assert (Hs : forall k : Z, (inject_Z k <= inject_Z s)%Q <-> k <= s)
    by (intros j; now rewrite <- Zle_Qle).
  destruct (100 <=? s) eqn:E100.
  - apply Z.leb_le in E100. apply (proj2 (Hs 100)) in E100.
    change (inject_Z 100) with 100%Q in E100.
    unfold Classifier.Qmin.
    destruct (Qle_bool 95 (70 + (inject_Z s - 70) * 0.5)) eqn:E.
    + vm_compute. split; intro Hc; discriminate Hc.
    + assert (Hlt : ~ (95 <= 70 + (inject_Z s - 70) * 0.5)%Q)
        by (intros Hc; apply Qle_bool_iff in Hc; congruence).
      apply (trunc_bounds 1 95); [lia | |];
        [change (inject_Z 1) with 1%Q | change (inject_Z 95) with 95%Q]; lra.
  - apply Z.leb_gt in E100.
    destruct (70 <=? s) eqn:E70.
    + apply Z.leb_le in E70. rewrite trunc_inject. lia.
    + apply Z.leb_gt in E70.
      destruct (50 <=? s) eqn:E50.
      * apply Z.leb_le in E50.
        assert (H1 : (inject_Z 50 <= inject_Z s)%Q) by (now apply Hs).
        assert (H2 : (inject_Z s <= inject_Z 70)%Q) by (rewrite <- Zle_Qle; lia).
        change (inject_Z 50) with 50%Q in H1.
        change (inject_Z 70) with 70%Q in H2.
        apply (trunc_bounds 1 95); [lia | |];
          [change (inject_Z 1) with 1%Q | change (inject_Z 95) with 95%Q]; lra.
      * rewrite trunc_inject. apply Z.leb_gt in E50. lia.
Qed.

Lemma v2_well_formed (t : text) :
  let c := Classifier.classify_document_type_v2 t in
  In (Classifier.document_type c) known_labels
  /\ 0 <= Classifier.confidence c <= 95
  /\ (Classifier.confidence c = 0
      <-> Classifier.document_type c = "Unknown"%string)
  /\ Forall (fun kv => 0 <= snd kv /\ (5 | snd kv)) (Classifier.scores c).
Proof.
  cbv zeta. unfold Classifier.classify_document_type_v2.
  destruct (Classifier.blank t).
  { cbn. repeat split; try lia; try tauto; try constructor. }
  cbv zeta. unfold Classifier.scores_of, Classifier.max_value,
    Classifier.best_of, Dict.values.
  cbn [map Classifier.argmax snd fst fold_left].
  destruct (scores_by_five (Str.upper t)) as (Dp & Da & Dv & Dd & Dm).
  apply max_by_five in Dp, Da, Dv, Dd, Dm.
  set (p := Z.max 0 (Classifier.pan_score (Str.upper t))) in *.
  set (a := Z.max 0 (Classifier.aadhaar_score (Str.upper t))) in *.
  set (v := Z.max 0 (Classifier.voter_score (Str.upper t))) in *.
  set (d := Z.max 0 (Classifier.dl_score (Str.upper t))) in *.
  set (m := Z.max 0 (Classifier.marksheet_score (Str.upper t))) in *.
  assert (0 <= p /\ 0 <= a /\ 0 <= v /\ 0 <= d /\ 0 <= m)
    as (Hp & Ha & Hv & Hd & Hm) by (subst p a v d m; lia).
  clearbody p a v d m.
  assert (Hsc : Forall (fun kv : string * Z => 0 <= snd kv /\ (5 | snd kv))
                  [("PAN"%string, p); ("Aadhaar"%string, a);
                   ("Voter ID"%string, v); ("Driving Licence"%string, d);
                   ("Marksheet"%string, m)])
    by (repeat constructor; assumption).
  destruct (_ =? 0) eqn:E0.
  { cbn. repeat split; try lia; try tauto; try exact Hsc. }
  apply Z.eqb_neq in E0.
  repeat match goal with
  | |- context [if ?x <? ?y then _ else _] =>
      is_var x; is_var y;
      let E := fresh "E" in destruct (x <? y) eqn:E; cbn [snd] in *;
      [apply Z.ltb_lt in E | apply Z.ltb_ge in E]
  end;
  cbn [Classifier.document_type Classifier.confidence Classifier.scores];
  (split; [cbn; tauto|]);
  match goal with
  | |- context [Classifier.confidence_of ?s] =>
      assert (H1 : 1 <= s) by lia;
      assert (H5 : (5 | s)) by assumption;
      pose proof (confidence_of_range s H1 H5)
  end;
  repeat split; try lia; try exact Hsc; try discriminate.
Qed.

Lemma labels_known (t : text) :
  In (Classifier.classify_document_type t) known_labels
  /\ In (Classifier.classify_document_smart t) known_labels.
Proof.
  destruct (v2_well_formed t) as (H1 & _).
  assert (Hv1 : In (Classifier.classify_document_type t) known_labels).
  { unfold Classifier.classify_document_type.
    repeat match goal with
    | |- context [if ?c then _ else _] => destruct c
    end; cbn; tauto. }
  split; [exact Hv1|].
  unfold Classifier.classify_document_smart.
  repeat match goal with
  | |- context [if ?c then _ else _] => destruct c
  end; assumption.
Qed.

(** X11. A classification is well formed: the label is one of the five
    document types or Unknown, for each of the three classifiers; the
    confidence of the scoring classifier is between 0 and 95, and it is 0
    exactly when the label is Unknown; every score is a multiple of 5 that
    is not negative. *)
Theorem classification_is_well_formed (t : text) :
  let c := Classifier.classify_document_type_v2 t in
  In (Classifier.document_type c) known_labels
  /\ 0 <= Classifier.confidence c <= 95
  /\ (Classifier.confidence c = 0
      <-> Classifier.document_type c = "Unknown"%string)
  /\ Forall (fun kv => 0 <= snd kv /\ (5 | snd kv)) (Classifier.scores c)
  /\ In (Classifier.classify_document_type t) known_labels
  /\ In (Classifier.classify_document_smart t) known_labels.
Proof.
  cbv zeta. destruct (v2_well_formed t) as (H1 & H2 & H3 & H4).
  destruct (labels_known t) as (H5 & H6).
  repeat split; try assumption; try apply H3; try apply H2.
Qed.

(** ** Letter case *)

Lemma isspace_upper c : Char.isspace (Char.upper c) = Char.isspace c.
Proof. by_cases_on c. Qed.

Lemma upper_lower c : Char.upper (Char.lower c) = Char.upper c.
Proof. by_cases_on c. Qed.

Lemma upper_upper c : Char.upper (Char.upper c) = Char.upper c.
Proof. by_cases_on c. Qed.

Lemma lstrip_upper (s : text) :
  Str.lstrip_by Char.isspace (Str.upper s)
  = Str.upper (Str.lstrip_by Char.isspace s).
Proof.
  induction s as [|c s IH]; [reflexivity|].
  change (Str.upper (c :: s)) with (Char.upper c :: Str.upper s).
  cbn [Str.lstrip_by]. rewrite isspace_upper.
  destruct (Char.isspace c); [exact IH | reflexivity].
Qed.

Lemma strip_upper (s : text) : Str.strip (Str.upper s) = Str.upper (Str.strip s).
Proof.
  unfold Str.strip, Str.strip_by, Str.rstrip_by.
  rewrite lstrip_upper. unfold Str.upper at 1. rewrite <- map_rev.
  fold (Str.upper (rev (Str.lstrip_by Char.isspace s))).
  rewrite lstrip_upper. unfold Str.upper. now rewrite map_rev.
Qed.

Lemma blank_upper_same (t : text) :
  Classifier.blank (Str.upper t) = Classifier.blank t.
Proof.
  unfold Classifier.blank. rewrite strip_upper.
  now destruct (Str.strip t).
Qed.

Lemma upper_idempotent (t : text) : Str.upper (Str.upper t) = Str.upper t.
Proof.
  unfold Str.upper. rewrite map_map. apply map_ext. apply upper_upper.
Qed.

Lemma upper_of_lower (t : text) : Str.upper (Str.lower t) = Str.upper t.
Proof.
  unfold Str.upper, Str.lower. rewrite map_map. apply map_ext.
  apply upper_lower.
Qed.

(** X12. The classifiers do not look at the case of letters: two texts that
    are equal once put in upper case, such as a text and its lower-case
    form, get the same result from each of the three classifiers. *)
Theorem classification_ignores_case (t1 t2 : text) :
  Str.upper t1 = Str.upper t2 ->
  Classifier.classify_document_type_v2 t1
  = Classifier.classify_document_type_v2 t2
  /\ Classifier.classify_document_type t1
     = Classifier.classify_document_type t2
  /\ Classifier.classify_document_smart t1
     = Classifier.classify_document_smart t2.
Proof.
  intros H.
  assert (Hb : Classifier.blank t1 = Classifier.blank t2)
    by (rewrite <- (blank_upper_same t1), <- (blank_upper_same t2); now rewrite H).
  assert (H2 : Classifier.classify_document_type_v2 t1
               = Classifier.classify_document_type_v2 t2)
    by (unfold Classifier.classify_document_type_v2; now rewrite Hb, H).
  assert (H1 : Classifier.classify_document_type t1
               = Classifier.classify_document_type t2)
    by (unfold Classifier.classify_document_type; now rewrite Hb, H).
  repeat split; try assumption.
  unfold Classifier.classify_document_smart. now rewrite H1, H2.
Qed.

Lemma classification_ignores_case_witness :
  Classifier.classify_document_smart (str "income tax department abcde1234f")
  = Classifier.classify_document_smart (str "INCOME TAX Department ABCDE1234F").
Proof.
  exact (proj2 (proj2 (classification_ignores_case
                         (str "income tax department abcde1234f")
                         (str "INCOME TAX Department ABCDE1234F") eq_refl))).
Defined.

(** ** [normalize_fields] *)

Lemma get_set {V} (d : Dict.dict V) k v k' :
  Dict.get (Dict.set d k v) k'
  = if String.eqb k' k then Some v else Dict.get d k'.
Proof.
  induction d as [|[k0 v0] d IH]; cbn.
  - reflexivity.
  - destruct (String.eqb k k0) eqn:E; cbn.
    + apply String.eqb_eq in E. subst k0.
      now destruct (String.eqb k' k).
    + rewrite IH. destruct (String.eqb k' k0) eqn:E0; [|reflexivity].
      apply String.eqb_eq in E0. subst k0.
      destruct (String.eqb k' k) eqn:E1; [|reflexivity].
      apply String.eqb_eq in E1. subst k'. rewrite String.eqb_refl in E.
      discriminate E.
Qed.

Lemma mem_In k (ks : list string) : Dict.mem k ks = true <-> In k ks.
Proof.
  unfold Dict.mem. rewrite existsb_exists. split.
  - intros (x & Hx & E). apply String.eqb_eq in E. now subst.
  - intros H. exists k. split; [exact H | apply String.eqb_refl].
Qed.

Lemma get_None {V} (d : Dict.dict V) k :
  Dict.get d k = None <-> ~ In k (Dict.keys d).
Proof.
  induction d as [|[k0 v0] d IH]; cbn; [tauto|].
  destruct (String.eqb k k0) eqn:E.
  - apply String.eqb_eq in E. subst. split; [discriminate | intros H; elim H; now left].
  - rewrite IH. apply String.eqb_neq in E. split.
    + intros H [H1 | H1]; [now elim E | now elim H].
    + intros H H1. apply H. now right.
Qed.

Lemma first_loop (g : string -> Models.field_data) (names : list string) :
  forall acc : Dict.dict Models.field_data,
  NoDup (Dict.keys acc ++ names) ->
  fold_left (fun normalized field_name => Dict.set normalized field_name (g field_name))
    names acc
  = acc ++ map (fun k => (k, g k)) names.
Proof.
  induction names as [|k names IH]; intros acc H; cbn.
  - now rewrite app_nil_r.
  - assert (Hk : ~ In k (Dict.keys acc)).
    { intros Hin. apply NoDup_remove_2 in H. apply H.
      apply in_or_app. now left. }
    rewrite (set_fresh acc k (g k) Hk), IH.
    + now rewrite <- app_assoc.
    + unfold Dict.keys in *. rewrite map_app. cbn. rewrite <- app_assoc.
      exact H.
Qed.

Lemma has_In {V} (d : Dict.dict V) k :
  Dict.has d k = true <-> In k (Dict.keys d).
Proof.
  unfold Dict.has. pose proof (get_None d k) as H.
  destruct (Dict.get d k); split; intros H1; try reflexivity; try discriminate.
  - destruct (in_dec string_dec k (Dict.keys d)) as [Hin|Hout]; [exact Hin|].
    apply H in Hout. discriminate Hout.
  - exfalso. now apply (proj1 H).
Qed.

Lemma second_loop (l : Dict.dict Models.field_data) :
  forall acc : Dict.dict Models.field_data,
  NoDup (Dict.keys l) ->
  fold_left
    (fun normalized '(field_name, field_value) =>
       if Dict.has normalized field_name then normalized
       else Dict.set normalized field_name (Models.structured field_value))
    l acc
  = acc ++ map restructured (filter (outside (Dict.keys acc)) l).
Proof.
  induction l as [|[k x] l IH]; intros acc Hl; cbn [fold_left filter map].
  - now rewrite app_nil_r.
  - inversion Hl as [|k0 ks Hk Hrest]; subst.
    unfold outside at 1. cbn [fst].
    destruct (Dict.has acc k) eqn:E.
    + apply has_In in E. apply mem_In in E. rewrite E. cbn [negb].
      now apply IH.
    + assert (Hout : ~ In k (Dict.keys acc))
        by (intros Hin; apply has_In in Hin; congruence).
      replace (Dict.mem k (Dict.keys acc)) with false
        by (symmetry; apply not_true_is_false; intros Hm;
            apply mem_In in Hm; contradiction).
      cbn [negb map]. rewrite (set_fresh acc k _ Hout), (IH _ Hrest).
      rewrite <- app_assoc. cbn [app]. f_equal. f_equal. f_equal.
      apply filter_ext_in. intros [k1 x1] Hin. unfold outside. cbn [fst].
      f_equal. unfold Dict.keys. rewrite map_app. cbn [map fst].
      unfold Dict.mem. rewrite existsb_app. cbn [existsb].
      rewrite orb_false_r.
      destruct (String.eqb k1 k) eqn:E1; [|now rewrite orb_false_r].
      apply String.eqb_eq in E1. subst k1. elim Hk.
      change k with (fst (k, x1)). apply in_map. exact Hin.
Qed.

Lemma normalize_fields_as (fs : Dict.dict Models.field_data) (d : string) :
  Models.schema d <> [] -> NoDup (Models.schema d) -> NoDup (Dict.keys fs) ->
  Models.normalize_fields fs d = normalized_as (Models.schema d) fs.
Proof.
  intros Hne Hs Hfs. unfold Models.normalize_fields, normalized_as.
  destruct (Models.schema d) as [|n names] eqn:E; [now elim Hne|].
  pose proof (first_loop (expected_entry fs) (n :: names) [] Hs) as H1.
  unfold expected_entry in *. rewrite H1.
  cbn [app]. rewrite (second_loop fs _ Hfs). do 3 f_equal.
  unfold Dict.keys. rewrite map_map. cbn [fst]. now rewrite map_id.
Qed.

Lemma schema_NoDup (d : string) : NoDup (Models.schema d).
Proof.
  unfold Models.schema, Models.DOCUMENT_FIELD_SCHEMA. cbn [Dict.get].
  repeat match goal with
  | |- context [if ?c then _ else _] => destruct c
  end;
  repeat (constructor; [cbn; intuition discriminate|]); constructor.
Qed.

Lemma get_app {V} (a b : Dict.dict V) k :
  Dict.get (a ++ b) k
  = match Dict.get a k with Some v => Some v | None => Dict.get b k end.
Proof.
  induction a as [|[k0 v0] a IH]; cbn; [reflexivity|].
  now destruct (String.eqb k k0).
Qed.

Lemma get_expected (g : string -> Models.field_data) names k :
  Dict.get (map (fun k => (k, g k)) names) k
  = if Dict.mem k names then Some (g k) else None.
Proof.
  induction names as [|n names IH]; cbn; [reflexivity|].
  destruct (String.eqb k n) eqn:E; cbn.
  - apply String.eqb_eq in E. now subst.
  - exact IH.
Qed.

Lemma get_restructured names (fs : Dict.dict Models.field_data) k :
  Dict.get (map restructured (filter (outside names) fs)) k
  = if Dict.mem k names then None
    else option_map Models.structured (Dict.get fs k).
Proof.
  induction fs as [|[k0 x] fs IH]; cbn [filter map Dict.get].
  - now destruct (Dict.mem k names).
  - unfold outside at 1. cbn [fst].
    destruct (Dict.mem k0 names) eqn:E0; cbn [negb].
    + rewrite IH. destruct (String.eqb k k0) eqn:E; [|reflexivity].
      apply String.eqb_eq in E. subst k0. now rewrite E0.
    + cbn [map restructured fst snd Dict.get].
      destruct (String.eqb k k0) eqn:E.
      * apply String.eqb_eq in E. subst k0. now rewrite E0.
      * exact IH.
Qed.

Lemma get_normalized_as names (fs : Dict.dict Models.field_data) k :
  Dict.get (normalized_as names fs) k
  = match Dict.get fs k with
    | Some x => Some (Models.structured x)
    | None => if Dict.mem k names then Some (Models.Placeholder None) else None
    end.
Proof.
  unfold normalized_as. rewrite get_app, get_expected, get_restructured.
  unfold expected_entry.
  destruct (Dict.mem k names); now destruct (Dict.get fs k).
Qed.

Lemma keys_normalized_as names (fs : Dict.dict Models.field_data) :
  Dict.keys (normalized_as names fs)
  = names
    ++ filter (fun k => negb (Dict.mem k names)) (Dict.keys fs).
Proof.
  unfold normalized_as, Dict.keys. rewrite map_app, !map_map. cbn [fst].
  rewrite map_id. f_equal.
  induction fs as [|[k x] fs IH]; [reflexivity|].
  cbn [filter map fst]. unfold outside at 1. cbn [fst].
  destruct (negb (Dict.mem k names)); cbn [map fst]; now rewrite IH.
Qed.

Lemma structured_idempotent x :
  Models.structured (Models.structured x) = Models.structured x.
Proof. now destruct x. Qed.

Lemma expected_entry_structured fs k :
  Models.structured (expected_entry fs k) = expected_entry fs k.
Proof.
  unfold expected_entry. destruct (Dict.get fs k); [|reflexivity].
  apply structured_idempotent.
Qed.

Lemma normalized_as_idempotent names (fs : Dict.dict Models.field_data) :
  normalized_as names (normalized_as names fs) = normalized_as names fs.
Proof.
  assert (E1 : map (fun k => (k, expected_entry (normalized_as names fs) k))
                 names
               = map (fun k => (k, expected_entry fs k)) names).
  { apply map_ext_in. intros k Hk. f_equal. unfold expected_entry at 1.
    rewrite get_normalized_as.
    replace (Dict.mem k names) with true by (symmetry; now apply mem_In).
    unfold expected_entry.
    destruct (Dict.get fs k); [apply structured_idempotent | reflexivity]. }
  assert (E2 : map restructured
                 (filter (outside names) (normalized_as names fs))
               = map restructured (filter (outside names) fs)).
  { unfold normalized_as. rewrite filter_app.
    assert (G1 : forall l, incl l names ->
               filter (outside names)
                 (map (fun k => (k, expected_entry fs k)) l) = []).
    { induction l as [|k l IH]; intros Hl; [reflexivity|].
      cbn [map filter]. unfold outside at 1. cbn [fst].
      replace (Dict.mem k names) with true
        by (symmetry; apply mem_In; apply Hl; now left).
      cbn [negb]. apply IH. intros x Hx. apply Hl. now right. }
    rewrite (G1 names (incl_refl names)). cbn [app]. clear E1 G1.
    induction fs as [|[k x] l IH]; [reflexivity|].
    cbn [filter].
    change (outside names (k, x)) with (negb (Dict.mem k names)).
    destruct (negb (Dict.mem k names)) eqn:E; [|exact IH].
    cbn [map filter].
    change (outside names (restructured (k, x)))
      with (negb (Dict.mem k names)).
    rewrite E. cbn [map]. rewrite IH. f_equal.
    unfold restructured. cbn [fst snd]. now rewrite structured_idempotent. }
  unfold normalized_as at 1. rewrite E1, E2. reflexivity.
Qed.

(** X13. [normalize_fields] loses nothing and fills what is missing.  For a
    document type with a schema, the result has the keys of the schema
    first, in the order of the schema, and then the other keys of the fields
    in their order; a field that was given keeps its value (a bare value is
    wrapped with confidence 0, a dictionary is kept as it is), and a field
    of the schema that was not given is the placeholder with no value and
    confidence 0.  Normalising a second time changes nothing.  For a type
    without a schema the fields are returned as they are. *)
Theorem normalize_fields_complete
    (fs : Dict.dict Models.field_data) (d : string) :
  NoDup (Dict.keys fs) ->
  (Models.schema d = [] -> Models.normalize_fields fs d = fs)
  /\ (Models.schema d <> [] ->
      Dict.keys (Models.normalize_fields fs d)
      = Models.schema d
        ++ filter (fun k => negb (Dict.mem k (Models.schema d))) (Dict.keys fs)
      /\ (forall k,
            Dict.get (Models.normalize_fields fs d) k
            = match Dict.get fs k with
              | Some x => Some (Models.structured x)
              | None =>
                  if Dict.mem k (Models.schema d)
                  then Some (Models.Placeholder None) else None
              end)
      /\ Models.normalize_fields (Models.normalize_fields fs d) d
         = Models.normalize_fields fs d).
Proof.
  intros Hfs. split.
  - intros E. unfold Models.normalize_fields. now rewrite E.
  - intros Hne. pose proof (schema_NoDup d) as Hs.
    rewrite (normalize_fields_as fs d Hne Hs Hfs).
    split; [apply keys_normalized_as|].
    split; [intros k; apply get_normalized_as|].
    rewrite (normalize_fields_as _ d Hne Hs).
    + apply normalized_as_idempotent.
    + rewrite keys_normalized_as. apply NoDup_app; [exact Hs | |].
      * apply NoDup_filter. exact Hfs.
      * intros k Hk Hin. apply filter_In in Hin. destruct Hin as [_ Hout].
        apply mem_In in Hk. rewrite Hk in Hout. discriminate Hout.
Qed.

Lemma normalize_fields_complete_witness :
  Dict.keys (Models.normalize_fields partial_pan "PAN")
  = ["pan"; "name"; "father_name"; "dob"; "note"]%string.
Proof.
  assert (H : NoDup (Dict.keys partial_pan))
    by (repeat (constructor; [cbn; intuition discriminate|]); constructor).
  destruct (normalize_fields_complete partial_pan "PAN" H) as [_ H2].
  assert (Hne : Models.schema "PAN" <> []) by discriminate.
  exact (proj1 (H2 Hne)).
Defined.

(** ** The document processor *)

Section DocumentFacts.
Import Document.

Lemma fields_for_schema (d : string) (t : text) :
  In d known_labels -> Dict.keys (fields_for d t) = Models.schema d.
Proof.
  intros H. cbn in H.
  repeat (destruct H as [<- | H]; [cbn [fields_for named String.eqb Ascii.eqb Bool.eqb]|]);
    try contradiction.
  - apply pan_keys.
  - apply aadhaar_keys.
  - apply voter_keys.
  - apply dl_keys.
  - apply marksheet_keys.
  - reflexivity.
Qed.

Lemma fill_confidence_range (fs : raw_fields) :
  (0 <= fill_confidence fs /\ fill_confidence fs <= 100)%Q.
Proof.
  unfold fill_confidence, filled_fields, Dict.values.
  destruct (0 <? Z.of_nat (List.length fs)) eqn:E; [|split; discriminate].
  apply Z.ltb_lt in E.
  assert (Hle : (List.length (filter Py.truthy (map snd fs)) <= List.length fs)%nat).
  { rewrite <- (length_map snd fs). apply filter_length_le. }
  set (n := Z.of_nat (List.length (filter Py.truthy (map snd fs)))).
  set (m := Z.of_nat (List.length fs)) in *.
  assert (Hn : 0 <= n <= m) by (subst n m; lia).
  assert (H0 : (0 <= inject_Z n)%Q)
    by (change 0%Q with (inject_Z 0); rewrite <- Zle_Qle; lia).
  assert (H1 : (inject_Z n <= inject_Z m)%Q) by (rewrite <- Zle_Qle; lia).
  assert (Hm : (0 < inject_Z m)%Q)
    by (change 0%Q with (inject_Z 0); rewrite <- Zlt_Qlt; lia).
  assert (Hd : (0 <= inject_Z n / inject_Z m /\ inject_Z n / inject_Z m <= 1)%Q).
  { split; [apply Qle_shift_div_l | apply Qle_shift_div_r]; try assumption; lra. }
  lra.
Qed.

(** X14. Whatever the text, the result of [process_document] names one of
    the five document types or Unknown, its fields have exactly the keys of
    the schema of that type (none for Unknown), its table is empty, and its
    fill ratio is between 0 and 100. *)
Theorem document_follows_its_schema
    (filename full_text : text) (ocr : meta_info) (quality : quality_info) :
  let r := process_document filename full_text ocr quality in
  exists d fs c,
    Dict.get r "document_type" = Some (VType (Some d))
    /\ In d known_labels
    /\ Dict.get r "fields" = Some (VFields fs)
    /\ Dict.keys fs = Models.schema d
    /\ Dict.get r "table" = Some (VTable [])
    /\ Dict.get r "confidence" = Some (VNumber c)
    /\ (0 <= c /\ c <= 100)%Q
    /\ (d = "Unknown"%string -> fs = [] /\ c = 0%Q).
Proof.
  cbv zeta. unfold process_document.
  set (d := Classifier.classify_document_smart full_text).
  assert (Hd : In d known_labels)
    by (apply (labels_known full_text)).
  exists d, (fields_for d full_text), (fill_confidence (fields_for d full_text)).
  repeat split; try reflexivity; try assumption.
  - now apply fields_for_schema.
  - apply fill_confidence_range.
  - apply fill_confidence_range.
  - now rewrite H.
  - now rewrite H.
Qed.

End DocumentFacts.

Section LightPipelineFacts.
Import Document.


(** X15. [run_light_api] looks for the OCR confidences and for the image
    quality at the top of the result, while [process_document] stores them
    under [meta]: so the scores are always computed without per-field OCR
    confidences and with the default image quality of 75, and the measured
    image quality has no effect on the fields, the scores or the metadata
    that [run_light_api] gets back from [process_with_confidence]. *)
Theorem light_pipeline_uses_default_signals
    (filename full_text : text) (ocr : meta_info) (quality : quality_info)
    (now : text) :
  let r := process_document filename full_text ocr quality in
  Dict.get r "field_ocr_confidences" = None
  /\ Dict.get r "image_quality" = None
  /\ light_ocr_confidences r = []
  /\ light_image_quality r = 75.0%Q
  /\ run_light_api filename full_text ocr quality now
     = fst (process_with_confidence (light_argument full_text ocr)
              (Some []) (Some 75.0%Q) now)
  /\ forall quality',
       run_light_api filename full_text ocr quality' now
       = run_light_api filename full_text ocr quality now.
Proof. cbv zeta. repeat split. Qed.




End LightPipelineFacts.

(** ** Uploads and verified fields *)

Section RouteFacts.
Import Routes.

Lemma after_last_none c (s : text) :
  Str.mem_char s c = false -> after_last c s = None.
Proof.
  induction s as [|x s IH]; [reflexivity|].
  unfold Str.mem_char. cbn [existsb]. intros H.
  apply orb_false_iff in H. destruct H as [Hx Hs].
  cbn [after_last]. rewrite (IH Hs).
  rewrite Ascii.eqb_sym. now rewrite Hx.
Qed.

Lemma after_last_app c (base ext : text) :
  Str.mem_char ext c = false -> after_last c (base ++ c :: ext) = Some ext.
Proof.
  intros H. induction base as [|x base IH]; cbn [app after_last].
  - rewrite (after_last_none c ext H). now rewrite Ascii.eqb_refl.
  - now rewrite IH.
Qed.

Lemma mem_char_app (a b : text) c :
  Str.mem_char (a ++ b) c = Str.mem_char a c || Str.mem_char b c.
Proof. unfold Str.mem_char. apply existsb_app. Qed.

(** X17. A file name is allowed exactly by what follows its last dot, read
    without regard to case: a name [base.ext] whose [ext] holds no dot is
    allowed when [ext] in lower case is pdf, png, jpg or jpeg, and a name
    without a dot is never allowed. *)
Theorem allowed_file_by_extension (base ext : text) :
  Str.mem_char ext "." = false ->
  allowed_file (base ++ "."%char :: ext)
  = Confidence.one_of (Str.lower ext) ALLOWED_EXTENSIONS
  /\ (Str.mem_char base "." = false -> allowed_file base = false).
Proof.
  intros H. unfold allowed_file. split.
  - rewrite (after_last_app "." base ext H), mem_char_app.
    unfold Str.mem_char at 2. cbn [existsb Ascii.eqb Bool.eqb].
    now rewrite orb_true_r.
  - now intros ->.
Qed.

Lemma allowed_file_by_extension_witness :
  allowed_file (str "report.final.PDF") = true.
Proof.
  exact (proj1 (allowed_file_by_extension (str "report.final") (str "PDF")
                  eq_refl)).
Defined.





End RouteFacts.

(** ** The text to the right of a label *)

Section BoxFacts.
Import Extract.

Lemma get_right_text_candidates (b : box) (boxes : list box) :
  get_right_text b boxes
  = match candidates b boxes with
    | [] => None
    | first :: rest =>
        match snd (leftmost rest first) with
        | [] => None
        | val => Some (Str.strip (sub false edge_punctuation [] val))
        end
    end.
Proof.
  unfold get_right_text, candidates.
  destruct (box_rect b) as [[[x1 y1] x2] y2] eqn:Eb.
  replace (flat_map _ boxes) with
    (flat_map
       (fun other =>
          match box_text other with
          | Some s => if to_the_right b other then [(abscissa other, s)] else []
          | None => []
          end) boxes); [reflexivity|].
  apply flat_map_ext. intros o. unfold to_the_right, abscissa, ordinate.
  rewrite Eb. destruct (box_text o); [|reflexivity].
  now destruct (box_rect o) as [[[ox1 oy1] ox2] oy2].
Qed.

Lemma candidates_In (b : box) (boxes : list box) x s :
  In (x, s) (candidates b boxes) <->
  exists o, In o boxes /\ to_the_right b o = true
            /\ box_text o = Some s /\ abscissa o = x.
Proof.
  unfold candidates. rewrite in_flat_map. split.
  - intros (o & Ho & Hin). exists o.
    destruct (box_text o) as [s'|] eqn:Et; [|contradiction].
    destruct (to_the_right b o) eqn:Er; [|contradiction].
    destruct Hin as [Hin|[]]. injection Hin as <- <-. now repeat split.
  - intros (o & Ho & Hr & Ht & Hx). exists o. split; [exact Ho|].
    rewrite Ht, Hr, Hx. now left.
Qed.

Lemma leftmost_spec (l : list (Z * text)) : forall best,
  In (leftmost l best) (best :: l)
  /\ forall e, In e (best :: l) -> fst (leftmost l best) <= fst e.
Proof.
  induction l as [|[x s] l IH]; intros best; cbn [leftmost].
  - split; [now left|]. intros e [<-|[]]. lia.
  - destruct (x <? fst best) eqn:E.
    + apply Z.ltb_lt in E. destruct (IH (x, s)) as [Hin Hmin]. split.
      * destruct Hin as [Hin|Hin]; [right; left; exact Hin | right; right; exact Hin].
      * intros e [<-|[<-|He]].
        -- specialize (Hmin (x, s) (or_introl eq_refl)). cbn in Hmin. lia.
        -- apply Hmin. now left.
        -- apply Hmin. now right.
    + apply Z.ltb_ge in E. destruct (IH best) as [Hin Hmin]. split.
      * destruct Hin as [Hin|Hin]; [left; exact Hin | right; right; exact Hin].
      * intros e [<-|[<-|He]].
        -- apply Hmin. now left.
        -- specialize (Hmin best (or_introl eq_refl)). cbn. lia.
        -- apply Hmin. now right.
Qed.

(** X19. The text that [get_right_text] returns for a label comes from a box
    that has a text, lies strictly to the right of the label (so it is never
    the label itself) and less than 40 away from it in height; among the
    boxes of that kind it is one with the least abscissa; and what is
    returned is that text without the punctuation and the white space at
    its two ends. *)
Theorem right_text_is_the_nearest (b : box) (boxes : list box) (v : text) :
  get_right_text b boxes = Some v ->
  exists o s,
    In o boxes /\ box_text o = Some s
    /\ abscissa b < abscissa o
    /\ Z.abs (ordinate o - ordinate b) < 40
    /\ (forall o', In o' boxes -> to_the_right b o' = true ->
                   abscissa o <= abscissa o')
    /\ v = Str.strip (sub false edge_punctuation [] s).
Proof.
  rewrite get_right_text_candidates.
  destruct (candidates b boxes) as [|first rest] eqn:E; [discriminate|].
  destruct (leftmost_spec rest first) as [Hin Hmin].
  destruct (leftmost rest first) as [x s]. cbn [snd fst] in *.
  rewrite <- E in Hin, Hmin.
  apply candidates_In in Hin. destruct Hin as (o & Ho & Hr & Ht & Hx).
  intros Hv. exists o, s.
  assert (Hgeo : abscissa b < abscissa o
                 /\ Z.abs (ordinate o - ordinate b) < 40).
  { unfold to_the_right in Hr. rewrite Ht in Hr.
    apply andb_true_iff in Hr. destruct Hr as [H1 H2].
    apply Z.ltb_lt in H1, H2. now split. }
  destruct Hgeo as [G1 G2]. repeat split; try assumption.
  - intros o' Ho' Hr'. rewrite Hx.
    destruct (box_text o') as [s'|] eqn:Et';
      [|unfold to_the_right in Hr'; rewrite Et' in Hr'; discriminate].
    apply (Hmin (abscissa o', s')). apply candidates_In.
    exists o'. now repeat split.
  - destruct s as [|c s]; [discriminate|]. now injection Hv as <-.
Qed.

Lemma right_text_is_the_nearest_witness :
  exists o s,
    In o [label_box; far_box; value_box] /\ box_text o = Some s
    /\ str "Ravi Kumar" = Str.strip (sub false edge_punctuation [] s).
Proof.
  destruct (right_text_is_the_nearest label_box
              [label_box; far_box; value_box] (str "Ravi Kumar") eq_refl)
    as (o & s & H1 & H2 & _ & _ & _ & H6).
  exists o, s. now repeat split.
Defined.

End BoxFacts.

(** ** What a pattern captures *)

Lemma last_of_cons p c pre : last_of p (c :: pre) = last_of (Some c) pre.
Proof.
  unfold last_of. cbn [rev].
  destruct (rev pre) as [|d r] eqn:E; reflexivity.
Qed.

Section Captures.

Variable ci : bool.
Variable A : Type.

(** [k{n}] takes exactly [n] characters of the class. *)
Lemma rep_exactly (k : cclass) (n : nat) :
  forall (p : option ascii) (s : text)
         (kont : option ascii -> text -> option A) (a : A),
  rep ci k n (Some n) p s kont = Some a ->
  exists pre rest,
    s = pre ++ rest /\ List.length pre = n
    /\ forallb (cmatch ci k) pre = true
    /\ kont (last_of p pre) rest = Some a.
Proof.
  induction n as [|n IH]; intros p s kont a H.
  - exists [], s. repeat split. destruct s; exact H.
  - destruct s as [|c s]; [discriminate H|].
    cbn [rep pred option_map] in H.
    destruct (cmatch ci k c) eqn:Ec; [|discriminate H].
    destruct (rep ci k n (Some n) (Some c) s kont) as [a'|] eqn:Er;
      [|discriminate H].
    injection H as <-.
    destruct (IH _ _ _ _ Er) as (pre & rest & Hs & Hl & Hc & Hk).
    exists (c :: pre), rest. cbn [app List.length forallb].
    rewrite Ec, Hc, last_of_cons. subst s. now repeat split; try lia.
Qed.

End Captures.

Lemma search_from_match_at ci r (s : text) : forall p pos m,
  search_from ci r p s pos = Some m ->
  exists p' s' pos', match_at ci r p' s' pos' = Some m.
Proof.
  induction s as [|c s IH]; intros p pos m H; cbn [search_from] in H.
  - destruct (match_at ci r p [] pos) eqn:E; [|discriminate H].
    injection H as <-. now exists p, [], pos.
  - destruct (match_at ci r p (c :: s) pos) eqn:E.
    + injection H as <-. now exists p, (c :: s), pos.
    + now apply IH in H.
Qed.

Lemma cmatch_cls f c : cmatch false (cls f) c = f c.
Proof. unfold cmatch, cls. cbn. now rewrite orb_false_r. Qed.

Lemma forallb_cls f (s : text) :
  forallb (cmatch false (cls f)) s = forallb f s.
Proof.
  induction s as [|c s IH]; [reflexivity|].
  cbn [forallb]. now rewrite cmatch_cls, IH.
Qed.

Lemma firstn_prefix {X} (pre rest : list X) :
  firstn (List.length (pre ++ rest) - List.length rest) (pre ++ rest) = pre.
Proof.
  rewrite length_app.
  replace (List.length pre + List.length rest - List.length rest)%nat
    with (List.length pre + 0)%nat by lia.
  rewrite firstn_app_2. cbn. apply app_nil_r.
Qed.

Lemma pan_match_captures p s pos m :
  match_at false Extract.PanRx.pan p s pos = Some m ->
  exists g, grp 1 m = Some g /\ pan_shaped g.
Proof.
  unfold match_at, Extract.PanRx.pan, exactly.
  cbn [seqs rmatch].
  destruct (xorb (word_before p) (word_after s)); [|discriminate].
  intros H.
  apply rep_exactly in H. destruct H as (a & r1 & Hs & La & Ca & H).
  apply rep_exactly in H. destruct H as (b & r2 & Hr1 & Lb & Cb & H).
  destruct r2 as [|c r3]; [discriminate H|].
  destruct (cmatch false (cls Extract.upper_AZ) c) eqn:Cc; [|discriminate H].
  destruct (xorb _ _); [|discriminate H].
  injection H as <-. unfold grp. cbn [m_groups group Nat.eqb].
  eexists. split; [reflexivity|].
  exists a, b, c. rewrite forallb_cls in Ca, Cb. rewrite cmatch_cls in Cc.
  subst s r1. repeat split; try assumption.
  replace (a ++ b ++ c :: r3) with ((a ++ b ++ [c]) ++ r3)
    by (now rewrite <- !app_assoc).
  apply firstn_prefix.
Qed.

Lemma capital_facts c :
  rng "A" "Z" c = true ->
  Char.isspace c = false
  /\ cmatch false (cls Confidence.upper_AZ) c = true.
Proof. by_cases_on c. Qed.

Lemma figure_facts c :
  rng "0" "9" c = true -> cmatch false (cls Confidence.digit_09) c = true.
Proof. by_cases_on c. Qed.

Lemma strip_fixed (s : text) :
  match s with c :: _ => Char.isspace c = false | [] => True end ->
  match rev s with c :: _ => Char.isspace c = false | [] => True end ->
  Str.strip s = s.
Proof.
  intros H1 H2. unfold Str.strip, Str.strip_by, Str.rstrip_by.
  rewrite (lstrip_fixed Char.isspace s H1).
  rewrite (lstrip_fixed Char.isspace (rev s) H2). apply rev_involutive.
Qed.

Lemma pan_shaped_scores (g : text) (doc : string) :
  pan_shaped g ->
  fullmatch false Confidence.Rx.pan_strict g = true
  /\ calculate_pattern_confidence "pan" (Some g) doc = 98.
Proof.
  intros (a & b & c & -> & La & Ca & Lb & Cb & Cc).
  destruct a as [|a1 [|a2 [|a3 [|a4 [|a5 [|]]]]]]; try discriminate La.
  destruct b as [|b1 [|b2 [|b3 [|b4 [|]]]]]; try discriminate Lb.
  cbn [forallb] in Ca, Cb.
  repeat match goal with
  | H : _ && _ = true |- _ => apply andb_true_iff in H; destruct H
  end.
  repeat match goal with
  | H : rng "A" "Z" ?x = true |- _ =>
      let S := fresh "S" in let M := fresh "M" in
      destruct (capital_facts x H) as [S M]; clear H
  | H : rng "0" "9" ?x = true |- _ =>
      let M := fresh "M" in
      pose proof (figure_facts x H) as M; clear H
  end.
  assert (Hfull : fullmatch false Confidence.Rx.pan_strict
                    ([a1; a2; a3; a4; a5] ++ [b1; b2; b3; b4] ++ [c]) = true).
  { unfold fullmatch, Confidence.Rx.pan_strict, exactly.
    cbn [app seqs rmatch rep pred option_map].
    repeat match goal with
    | H : cmatch false _ _ = true |- _ => rewrite H; clear H
    end.
    reflexivity. }
  split; [exact Hfull|].
  unfold calculate_pattern_confidence.
  rewrite strip_fixed; [| cbn; assumption | cbn; assumption].
  cbn [app]. cbn [app] in Hfull.
  unfold pattern_score. cbn [named String.eqb Ascii.eqb Bool.eqb].
  rewrite Hfull. reflexivity.
Qed.

(** A match is completed by the continuation. *)
Section Continuation.

Variable ci : bool.
Variable A : Type.

Lemma rep_kont (k : cclass) (s : text) :
  forall lo hi p (kont : option ascii -> text -> option A) a,
  rep ci k lo hi p s kont = Some a ->
  exists p' s', kont p' s' = Some a.
Proof.
  induction s as [|c s IH]; intros lo hi p kont a H.
  - exists p, []. destruct lo, hi as [[|]|]; cbn in H; congruence.
  - cbn [rep] in H.
    assert (Hstop : match lo with O => kont p (c :: s) | S _ => None end = Some a
                    -> exists p' s', kont p' s' = Some a).
    { destruct lo; [|discriminate]. intros E. now exists p, (c :: s). }
    destruct hi as [[|h]|]; [now apply Hstop | |];
      (destruct (cmatch ci k c); [|now apply Hstop];
       match type of H with
       | match ?x with Some _ => _ | None => _ end = _ =>
           destruct x as [a'|] eqn:Er; [|now apply Hstop]
       end;
       injection H as <-; now apply IH in Er).
Qed.

Lemma rmatch_kont (r : regex) :
  forall p s g (kont : option ascii -> text -> captures -> option A) a,
  rmatch ci r p s g kont = Some a ->
  exists p' s' g', kont p' s' g' = Some a.
Proof.
  induction r as [|k|k lo hi|r1 IH1|r1 IH1 r2 IH2|r1 IH1 r2 IH2|i r1 IH1| | |];
    intros p s g kont a H; cbn [rmatch] in H.
  - now exists p, s, g.
  - destruct s as [|c s]; [discriminate H|].
    destruct (cmatch ci k c); [|discriminate H]. now exists (Some c), s, g.
  - apply rep_kont in H. destruct H as (p' & s' & H). now exists p', s', g.
  - destruct (rmatch ci r1 p s g kont) as [a'|] eqn:E.
    + injection H as <-. now apply IH1 in E.
    + now exists p, s, g.
  - apply IH1 in H. destruct H as (p' & s' & g' & H). now apply IH2 in H.
  - destruct (rmatch ci r1 p s g kont) as [a'|] eqn:E.
    + injection H as <-. now apply IH1 in E.
    + now apply IH2 in H.
  - apply IH1 in H. destruct H as (p' & s' & g' & H). do 3 eexists. exact H.
  - destruct p; [discriminate H|]. now exists None, s, g.
  - destruct s as [|c [|d s]].
    + now exists p, [], g.
    + destruct (Ascii.eqb c Char.newline); [|discriminate H]. now exists p, [c], g.
    + discriminate H.
  - destruct (xorb _ _); [|discriminate H]. now exists p, s, g.
Qed.

End Continuation.

(** ** What the PAN extractor returns *)

Lemma figure_is_digit c :
  cmatch false (cls Extract.digit_09) c = Char.isdigit c.
Proof. by_cases_on c. Qed.

Lemma figures_are_digits (s : text) :
  forallb (cmatch false (cls Extract.digit_09)) s = true -> digits s.
Proof.
  unfold digits. induction s as [|c s IH]; [reflexivity|].
  cbn [forallb]. rewrite figure_is_digit. intros H.
  apply andb_true_iff in H. destruct H as [-> H]. now apply IH.
Qed.

Lemma separator_is_separator c :
  cmatch false (cls (oneof "/-")) c = is_separator c.
Proof. by_cases_on c. Qed.

Lemma pan_date_captures {A} p s g
    (kont : option ascii -> text -> captures -> option A) a :
  rmatch false Extract.PanRx.date p s g kont = Some a ->
  exists v rest p',
    s = v ++ rest /\ date_shaped v /\ kont p' rest g = Some a.
Proof.
  unfold Extract.PanRx.date, exactly, chr. cbn [seqs rmatch]. intros H.
  apply rep_exactly in H. destruct H as (D & r1 & -> & LD & CD & H).
  destruct r1 as [|s1 r1]; [discriminate H|].
  destruct (cmatch false (cls (oneof "/-")) s1) eqn:C1; [|discriminate H].
  apply rep_exactly in H. destruct H as (M & r2 & -> & LM & CM & H).
  destruct r2 as [|s2 r2]; [discriminate H|].
  destruct (cmatch false (cls (oneof "/-")) s2) eqn:C2; [|discriminate H].
  apply rep_exactly in H. destruct H as (Y & r3 & -> & LY & CY & H).
  rewrite separator_is_separator in C1, C2.
  exists (D ++ s1 :: M ++ s2 :: Y), r3. eexists. split; [|split; [|exact H]].
  - rewrite <- !app_assoc. cbn [app]. rewrite <- !app_assoc. reflexivity.
  - exists D, s1, M, s2, Y.
    repeat split; try assumption; now apply figures_are_digits.
Qed.

Lemma rmatch_seq {A} ci r1 r2 p s g
    (kont : option ascii -> text -> captures -> option A) :
  rmatch ci (Seq r1 r2) p s g kont
  = rmatch ci r1 p s g (fun p' s' g' => rmatch ci r2 p' s' g' kont).
Proof. reflexivity. Qed.

Lemma rmatch_grp {A} ci i r p s g
    (kont : option ascii -> text -> captures -> option A) :
  rmatch ci (Grp i r) p s g kont
  = rmatch ci r p s g
      (fun p' s' g' =>
         kont p' s' ((i, firstn (List.length s - List.length s') s) :: g')).
Proof. reflexivity. Qed.

Lemma rmatch_wordb {A} ci p s g
    (kont : option ascii -> text -> captures -> option A) :
  rmatch ci Wordb p s g kont
  = if xorb (word_before p) (word_after s) then kont p s g else None.
Proof. reflexivity. Qed.

Lemma pan_labelled_captures p s pos m :
  match_at false Extract.PanRx.dob_labelled p s pos = Some m ->
  exists v, grp 2 m = Some v /\ date_shaped v.
Proof.
  unfold match_at, Extract.PanRx.dob_labelled. cbn [seqs]. intros H.
  rewrite rmatch_seq in H.
  apply rmatch_kont in H. destruct H as (p1 & s1 & g1 & H).
  rewrite rmatch_seq in H.
  apply rmatch_kont in H. destruct H as (p2 & s2 & g2 & H).
  rewrite rmatch_grp in H.
  apply pan_date_captures in H. destruct H as (v & rest & p3 & -> & Hv & H).
  injection H as <-. unfold grp. cbn [m_groups group Nat.eqb].
  exists v. split; [|exact Hv]. f_equal. apply firstn_prefix.
Qed.

Lemma pan_plain_captures p s pos m :
  match_at false Extract.PanRx.dob_plain p s pos = Some m ->
  date_shaped (m_text m).
Proof.
  unfold match_at, Extract.PanRx.dob_plain. cbn [seqs]. intros H.
  rewrite rmatch_seq, rmatch_wordb in H.
  destruct (xorb _ _); [|discriminate H].
  rewrite rmatch_seq in H.
  apply pan_date_captures in H. destruct H as (v & rest & p3 & -> & Hv & H).
  rewrite rmatch_wordb in H.
  destruct (xorb _ _); [|discriminate H].
  injection H as <-. cbn [m_text]. now rewrite firstn_prefix.
Qed.

Lemma pan_names_other (k : string) (lines : list text) : forall fs,
  String.eqb k "name" = false -> String.eqb k "father_name" = false ->
  Dict.get (Extract.pan_names lines fs) k = Dict.get fs k.
Proof.
  induction lines as [|l ls IH]; intros fs H1 H2; [reflexivity|].
  cbn [Extract.pan_names]. cbv zeta. rewrite (IH _ H1 H2).
  repeat match goal with
  | |- context [if ?c then Dict.set _ _ _ else _] => destruct c
  end; rewrite ?get_set, ?H1, ?H2; reflexivity.
Qed.

Lemma date_shaped_finding (v : text) :
  date_shaped v ->
  fullmatch false Rx.date v = true
  /\ In (confidence_adjustment (dob_finding v)) [0; -30; -40].
Proof.
  intros (D & s1 & M & s2 & Y & -> & HD & LD & HM & LM & HY & LY & H1 & H2).
  assert (LD' : (1 <= List.length D <= 2)%nat) by lia.
  assert (LM' : (1 <= List.length M <= 2)%nat) by lia.
  split.
  - apply (date_shape_matches D M Y s1 s2); assumption.
  - rewrite (dob_finding_shape D M Y s1 s2 HD LD' HM LM' HY LY H1 H2).
    unfold verdict_with_bound.
    destruct (_ || _); [cbn; tauto|].
    destruct (negb _); cbn; tauto.
Qed.

Lemma pan_field (t : text) (rawdata : bool) :
  Extract.get (Extract.fields (Extract.extract_pan_fields t rawdata)) "pan"
  = match search false Extract.PanRx.pan (Str.upper t) with
    | Some m => grp 1 m
    | None => None
    end.
Proof.
  unfold Extract.extract_pan_fields, Extract.with_rawdata, Extract.get,
    get_value.
  cbn [Extract.fields]. rewrite pan_names_other by reflexivity.
  repeat match goal with
  | |- context [match ?c with Some _ => Dict.set _ _ _ | None => _ end] =>
      destruct c
  end; rewrite ?get_set; reflexivity.
Qed.

Lemma pan_dob_field (t : text) (rawdata : bool) :
  Extract.get (Extract.fields (Extract.extract_pan_fields t rawdata)) "dob"
  = match search false Extract.PanRx.dob_labelled (Str.upper t) with
    | Some m => grp 2 m
    | None =>
        match search false Extract.PanRx.dob_plain t with
        | Some m => Some (m_text m)
        | None => None
        end
    end.
Proof.
  unfold Extract.extract_pan_fields, Extract.with_rawdata, Extract.get,
    get_value.
  cbn [Extract.fields]. rewrite pan_names_other by reflexivity.
  repeat match goal with
  | |- context [match ?c with Some _ => Dict.set _ _ _ | None => _ end] =>
      destruct c
  end; rewrite ?get_set; reflexivity.
Qed.

(** X20. A PAN number that the PAN extractor returns is made of five
    capitals, four digits and a capital, whatever the text: it meets the
    strict format of the confidence calculator, and its format score is
    98. *)
Theorem extracted_pan_number_is_well_formed
    (t : text) (rawdata : bool) (v : text) (doc : string) :
  Extract.get (Extract.fields (Extract.extract_pan_fields t rawdata)) "pan"
  = Some v ->
  pan_shaped v
  /\ fullmatch false Rx.pan_strict v = true
  /\ calculate_pattern_confidence "pan" (Some v) doc = 98.
Proof.
  rewrite pan_field.
  destruct (search false Extract.PanRx.pan (Str.upper t)) as [m|] eqn:E;
    [|discriminate].
  intros Hv. unfold search in E.
  apply search_from_match_at in E. destruct E as (p & s & pos & E).
  apply pan_match_captures in E. destruct E as (g & Hg & Hshape).
  assert (g = v) by congruence. subst g.
  split; [exact Hshape | now apply pan_shaped_scores].
Qed.

Lemma extracted_pan_number_is_well_formed_witness :
  calculate_pattern_confidence "pan" (Some (str "ABCDE1234F")) "PAN" = 98.
Proof.
  exact (proj2 (proj2
    (extracted_pan_number_is_well_formed (str "Name abcde1234f") false
       (str "ABCDE1234F") "PAN" eq_refl))).
Defined.

(** X21. A date of birth that the PAN extractor returns has the shape
    dd/dd/dddd, with [/] or [-] between the parts, whatever the text: so the
    cross-field validation never finds its format invalid, and its
    adjustment is 0, -30 or -40, never -50. *)
Theorem extracted_dob_passes_the_format_check
    (t : text) (rawdata : bool) (v : text) :
  Extract.get (Extract.fields (Extract.extract_pan_fields t rawdata)) "dob"
  = Some v ->
  date_shaped v
  /\ fullmatch false Rx.date v = true
  /\ In (confidence_adjustment (dob_finding v)) [0; -30; -40]
  /\ forall doc,
       dob_adjustment (Extract.fields (Extract.extract_pan_fields t rawdata)) doc
       = Some (confidence_adjustment (dob_finding v)).
Proof.
  intros Hget.
  assert (Hshape : date_shaped v).
  { rewrite pan_dob_field in Hget.
    destruct (search false Extract.PanRx.dob_labelled (Str.upper t))
      as [m|] eqn:E1.
    - unfold search in E1. apply search_from_match_at in E1.
      destruct E1 as (p & s & pos & E1).
      apply pan_labelled_captures in E1. destruct E1 as (g & Hg & Hs).
      assert (g = v) by congruence. now subst g.
    - destruct (search false Extract.PanRx.dob_plain t) as [m|] eqn:E2;
        [|discriminate Hget].
      injection Hget as <-. unfold search in E2.
      apply search_from_match_at in E2. destruct E2 as (p & s & pos & E2).
      now apply pan_plain_captures in E2. }
  destruct (date_shaped_finding v Hshape) as [Hfull Hadj].
  repeat split; try assumption.
  intros doc. unfold dob_adjustment. rewrite get_dob_finding.
  unfold Extract.get in Hget. rewrite Hget.
  destruct Hshape as (D & s1 & M & s2 & Y & -> & _ & LD & _).
  destruct D as [|d D]; [discriminate LD|]. reflexivity.
Qed.

Lemma extracted_dob_passes_the_format_check_witness :
  In (confidence_adjustment (dob_finding (str "41-02-1990"))) [0; -30; -40].
Proof.
  exact (proj1 (proj2 (proj2
    (extracted_dob_passes_the_format_check (str "Born 41-02-1990") false
       (str "41-02-1990") eq_refl)))).
Defined.

(** ** What the Aadhaar extractor returns *)

Lemma rmatch_rep {A} ci k lo hi p s g
    (kont : option ascii -> text -> captures -> option A) :
  rmatch ci (Rep k lo hi) p s g kont
  = rep ci k lo hi p s (fun p' s' => kont p' s' g).
Proof. reflexivity. Qed.

Lemma rmatch_cls {A} ci k p s g
    (kont : option ascii -> text -> captures -> option A) :
  rmatch ci (Cls k) p s g kont
  = match s with
    | c :: s' => if cmatch ci k c then kont (Some c) s' g else None
    | [] => None
    end.
Proof. reflexivity. Qed.

Lemma digit_is_digit c : cmatch false cd c = Char.isdigit c.
Proof. by_cases_on c. Qed.

Lemma cd_digits (s : text) : forallb (cmatch false cd) s = true -> digits s.
Proof.
  unfold digits. induction s as [|c s IH]; [reflexivity|].
  cbn [forallb]. rewrite digit_is_digit. intros H.
  apply andb_true_iff in H. destruct H as [-> H]. now apply IH.
Qed.

Lemma digits_app (a b : text) : digits a -> digits b -> digits (a ++ b).
Proof. unfold digits. intros Ha Hb. now rewrite forallb_app, Ha, Hb. Qed.

Lemma aadhaar_number_captures p s pos m :
  match_at false Extract.AadhaarRx.number p s pos = Some m ->
  exists a b c,
    grp 1 m = Some a /\ grp 2 m = Some b /\ grp 3 m = Some c
    /\ digits (a ++ b ++ c) /\ List.length (a ++ b ++ c) = 12%nat.
Proof.
  unfold match_at, Extract.AadhaarRx.number, exactly, star. cbn [seqs].
  intros H.
  rewrite rmatch_seq, rmatch_wordb in H.
  destruct (xorb _ _); [|discriminate H].
  rewrite rmatch_seq, rmatch_grp, rmatch_rep in H.
  apply rep_exactly in H. destruct H as (a & r1 & -> & La & Ca & H).
  rewrite rmatch_seq, rmatch_rep in H.
  apply rep_kont in H. destruct H as (p2 & s2 & H).
  rewrite rmatch_seq, rmatch_grp, rmatch_rep in H.
  apply rep_exactly in H. destruct H as (b & r2 & -> & Lb & Cb & H).
  rewrite rmatch_seq, rmatch_rep in H.
  apply rep_kont in H. destruct H as (p3 & s3 & H).
  rewrite rmatch_seq, rmatch_grp, rmatch_rep in H.
  apply rep_exactly in H. destruct H as (c & r3 & -> & Lc & Cc & H).
  rewrite rmatch_wordb in H.
  destruct (xorb _ _); [|discriminate H].
  injection H as <-. unfold grp. cbn [m_groups group Nat.eqb].
  exists a, b, c. rewrite !firstn_prefix.
  repeat split.
  - repeat apply digits_app; now apply cd_digits.
  - rewrite !length_app. lia.
Qed.

Lemma first_of_some {X Y} (f : X -> option Y) (l : list X) y :
  Extract.first_of f l = Some y -> exists x, In x l /\ f x = Some y.
Proof.
  induction l as [|x l IH]; cbn; [discriminate|].
  destruct (f x) as [y'|] eqn:E.
  - intros [= <-]. exists x. split; [now left | exact E].
  - intros H. destruct (IH H) as (x' & Hin & Hx). exists x'.
    split; [now right | exact Hx].
Qed.

Lemma aadhaar_names_other (k : string) (lines : list text) : forall fs,
  String.eqb k "name" = false -> String.eqb k "father_name" = false ->
  Dict.get (Extract.aadhaar_names lines fs) k = Dict.get fs k.
Proof.
  induction lines as [|l ls IH]; intros fs H1 H2; [reflexivity|].
  cbn [Extract.aadhaar_names].
  destruct (search true Extract.AadhaarRx.name_and_father l).
  - unfold Extract.aadhaar_same_line. cbv zeta.
    repeat match goal with
    | |- context [if ?c then Dict.set _ _ _ else _] => destruct c
    end; rewrite ?get_set, ?H1, ?H2; reflexivity.
  - destruct ls as [|next ls']; [now apply IH|].
    unfold Extract.aadhaar_two_lines. cbv zeta.
    destruct (match_ false _ _); [|now apply IH].
    destruct (found true _ _); [|now apply IH].
    destruct (search true _ next); rewrite ?get_set, ?H1, ?H2; reflexivity.
Qed.

Lemma get_assign (fs : raw_fields) k o k' :
  Dict.get (Extract.assign fs k o) k'
  = match o with
    | Some v => if String.eqb k' k then Some v else Dict.get fs k'
    | None => Dict.get fs k'
    end.
Proof. unfold Extract.assign. destruct o; [apply get_set | reflexivity]. Qed.

Lemma rep_exactly_matches {A} ci (k : cclass) (n : nat) :
  forall (p : option ascii) (pre rest : text)
         (kont : option ascii -> text -> option A),
  List.length pre = n -> forallb (cmatch ci k) pre = true ->
  rep ci k n (Some n) p (pre ++ rest) kont = kont (last_of p pre) rest.
Proof.
  induction n as [|n IH]; intros p pre rest kont Hl Hc.
  - destruct pre; [|discriminate Hl]. cbn [app]. now destruct rest.
  - destruct pre as [|c pre]; [discriminate Hl|].
    cbn [forallb] in Hc. apply andb_true_iff in Hc. destruct Hc as [Hc Hpre].
    cbn [app rep pred option_map]. rewrite Hc.
    rewrite IH; [|now injection Hl | exact Hpre].
    rewrite last_of_cons. now destruct (kont (last_of (Some c) pre) rest).
Qed.

Lemma digits_cd (s : text) : digits s -> forallb (cmatch false cd) s = true.
Proof.
  unfold digits. induction s as [|c s IH]; [reflexivity|].
  cbn [forallb]. rewrite digit_is_digit. intros H.
  apply andb_true_iff in H. destruct H as [-> H]. now apply IH.
Qed.

Lemma digits_fullmatch (n : nat) (v : text) :
  digits v -> List.length v = n -> fullmatch false (exactly n cd) v = true.
Proof.
  intros Hd Hl. unfold fullmatch, exactly. rewrite rmatch_rep.
  rewrite <- (app_nil_r v).
  now rewrite (rep_exactly_matches false cd n None v [] _ Hl (digits_cd v Hd)).
Qed.

Lemma digits_no_space (v : text) : digits v -> Str.remove_char " " v = v.
Proof.
  unfold digits, Str.remove_char. induction v as [|c v IH]; [reflexivity|].
  cbn [forallb filter]. intros H. apply andb_true_iff in H.
  destruct H as [Hc Hv]. rewrite (IH Hv).
  replace (negb (Ascii.eqb c " ")) with true; [reflexivity|].
  revert Hc. clear. by_cases_on c.
Qed.

Lemma aadhaar_number_field (t : text) :
  Extract.get (Extract.extract_aadhaar_fields t) "aadhaar_number"
  = match
      Extract.first_of
        (fun line =>
           option_map
             (fun m =>
                Some (Confidence.text_of (grp 1 m)
                      ++ Confidence.text_of (grp 2 m)
                      ++ Confidence.text_of (grp 3 m)))
             (search false Extract.AadhaarRx.number line))
        (Str.stripped_lines t)
    with
    | Some v => v
    | None => None
    end.
Proof.
  unfold Extract.extract_aadhaar_fields, Extract.get, get_value.
  destruct (Str.stripped_lines t) as [|l ls] eqn:E; [reflexivity|].
  cbv beta iota zeta.
  set (names := Extract.aadhaar_names _ _).
  assert (Hn : forall a : list text,
             Dict.get
               match a with
               | [] => names
               | _ :: _ =>
                   Dict.set names "address" (Some (Str.join (str ", ") a))
               end "aadhaar_number"
             = Dict.get names "aadhaar_number")
    by (intros [|x a]; [reflexivity | now rewrite get_set]).
  rewrite Hn. clear Hn. subst names.
  rewrite aadhaar_names_other by reflexivity.
  rewrite !get_assign.
  repeat match goal with
  | |- context [match ?o with Some _ => _ | None => _ end] =>
      lazymatch o with
      | Extract.first_of _ _ => destruct o
      end
  end; reflexivity.
Qed.

(** X22. An Aadhaar number that the Aadhaar extractor returns is made of
    twelve digits, whatever the text (the blanks between its three groups
    are left out): it meets the strict format of the confidence calculator,
    and its format score is 98. *)
Theorem extracted_aadhaar_number_is_well_formed
    (t : text) (v : text) (doc : string) :
  Extract.get (Extract.extract_aadhaar_fields t) "aadhaar_number" = Some v ->
  digits v /\ List.length v = 12%nat
  /\ calculate_pattern_confidence "aadhaar_number" (Some v) doc = 98.
Proof.
  rewrite aadhaar_number_field.
  destruct (Extract.first_of _ _) as [o|] eqn:E; [|discriminate].
  intros ->. apply first_of_some in E. destruct E as (line & _ & E).
  destruct (search false Extract.AadhaarRx.number line) as [m|] eqn:Es;
    [|discriminate E].
  injection E as <-. unfold search in Es.
  apply search_from_match_at in Es. destruct Es as (p & s & pos & Es).
  apply aadhaar_number_captures in Es.
  destruct Es as (a & b & c & -> & -> & -> & Hd & Hl).
  cbn [text_of]. split; [exact Hd|]. split; [exact Hl|].
  set (v := a ++ b ++ c) in *.
  assert (Hs : Str.strip v = v).
  { destruct v as [|x v'] eqn:Ev; [discriminate Hl|].
    apply strip_digits. exact Hd. }
  unfold calculate_pattern_confidence. rewrite Hs.
  destruct v as [|x v'] eqn:Ev; [discriminate Hl|]. rewrite <- Ev in *.
  unfold pattern_score. cbn [named String.eqb Ascii.eqb Bool.eqb].
  rewrite (digits_no_space v Hd).
  unfold Rx.aadhaar_strict. rewrite (digits_fullmatch 12 v Hd Hl).
  reflexivity.
Qed.

Lemma extracted_aadhaar_number_is_well_formed_witness :
  calculate_pattern_confidence "aadhaar_number" (Some (str "123456789012"))
    "Aadhaar" = 98.
Proof.
  exact (proj2 (proj2
    (extracted_aadhaar_number_is_well_formed (str "No 1234 5678 9012 ok")
       (str "123456789012") "Aadhaar" eq_refl))).
Defined.

(** ** What the Marksheet extractor returns *)

Lemma two_and_zero c :
  (cmatch true (cls (Ascii.eqb "2")) c = true -> c = "2"%char)
  /\ (cmatch true (cls (Ascii.eqb "0")) c = true -> c = "0"%char).
Proof. by_cases_on c. Qed.

Lemma figure_cases c :
  cmatch true cd c = true ->
  In c ["0"; "1"; "2"; "3"; "4"; "5"; "6"; "7"; "8"; "9"]%char.
Proof. by_cases_on c. Qed.

Lemma year_match_captures p s pos m :
  match_at true Extract.MarkRx.year p s pos = Some m ->
  exists c1 c2,
    grp 1 m = Some ["2"; "0"; c1; c2]%char
    /\ cmatch true cd c1 = true /\ cmatch true cd c2 = true.
Proof.
  unfold match_at, Extract.MarkRx.year. cbn [seqs]. intros H.
  do 8 (rewrite rmatch_seq in H; apply rmatch_kont in H;
        destruct H as (? & ? & ? & H)).
  rewrite rmatch_grp in H.
  change (lit "20")
    with (Seq (Cls (cls (Ascii.eqb "2"))) (Seq (Cls (cls (Ascii.eqb "0"))) Eps))
    in H.
  rewrite !rmatch_seq, rmatch_cls in H.
  match type of H with
  | match ?s with _ :: _ => _ | [] => _ end = _ =>
      destruct s as [|a s1]; [discriminate H|]
  end.
  destruct (cmatch true (cls (Ascii.eqb "2")) a) eqn:Ca; [|discriminate H].
  apply two_and_zero in Ca. subst a.
  cbv beta in H. rewrite ?rmatch_seq, rmatch_cls in H.
  destruct s1 as [|b s2]; [discriminate H|].
  destruct (cmatch true (cls (Ascii.eqb "0")) b) eqn:Cb; [|discriminate H].
  apply two_and_zero in Cb. subst b.
  cbn [rmatch] in H. unfold exactly in H.
  apply rep_exactly in H. destruct H as (D & rest & -> & LD & CD & H).
  destruct D as [|c1 [|c2 [|c3 D]]]; try discriminate LD.
  cbn [forallb] in CD. apply andb_true_iff in CD. destruct CD as [C1 CD].
  apply andb_true_iff in CD. destruct CD as [C2 _].
  injection H as <-. exists c1, c2. unfold grp. cbn [m_groups group Nat.eqb].
  repeat split; try assumption. f_equal.
  exact (firstn_prefix ["2"; "0"; c1; c2]%char rest).
Qed.

Lemma mark_names_other (k : string) (lines : list text) : forall fs,
  String.eqb k "student_name" = false -> String.eqb k "father_name" = false ->
  String.eqb k "mother_name" = false ->
  Dict.get (Extract.mark_names lines fs) k = Dict.get fs k.
Proof.
  induction lines as [|l ls IH]; intros fs H1 H2 H3; [reflexivity|].
  cbn [Extract.mark_names].
  destruct (found true Extract.MarkRx.names_above l); [|now apply IH].
  cbv zeta.
  destruct ls as [|l1 [|l2 [|l3 ls]]]; rewrite ?get_set, ?H1, ?H2, ?H3;
    reflexivity.
Qed.

Lemma year_field (t : text) :
  Extract.get (Extract.extract_marksheet_fields t) "year"
  = match Extract.first_of
            (fun ln => option_map (grp 1) (search true Extract.MarkRx.year ln))
            (Str.stripped_lines t) with
    | Some v => v
    | None => None
    end.
Proof.
  unfold Extract.extract_marksheet_fields, Extract.get, get_value.
  cbv zeta. rewrite mark_names_other by reflexivity.
  repeat match goal with
  | |- context [Dict.get (match ?c with Some _ => Dict.set _ _ _ | None => _ end) _] =>
      destruct c
  | |- context [Dict.get (if ?c then _ else _) _] => destruct c
  | |- context [Dict.get (Dict.set _ _ _) _] => rewrite get_set; cbn [String.eqb Ascii.eqb Bool.eqb]
  | |- context [Dict.get (Extract.assign _ _ _) _] =>
      rewrite get_assign; cbn [String.eqb Ascii.eqb Bool.eqb]
  end.
  all: destruct (Extract.first_of (fun ln => option_map (grp 1) _) _);
    [reflexivity|].
  all: destruct (Extract.mark_roll _);
    repeat destruct (Extract.first_of _ _); reflexivity.
Qed.

(** X23. A year that the Marksheet extractor returns is written 20dd,
    whatever the text: its format score is 95, and the cross-field
    validation accepts it up to 2025 and takes 30 points off from 2026
    on. *)
Theorem extracted_year_is_of_this_century (t : text) (v : text) (doc : string) :
  Extract.get (Extract.extract_marksheet_fields t) "year" = Some v ->
  exists n,
    0 <= n <= 99
    /\ Py.int v = Some (2000 + n)
    /\ calculate_pattern_confidence "year" (Some v) doc = 95
    /\ confidence_adjustment (year_finding v) = (if n <=? 25 then 0 else -30).
Proof.
  rewrite year_field.
  destruct (Extract.first_of _ _) as [o|] eqn:E; [|discriminate].
  intros ->. apply first_of_some in E. destruct E as (ln & _ & E).
  destruct (search true Extract.MarkRx.year ln) as [m|] eqn:Es;
    [|discriminate E].
  cbn [option_map] in E. injection E as E.
  unfold search in Es. apply search_from_match_at in Es.
  destruct Es as (p & s & pos & Es).
  apply year_match_captures in Es. destruct Es as (c1 & c2 & Hg & H1 & H2).
  assert (v = ["2"; "0"; c1; c2]%char) by congruence. subst v.
  apply figure_cases in H1. apply figure_cases in H2.
  exists (10 * Py.digit_val c1 + Py.digit_val c2).
  cbn [In] in H1, H2.
  repeat (destruct H1 as [<-|H1]; [|]); try contradiction;
  repeat (destruct H2 as [<-|H2]; [|]); try contradiction;
  vm_compute; repeat split; congruence.
Qed.

Lemma extracted_year_is_of_this_century_witness :
  exists n,
    0 <= n <= 99
    /\ Py.int (str "2031") = Some (2000 + n)
    /\ calculate_pattern_confidence "year" (Some (str "2031")) "Marksheet" = 95
    /\ confidence_adjustment (year_finding (str "2031"))
       = (if n <=? 25 then 0 else -30).
Proof.
  exact (extracted_year_is_of_this_century
           (str "Examination held in March-2031") (str "2031") "Marksheet"
           eq_refl).
Defined.

(** ** What the Voter ID extractor returns *)

Lemma rmatch_alt {A} ci r1 r2 p s g
    (kont : option ascii -> text -> captures -> option A) :
  rmatch ci (Alt r1 r2) p s g kont
  = match rmatch ci r1 p s g kont with
    | Some a => Some a
    | None => rmatch ci r2 p s g kont
    end.
Proof. reflexivity. Qed.

(** A literal matches its characters one by one. *)
Lemma lit_captures {A} ci (w : string) :
  forall p s g (kont : option ascii -> text -> captures -> option A) a,
  rmatch ci (lit w) p s g kont = Some a ->
  exists pre rest p',
    s = pre ++ rest
    /\ Forall2 (fun x c => cmatch ci (cls (Ascii.eqb x)) c = true) (str w) pre
    /\ kont p' rest g = Some a.
Proof.
  unfold lit. induction (str w) as [|x l IH]; intros p s g kont a H.
  - exists [], s, p. repeat split; [constructor | exact H].
  - cbn [fold_right] in H. rewrite rmatch_seq, rmatch_cls in H.
    destruct s as [|c s]; [discriminate H|].
    destruct (cmatch ci (cls (Ascii.eqb x)) c) eqn:C; [|discriminate H].
    apply IH in H. destruct H as (pre & rest & p' & -> & Hw & H).
    exists (c :: pre), rest, p'. repeat split; [now constructor | exact H].
Qed.

Lemma gender_letter x c :
  In x (str "MaleFmOthr") ->
  cmatch true (cls (Ascii.eqb x)) c = true ->
  Char.lower c = Char.lower x /\ Char.upper c = Char.upper x.
Proof.
  intros H. vm_compute in H.
  repeat (destruct H as [<-|H]; [by_cases_on c|]). contradiction.
Qed.

Lemma gender_word (w : string) (pre : text) :
  In w ["Male"; "Female"; "Other"]%string ->
  Forall2 (fun x c => cmatch true (cls (Ascii.eqb x)) c = true) (str w) pre ->
  Str.capitalize pre = str w.
Proof.
  intros Hw H. cbn in Hw.
  repeat (destruct Hw as [<-|Hw];
    [repeat match goal with
     | H : Forall2 _ (_ :: _) _ |- _ => inversion H; subst; clear H
     | H : Forall2 _ [] _ |- _ => inversion H; subst; clear H
     | H : Forall2 _ (str ?w) _ |- _ =>
         let l := eval vm_compute in (str w) in change (str w) with l in *
     end;
     repeat match goal with
     | H : cmatch true (cls (Ascii.eqb ?x)) ?c = true |- _ =>
         apply gender_letter in H; [destruct H as [? ?] | vm_compute; tauto]
     end;
     cbn [Str.capitalize Str.lower map];
     repeat match goal with
     | H : Char.lower _ = _ |- _ => rewrite ?H; clear H
     | H : Char.upper _ = _ |- _ => rewrite ?H; clear H
     end; reflexivity|]).
  contradiction.
Qed.

Lemma gender_match_captures p s pos m :
  match_at true Extract.VoterRx.gender p s pos = Some m ->
  exists w pre,
    In w ["Male"; "Female"; "Other"]%string
    /\ grp 2 m = Some pre
    /\ Forall2 (fun x c => cmatch true (cls (Ascii.eqb x)) c = true)
         (str w) pre.
Proof.
  unfold match_at, Extract.VoterRx.gender. cbn [seqs alts]. intros H.
  do 4 (rewrite rmatch_seq in H; apply rmatch_kont in H;
        destruct H as (? & ? & ? & H)).
  rewrite rmatch_grp, !rmatch_alt in H.
  repeat match type of H with
  | match ?c with Some _ => _ | None => _ end = _ =>
      let E := fresh "E" in destruct c eqn:E; [injection H as ->|]
  end.
  1: exists "Male"%string.
  2: exists "Female"%string.
  3: exists "Other"%string; rename H into E1.
  all: match goal with
       | E : rmatch _ (lit _) _ _ _ _ = Some _ |- _ =>
           apply lit_captures in E;
           destruct E as (pre & rest & p' & -> & Hw & E);
           injection E as <-
       end.
  all: exists pre; unfold grp; cbn [m_groups group Nat.eqb].
  all: repeat split; [cbn; tauto | f_equal; apply firstn_prefix | exact Hw].
Qed.

Lemma voter_gender_field (t : text) (rawdata : bool) :
  Extract.get (Extract.fields (Extract.extract_voter_fields t None rawdata))
    "gender"
  = match search true Extract.VoterRx.gender t with
    | Some m => option_map Str.capitalize (grp 2 m)
    | None => None
    end.
Proof.
  unfold Extract.extract_voter_fields, Extract.with_rawdata, Extract.get,
    get_value.
  cbn [flat_map fold_left andb Extract.fields].
  unfold Extract.voter_by_patterns. cbv zeta.
  destruct (search true Extract.VoterRx.gender t);
    [now rewrite get_set|].
  repeat match goal with
  | |- context [Dict.get (match ?c with Some _ => _ | None => _ end) _] =>
      destruct c
  | |- context [Dict.get (Dict.set _ _ _) _] =>
      rewrite get_set; cbn [String.eqb Ascii.eqb Bool.eqb]
  | |- context [Dict.get (Extract.assign _ _ _) _] =>
      rewrite get_assign; cbn [String.eqb Ascii.eqb Bool.eqb]
  end; try destruct (Extract.first_of _ _); reflexivity.
Qed.

Lemma get_gender_finding fs doc :
  Dict.get (validate_cross_fields fs doc) "gender"
  = if Py.truthy (get_value fs "gender")
       && negb (one_of (Str.lower (Str.strip (text_of (get_value fs "gender"))))
                  valid_genders)
    then Some {| valid := false; confidence_adjustment := -40;
                 finding_reason :=
                   Invalid_gender_value (text_of (get_value fs "gender")) |}
    else None.
Proof.
  unfold validate_cross_fields. cbv zeta.
  destruct (Py.truthy (get_value fs "gender") && _);
    [now rewrite get_set|].
  repeat match goal with
  | |- context [if ?c then Dict.set _ _ _ else _] => destruct c
  end; reflexivity.
Qed.

(** X24. A gender that the Voter ID extractor reads in the text is Male,
    Female or Other, whatever the text.  The cross-field validation has no
    finding against any of the three, but the format rule knows only the
    first two: the format score is 99 for Male and Female and 50 for
    Other. *)
Theorem extracted_gender_and_its_scores
    (t : text) (rawdata : bool) (v : text) (doc : string) :
  let fs := Extract.fields (Extract.extract_voter_fields t None rawdata) in
  Extract.get fs "gender" = Some v ->
  In v [str "Male"; str "Female"; str "Other"]
  /\ Dict.get (validate_cross_fields fs doc) "gender" = None
  /\ calculate_pattern_confidence "gender" (Some v) doc
     = (if Str.eqb v (str "Other") then 50 else 99).
Proof.
  cbv zeta. intros Hget.
  assert (Hv : In v [str "Male"; str "Female"; str "Other"]).
  { rewrite voter_gender_field in Hget.
    destruct (search true Extract.VoterRx.gender t) as [m|] eqn:E;
      [|discriminate Hget].
    unfold search in E. apply search_from_match_at in E.
    destruct E as (p & s & pos & E).
    apply gender_match_captures in E. destruct E as (w & pre & Hw & Hg & Hf).
    rewrite Hg in Hget. cbn [option_map] in Hget. injection Hget as <-.
    rewrite (gender_word w pre Hw Hf).
    cbn in Hw. cbn [In].
    destruct Hw as [<-|[<-|[<-|[]]]]; tauto. }
  split; [exact Hv|].
  rewrite get_gender_finding. unfold Extract.get in Hget. rewrite Hget.
  cbn [In] in Hv.
  destruct Hv as [<-|[<-|[<-|[]]]]; vm_compute; split; reflexivity.
Qed.

Lemma extracted_gender_and_its_scores_witness :
  calculate_pattern_confidence "gender" (Some (str "Other")) "Voter ID" = 50.
Proof.
  exact (proj2 (proj2
    (extracted_gender_and_its_scores (str "Sex: OTHER") false (str "Other")
       "Voter ID" eq_refl))).
Defined.

(** ** Binary floating point

    The scores are computed in binary64 in the source and in exact rationals
    above.  On the constants of the format rules, on the three table
    penalties and on the fusion with its default signals, for every pair of
    component scores, the two computations give the same integer. *)

Module Binary64Facts.
Import PrimFloat.
Import Binary64.
Set Warnings "-inexact-float".

Lemma pattern_constants_agree :
  map percentage
    [0.98; 0.75; 0.40; 0.70; 0.35; 0.95; 0.65; 0.45; 0.97; 0.92; 0.50; 0.60;
     0.99; 0.30; 0.88; 0.85; 0.55; 0.90; 0.0;
     0.88 * 0.75; 0.88 * 0.85; 0.88 * 0.75 * 0.85;
     0.75 * 0.75; 0.75 * 0.85; 0.75 * 0.75 * 0.85;
     0.70 * 0.75; 0.70 * 0.85; 0.70 * 0.75 * 0.85;
     0.60 * 0.75; 0.60 * 0.85; 0.60 * 0.75 * 0.85;
     0.35 * 0.75; 0.35 * 0.85; 0.35 * 0.75 * 0.85]%float
  = map (fun q => Some (Py.round (q * 100)))
    [0.98; 0.75; 0.40; 0.70; 0.35; 0.95; 0.65; 0.45; 0.97; 0.92; 0.50; 0.60;
     0.99; 0.30; 0.88; 0.85; 0.55; 0.90; 0.0;
     0.88 * 0.75; 0.88 * 0.85; 0.88 * 0.75 * 0.85;
     0.75 * 0.75; 0.75 * 0.85; 0.75 * 0.75 * 0.85;
     0.70 * 0.75; 0.70 * 0.85; 0.70 * 0.75 * 0.85;
     0.60 * 0.75; 0.60 * 0.85; 0.60 * 0.75 * 0.85;
     0.35 * 0.75; 0.35 * 0.85; 0.35 * 0.75 * 0.85]%Q.
Proof. vm_compute. reflexivity. Qed.

Lemma penalties_agree :
  forallb
    (fun c =>
       match penalised c 0.6, penalised c 0.75, penalised c 0.9 with
       | Some a, Some b, Some d =>
           (a =? Py.trunc (inject_Z c * 0.6))
           && (b =? Py.trunc (inject_Z c * 0.75))
           && (d =? Py.trunc (inject_Z c * 0.9))
       | _, _, _ => false
       end)
    (upto 101) = true.
Proof. vm_compute. reflexivity. Qed.

Lemma fusion_agrees_without_signals :
  forallb
    (fun p =>
       forallb
         (fun b =>
            match hybrid (of_Z p) (of_Z p) 75.0 (of_Z b) with
            | Some z =>
                z =? Py.round (inject_Z p * 0.40 + inject_Z p * 0.30
                               + 75.0 * 0.20 + inject_Z b * 0.10)
            | None => false
            end)
         (upto 101))
    (upto 101) = true.
Proof. vm_compute. reflexivity. Qed.
End Binary64Facts.
